(** * DICOM study retrieval, ordering, pixel pipeline, PDF document
      and service

    A shallow embedding of [app/models.py], [app/dicomweb_utils.py],
    [app/image_utils.py], [app/pdf_utils.py] and [app/main.py], followed
    by the properties of the ordering layer, the retrieval scheduler,
    the pixel pipeline, the document layout and the service endpoints.

    Conventions of the embedding:
    - Python [int] is [Z]; object identities ([id(obj)]) are [N].
    - Python [float] values that take part in a comparison or in window
      arithmetic are finite numbers, written as rationals [Q] with exact
      arithmetic; [==] on floats is [Qeq].  NaN and infinities have no
      counterpart here.
    - The items of a numpy array, and what [a.min()] and [a.max()]
      return, are numbers of the dtype of the array: arithmetic between
      two of them stays in that dtype and wraps around when it is an
      integer dtype.
    - An attribute of a pydicom dataset that may be missing is an
      [option]: [hasattr(ds, 'X')] is [is_Some (X ds)].  The attribute
      [filename], which is present with the value [None] on every
      dataset read from a buffer, is an [option] of an [option].
    - A call that may raise returns [result]; every exception that the
      modelled code can meet derives from Python's [Exception].
    - A [dict] is a [gmap]; the insertion order of a dict is not observed
      by the functions of the first three modules, and where
      [pdf_utils.py] iterates over a dict the order is some arrangement
      of its items.
    - Strings are byte strings; [str.strip()] removes the ASCII
      whitespace characters. *)

From Stdlib Require Import ZArith QArith Qround Qminmax Lqa Lia.
From Stdlib Require Import Strings.String Strings.Ascii.
From Stdlib Require Import DecimalString DecimalPos DecimalN DecimalZ.
From Stdlib Require Import Sorting.Sorted Sorting.Permutation.
From stdpp Require Import base option list gmap strings fin_maps.

Local Open Scope string_scope.
Local Open Scope Z_scope.

(** ** Python values shared by the modules *)

Module Py.

(** [str(n)] for an [int] *)
Definition str_int (z : Z) : string := NilZero.string_of_int (Z.to_int z).

(** [str(n)] for a non-negative [int] such as [id(obj)] *)
Definition str_nat (n : N) : string := NilZero.string_of_uint (N.to_uint n).

(** The exception classes that the code raises, catches by class, or
    receives from a library call.  All of them are subclasses of
    [Exception]. *)
Inductive exn : Type :=
| ValueError (msg : string)
| TypeError (msg : string)
| IndexError (msg : string)
| AttributeError (msg : string)
| HTTPError (code : Z) (msg : string)
| URLError (msg : string)
| OtherException (msg : string).

(** [str(e)] *)
Definition exn_str (e : exn) : string :=
  match e with
  | ValueError m | TypeError m | IndexError m | AttributeError m
  | URLError m | OtherException m => m
  | HTTPError code m => "HTTP Error " ++ str_int code ++ ": " ++ m
  end.

Inductive result (A : Type) : Type :=
| Ok (a : A)
| Raise (e : exn).
Arguments Ok {A} a.
Arguments Raise {A} e.

#[global] Instance result_ret : MRet result := fun A a => Ok a.

#[global] Instance result_bind : MBind result := fun A B k m =>
  match m with
  | Ok a => k a
  | Raise e => Raise e
  end.

(** [try: m  except Exception as e: h e] *)
Definition try_except {A} (m : result A) (h : exn -> result A) : result A :=
  match m with
  | Ok a => Ok a
  | Raise e => h e
  end.

(** [max(a, b)] on numbers: the first maximal argument *)
Definition max (a b : Q) : Q := if Qlt_le_dec a b then b else a.

(** [min(a, b)] on ints: the first minimal argument *)
Definition min (a b : Z) : Z := if (b <? a) then b else a.

(** Truth value of a [str]: the empty string is false. *)
Definition truthy_str (s : string) : bool := negb (String.eqb s "").

(** [for x in l: s = body(s, x)], where the body may raise *)
Fixpoint for_each {A S} (body : S -> A -> result S) (s : S) (l : list A)
    : result S :=
  match l with
  | [] => Ok s
  | x :: l' => s' ← body s x; for_each body s' l'
  end.

(** A stable sort whose comparison [lt] cannot raise, such as the sort
    of numbers inside [np.percentile].  Elements are taken from the back
    of the list and each is placed in front of the first element that is
    not smaller than it, which is the result every stable sort
    returns. *)
Fixpoint insert_by {A} (lt : A -> A -> bool) (x : A) (l : list A) : list A :=
  match l with
  | [] => [x]
  | y :: l' => if lt y x then y :: insert_by lt x l' else x :: l
  end.

Definition list_sort {A K} (key : A -> K) (lt : K -> K -> bool)
    (l : list A) : list A :=
  foldr (insert_by (fun a b => lt (key a) (key b))) [] l.

(** [list.sort(key=key)]: the keys are compared with [<] only, the sort
    is stable, and a comparison that raises ends the sort with its
    exception.  The elements are placed as in [insert_by]. *)
Fixpoint insert_with {A} (lt : A -> A -> result bool) (x : A) (l : list A)
    : result (list A) :=
  match l with
  | [] => Ok [x]
  | y :: l' =>
      smaller ← lt y x;
      if smaller : bool then placed ← insert_with lt x l'; Ok (y :: placed)
      else Ok (x :: l)
  end.

Definition list_sort_with {A K} (key : A -> K) (lt : K -> K -> result bool)
    (l : list A) : result (list A) :=
  foldr (fun x sorted_tail =>
           sorted ← sorted_tail;
           insert_with (fun a b => lt (key a) (key b)) x sorted)
    (Ok []) l.

End Py.

(** ** app/models.py *)

Module Models.

(** The attributes of a [pydicom.Dataset] that [models.py] and
    [dicomweb_utils.py] read.  [ImagePositionPatient] is a sequence whose
    items either convert with [float()] ([Some q]) or make it raise
    [ValueError]/[TypeError] ([None]); [InstanceNumber] likewise for
    [int()].  [filename] is an attribute of the datasets that pydicom
    reads: the path, for one read from a path ([Some (Some path)]), and
    the value [None], for one read from a buffer ([Some None]); a
    dataset built in memory has no such attribute ([None]). *)
Record Dataset : Type := {
  ds_id : N;                                  (* id(ds) *)
  ds_len : nat;                               (* len(ds), number of elements *)
  filename : option (option string);
  ImagePositionPatient : option (list (option Q));
  InstanceNumber : option (option Z);
  SeriesInstanceUID : option string;
  SeriesDescription : option string;
  Modality : option string;
  PatientName : option string;
  PatientID : option string;
  StudyDate : option string;
  AccessionNumber : option string;
  StudyDescription : option string
}.

(** [getattr(ds, name, default)] *)
Definition getattr {A} (attr : option A) (default : A) : A :=
  match attr with Some v => v | None => default end.

Definition hasattr {A} (attr : option A) : bool :=
  match attr with Some _ => true | None => false end.

(** The tuples that [sort_key] returns.  The annotation of the source
    is [Tuple[float, int, str]]; the third item is whatever [getattr]
    returns, a [str] or [None]. *)
Definition Key : Type := Q * Z * option string.

(** [f1 == f2] on third items *)
Definition name_eqb (f1 f2 : option string) : bool :=
  match f1, f2 with
  | Some s1, Some s2 => String.eqb s1 s2
  | None, None => true
  | _, _ => false
  end.

(** [f1 < f2] on third items: [str] is ordered, [None] is not. *)
Definition name_lt (f1 f2 : option string) : Py.result bool :=
  match f1, f2 with
  | Some s1, Some s2 => Py.Ok (String.ltb s1 s2)
  | None, Some _ =>
      Py.Raise (Py.TypeError
        "'<' not supported between instances of 'NoneType' and 'str'")
  | Some _, None =>
      Py.Raise (Py.TypeError
        "'<' not supported between instances of 'str' and 'NoneType'")
  | None, None =>
      Py.Raise (Py.TypeError
        "'<' not supported between instances of 'NoneType' and 'NoneType'")
  end.

(** [a == b] on key tuples *)
Definition key_eqb (a b : Key) : bool :=
  let '(z1, n1, f1) := a in
  let '(z2, n2, f2) := b in
  Qeq_bool z1 z2 && (n1 =? n2) && name_eqb f1 f2.

(** [a < b] on key tuples: the first position whose items differ
    decides, by [<] on those items; equal tuples are not smaller. *)
Definition key_lt (a b : Key) : Py.result bool :=
  let '(z1, n1, f1) := a in
  let '(z2, n2, f2) := b in
  if negb (Qeq_bool z1 z2) then
    Py.Ok (match Qcompare z1 z2 with Lt => true | _ => false end)
  else if negb (n1 =? n2) then Py.Ok (n1 <? n2)
  else if negb (name_eqb f1 f2) then name_lt f1 f2
  else Py.Ok false.

Definition z_pos (ds : Dataset) : Q :=
  match ImagePositionPatient ds with
  | Some ((_ :: _) as ipp) =>
      match ipp !! 2%nat with
      | Some (Some q) => q          (* float(ds.ImagePositionPatient[2]) *)
      | Some None => 0%Q            (* ValueError, TypeError *)
      | None => 0%Q                 (* IndexError *)
      end
  | _ => 0%Q
  end.

Definition instance_num (ds : Dataset) : Z :=
  match InstanceNumber ds with
  | Some (Some n) => n              (* int(ds.InstanceNumber) *)
  | Some None => 0                  (* ValueError, TypeError *)
  | None => 0
  end.

Definition sort_key (ds : Dataset) : Key :=
  (z_pos ds, instance_num ds,
   getattr (filename ds) (Some (Py.str_nat (ds_id ds)))).

Module DicomSeries.

Record t : Type := {
  series_uid : string;
  series_description : string;
  instances : list Dataset;
  modality : string
}.

Definition init (uid : string) (description : string) : t :=
  {| series_uid := uid; series_description := description;
     instances := []; modality := "" |}.

Definition add_instance (self : t) (dataset : Dataset) : t :=
  {| series_uid := series_uid self;
     series_description := series_description self;
     instances := instances self ++ [dataset];
     modality :=
       match Modality dataset with
       | Some m => if Py.truthy_str (modality self) then modality self else m
       | None => modality self
       end |}.

(** [self.instances.sort(key=sort_key)].  Which pairs of keys a sort
    compares depends on its algorithm; whether one of its comparisons
    raises does not: a sort that returns has settled the order of every
    two elements, so it has compared some [None] with some [str] if two
    keys that agree on their first two items have one each. *)
Definition sort_instances (self : t) : Py.result t :=
  sorted ← Py.list_sort_with sort_key key_lt (instances self);
  Py.Ok {| series_uid := series_uid self;
           series_description := series_description self;
           instances := sorted;
           modality := modality self |}.

End DicomSeries.

Module DicomStudy.

Record t : Type := {
  study_uid : string;
  series : gmap string DicomSeries.t;
  patient_name : string;
  patient_id : string;
  study_date : string;
  accession_number : string;
  study_description : string
}.

Definition init (uid : string) : t :=
  {| study_uid := uid; series := ∅; patient_name := ""; patient_id := "";
     study_date := ""; accession_number := ""; study_description := "" |}.

(** [if not field and hasattr(dataset, 'Attr'): field = str(dataset.Attr)] *)
Definition update_field (field : string) (attr : option string) : string :=
  if negb (Py.truthy_str field) && hasattr attr then getattr attr "" else field.

Definition add_instance (self : t) (dataset : Dataset) : t :=
  let uid := getattr (SeriesInstanceUID dataset) "UNKNOWN" in
  let series1 :=
    match series self !! uid with
    | Some _ => series self
    | None =>
        <[uid := DicomSeries.init uid (getattr (SeriesDescription dataset) "")]>
          (series self)
    end in
  let series2 :=
    alter (fun s => DicomSeries.add_instance s dataset) uid series1 in
  {| study_uid := study_uid self;
     series := series2;
     patient_name := update_field (patient_name self) (PatientName dataset);
     patient_id := update_field (patient_id self) (PatientID dataset);
     study_date := update_field (study_date self) (StudyDate dataset);
     accession_number :=
       update_field (accession_number self) (AccessionNumber dataset);
     study_description :=
       update_field (study_description self) (StudyDescription dataset) |}.

(** [for series in self.series.values(): series.sort_instances()]: each
    series is sorted in place; the first sort that raises ends the
    loop. *)
Definition finalize (self : t) : Py.result t :=
  sorted ←
    Py.for_each
      (fun all_series '(uid, series) =>
         series' ← DicomSeries.sort_instances series;
         Py.Ok (<[uid := series']> all_series))
      (series self) (map_to_list (series self));
  Py.Ok {| study_uid := study_uid self;
           series := sorted;
           patient_name := patient_name self;
           patient_id := patient_id self;
           study_date := study_date self;
           accession_number := accession_number self;
           study_description := study_description self |}.

End DicomStudy.

End Models.

(** ** app/dicomweb_utils.py *)

Module DicomwebUtils.

Import Py.
Export Models.

(** *** Strings and URLs *)

(** The characters [str.strip()] removes when called without argument. *)
Definition is_space (c : ascii) : bool :=
  let n := N_of_ascii c in
  ((9 <=? n) && (n <=? 13) || (28 <=? n) && (n <=? 32))%N.

(** The double quote (code 34) and the single quote (code 39) *)
Definition is_quote (c : ascii) : bool :=
  ((N_of_ascii c =? 34) || (N_of_ascii c =? 39))%N.

Fixpoint lstrip_chars (p : ascii -> bool) (s : list ascii) : list ascii :=
  match s with
  | c :: s' => if p c then lstrip_chars p s' else s
  | [] => []
  end.

Definition rstrip_chars (p : ascii -> bool) (s : list ascii) : list ascii :=
  rev (lstrip_chars p (rev s)).

(** [s.strip(chars)] *)
Definition strip (p : ascii -> bool) (s : string) : string :=
  string_of_list_ascii
    (rstrip_chars p (lstrip_chars p (list_ascii_of_string s))).

(** [s.rstrip(chars)] *)
Definition rstrip (p : ascii -> bool) (s : string) : string :=
  string_of_list_ascii (rstrip_chars p (list_ascii_of_string s)).

Definition hex_digit (n : N) : ascii :=
  if (n <? 10)%N then ascii_of_N (48 + n) else ascii_of_N (55 + n).

(** [urllib.parse.quote_plus] on one character *)
Definition quote_plus_char (c : ascii) : list ascii :=
  let n := N_of_ascii c in
  if ((48 <=? n) && (n <=? 57) || (65 <=? n) && (n <=? 90)
      || (97 <=? n) && (n <=? 122))%N
     || Ascii.eqb c "_" || Ascii.eqb c "." || Ascii.eqb c "-"
     || Ascii.eqb c "~"
  then [c]
  else if Ascii.eqb c " " then ["+"%char]
  else ["%"%char; hex_digit (n / 16); hex_digit (n mod 16)].

Definition quote_plus (s : string) : string :=
  string_of_list_ascii (flat_map quote_plus_char (list_ascii_of_string s)).

(** [urllib.parse.urlencode(params)] *)
Definition urlencode (params : list (string * string)) : string :=
  String.concat "&"
    (map (fun kv => quote_plus (fst kv) ++ "=" ++ quote_plus (snd kv)) params).

(** *** The network and the decoders, as the module sees them *)

Record Request : Type := {
  req_url : string;
  req_headers : list (string * string);
  req_timeout : Z
}.

Record Response : Type := {
  status : Z;
  read : result string            (* response.read() *)
}.

(** [{ studies: [ { study_iuid, series: [ { series_iuid, instances:
    [ { sop_iuid } ] } ] } ] }]; a key that [dict.get] may miss is an
    [option]. *)
Record InstanceData : Type := { sop_iuid : option string }.

Record SeriesData : Type := {
  series_iuid : option string;
  instances : option (list InstanceData)
}.

Record StudyData : Type := {
  study_iuid : option string;
  series : option (list SeriesData)
}.

Record Metadata : Type := {
  other_keys : list string;       (* keys of the response besides 'studies' *)
  studies : option (list StudyData)
}.

(** The order in which [concurrent.futures.as_completed] yields the
    submitted futures: some rearrangement of them. *)
Record Scheduler : Type := {
  as_completed : forall A : Type, list A -> list A;
  as_completed_perm : forall (A : Type) (l : list A), as_completed A l ≡ₚ l
}.

Record Env : Type := {
  DICOM_WADO_URL : option string;            (* os.getenv('DICOM_WADO_URL') *)
  urlopen : Request -> result Response;      (* urllib.request.urlopen *)
  json_loads : string -> result Metadata;    (* decode('utf-8'), json.loads,
                                                metadata.keys() *)
  dcmread : string -> result Dataset;        (* pydicom.dcmread(BytesIO(data)) *)
  (* a dataset read from a buffer has the attribute filename, set to None *)
  dcmread_filename :
    forall data ds, dcmread data = Ok ds -> filename ds = Some None;
  scheduler : Scheduler
}.

(** *** Effects: requests sent and log records written

    Records below warning level are left out of the trace. *)

Inductive level : Type := WARNING | ERROR.

Inductive event : Type :=
| EvRequest (req : Request)
| EvLog (lvl : level) (msg : string).

(** A computation writes a trace and returns or raises. *)
Definition IO (A : Type) : Type := list event * result A.

#[global] Instance IO_ret : MRet IO := fun A a => ([], Ok a).

#[global] Instance IO_bind : MBind IO := fun A B k m =>
  match m with
  | (tr, Ok a) => let '(tr', r) := k a in ((tr ++ tr')%list, r)
  | (tr, Raise e) => (tr, Raise e)
  end.

Definition lift {A} (r : result A) : IO A := ([], r).

Definition raise {A} (e : exn) : IO A := ([], Raise e).

Definition log (lvl : level) (msg : string) : IO unit :=
  ([EvLog lvl msg], Ok tt).

Definition send (env : Env) (req : Request) : IO Response :=
  ([EvRequest req], urlopen env req).

(** [try: m  except Exception as e: h e] *)
Definition IO_try {A} (m : IO A) (h : exn -> IO A) : IO A :=
  match m with
  | (tr, Ok a) => (tr, Ok a)
  | (tr, Raise e) => let '(tr', r) := h e in ((tr ++ tr')%list, r)
  end.

(** The value of a computation, its trace dropped. *)
Definition run {A} (m : IO A) : result A := snd m.

(** *** The functions of the module *)

Definition get_dicom_wado_url (env : Env) : result string :=
  let url := strip is_space (getattr (DICOM_WADO_URL env) "") in
  let url := strip is_quote url in
  if truthy_str url then Ok url
  else Raise (ValueError
         "DICOM_WADO_URL environment variable not configured or empty").

Definition is_slash (c : ascii) : bool := Ascii.eqb c "/".

Definition get_study_metadata (env : Env) (study_iuid : string)
    : IO Metadata :=
  IO_try
    (dicom_wado_url ← lift (get_dicom_wado_url env);
     let metadata_url :=
       rstrip is_slash dicom_wado_url ++ "?studyUID=" ++ study_iuid in
     let req := {| req_url := metadata_url;
                   req_headers := [("Accept", "application/json");
                                   ("User-Agent", "DICOM-PDF-Converter/1.0")];
                   req_timeout := 30 |} in
     response ← send env req;
     if status response =? 200 then
       content ← lift (read response);
       lift (json_loads env content)
     else
       raise (HTTPError (status response)
                ("HTTP " ++ str_int (status response))))
    (fun e =>
       _ ← log ERROR ("❌ Failed to fetch study metadata: " ++ exn_str e);
       raise e).

Definition download_dicom_instance (env : Env)
    (study_uid series_uid sop_uid : string) : IO (option Dataset) :=
  IO_try
    (dicom_wado_url ← lift (get_dicom_wado_url env);
     let params := [("studyUID", study_uid); ("seriesUID", series_uid);
                    ("objectUID", sop_uid)] in
     let instance_url :=
       rstrip is_slash dicom_wado_url ++ "/images?" ++ urlencode params in
     let req := {| req_url := instance_url;
                   req_headers := [("Accept", "application/dicom");
                                   ("User-Agent", "DICOM-PDF-Converter/1.0");
                                   ("Connection", "keep-alive")];
                   req_timeout := 15 |} in
     response ← send env req;
     if status response =? 200 then
       dicom_data ← lift (read response);
       dataset ← lift (dcmread env dicom_data);
       mret (Some dataset)
     else
       raise (HTTPError (status response)
                ("HTTP " ++ str_int (status response))))
    (fun e =>
       _ ← log WARNING ("⚠️ Failed to download instance " ++ sop_uid
                          ++ ": " ++ exn_str e);
       mret None).

Definition optimize_max_workers (total_instances requested_workers : Z) : Z :=
  if total_instances <=? 2 then 1
  else if total_instances <=? 10 then min 2 requested_workers
  else if total_instances <=? 50 then min 4 requested_workers
  else min 8 requested_workers.

(** Truth value of what [dict.get(key)] returned for a uid: [None] and
    the empty string are false. *)
Definition truthy_uid (o : option string) : option string :=
  match o with
  | Some s => if truthy_str s then Some s else None
  | None => None
  end.

(** Truth value of what [download_dicom_instance] returned: [None] is
    false, and so is a dataset without elements ([len(ds) == 0]). *)
Definition truthy_dataset (o : option Dataset) : option Dataset :=
  match o with
  | Some ds => if (ds_len ds =? 0)%nat then None else Some ds
  | None => None
  end.

Definition count_instances (metadata : Metadata) : Z :=
  foldl (fun total study_data =>
           foldl (fun total series_data =>
                    total + Z.of_nat (length (getattr (instances series_data) [])))
                 total (getattr (series study_data) []))
        0 (getattr (studies metadata) []).

(** [dataset = <outcome>; if dataset: downloaded_instances.append(dataset)] *)
Definition collect (downloaded : list Dataset)
    (outcome : result (option Dataset)) : result (list Dataset) :=
  dataset ← outcome;
  match truthy_dataset dataset with
  | Some ds => Ok (downloaded ++ [ds])%list
  | None => Ok downloaded
  end.

(** The futures submitted for a series: one per instance with a usable
    [sop_iuid], each holding the outcome of its download. *)
Definition submit_all (env : Env) (study_uid series_uid : string)
    (instances : list InstanceData)
    : list (result (option Dataset) * string) :=
  flat_map (fun instance_data =>
              match truthy_uid (sop_iuid instance_data) with
              | Some sop_uid =>
                  [(run (download_dicom_instance env study_uid series_uid
                           sop_uid), sop_uid)]
              | None => []
              end) instances.

(** The download of one series (the body of the series loop up to the
    list [downloaded_instances]). *)
Definition download_series (env : Env) (study_uid series_uid : string)
    (max_workers : Z) (instances : list InstanceData)
    : result (list Dataset) :=
  if (1 <? max_workers) && (2 <=? Z.of_nat (length instances)) then
    let future_to_sop := submit_all env study_uid series_uid instances in
    for_each (fun downloaded future => collect downloaded (fst future))
      [] (as_completed (scheduler env) _ future_to_sop)
  else
    for_each (fun downloaded instance_data =>
                match truthy_uid (sop_iuid instance_data) with
                | Some sop_uid =>
                    collect downloaded
                      (run (download_dicom_instance env study_uid series_uid
                              sop_uid))
                | None => Ok downloaded
                end) [] instances.

Definition process_series (env : Env) (study_uid : string) (max_workers : Z)
    (dicom_study : DicomStudy.t) (series_data : SeriesData)
    : result DicomStudy.t :=
  match truthy_uid (series_iuid series_data) with
  | None => Ok dicom_study                       (* continue *)
  | Some series_uid =>
      let instances := getattr (instances series_data) [] in
      downloaded_instances ←
        download_series env study_uid series_uid max_workers instances;
      Ok (foldl DicomStudy.add_instance dicom_study downloaded_instances)
  end.

Definition process_study (env : Env) (max_workers : Z)
    (studies : gmap string DicomStudy.t) (study_data : StudyData)
    : result (gmap string DicomStudy.t) :=
  match truthy_uid (study_iuid study_data) with
  | None => Ok studies                           (* continue *)
  | Some study_uid =>
      dicom_study ←
        for_each (process_series env study_uid max_workers)
          (DicomStudy.init study_uid) (getattr (series study_data) []);
      if (size (DicomStudy.series dicom_study) =? 0)%nat then Ok studies
      else
        dicom_study ← DicomStudy.finalize dicom_study;
        Ok (<[study_uid := dicom_study]> studies)
  end.

Definition repr_keys (keys : list string) : string :=
  "[" ++ String.concat ", " (map (fun k => "'" ++ k ++ "'") keys) ++ "]".

Definition process_dicom_wado_study (env : Env) (study_iuid : string)
    (max_workers : Z) : result (gmap string DicomStudy.t) :=
  try_except
    (dicom_wado_url ← get_dicom_wado_url env;
     metadata ← run (get_study_metadata env study_iuid);
     let total_instances_count := count_instances metadata in
     let max_workers :=
       optimize_max_workers total_instances_count max_workers in
     match studies metadata with
     | None =>
         Raise (ValueError
           ("Invalid metadata structure: missing 'studies' key. "
            ++ "Available keys: " ++ repr_keys (other_keys metadata)))
     | Some study_list =>
         for_each (process_study env max_workers) ∅ study_list
     end)
    (fun e => Raise e).

End DicomwebUtils.

(** ** app/image_utils.py *)

Module ImageUtils.

Import Py.

(** The numpy, PIL and pydicom operations that the module calls.  Each
    either returns or raises; [shape] and the dtype test only read the
    array.  What [a.min()] and [a.max()] return are numpy scalars of the
    dtype of [a]: sums and differences of two of them, and the
    difference of [a] and one of them, are computed in that dtype, where
    an integer result that is out of range wraps around. *)
Class ArrayLib : Type := {
  ndarray : Type;
  image : Type;
  shape : ndarray -> list nat;                      (* a.shape *)
  is_uint8 : ndarray -> bool;                       (* a.dtype == np.uint8 *)
  np_getitem : ndarray -> Z -> result ndarray;      (* a[i] *)
  np_channel : ndarray -> nat -> result ndarray;    (* a[:, :, k] *)
  np_percentile_2_98 : ndarray -> result (Q * Q);   (* np.percentile(a, [2, 98]) *)
  np_min : ndarray -> result Q;                     (* a.min() *)
  np_max : ndarray -> result Q;                     (* a.max() *)
  np_item_add : ndarray -> Q -> Q -> Q;             (* x + y, items of a *)
  np_item_sub : ndarray -> Q -> Q -> Q;             (* x - y, items of a *)
  np_clip : ndarray -> Q -> Q -> result ndarray;    (* np.clip(a, lo, hi) *)
  np_add : ndarray -> Q -> result ndarray;          (* a + x *)
  np_sub : ndarray -> Q -> result ndarray;          (* a - x *)
  np_sub_item : ndarray -> Q -> result ndarray;     (* a - x, x an item of a *)
  np_rsub : Q -> ndarray -> result ndarray;         (* x - a *)
  np_mul : ndarray -> Q -> result ndarray;          (* a * x *)
  np_div : ndarray -> Q -> result ndarray;          (* a / x *)
  np_add_arr : ndarray -> ndarray -> result ndarray;  (* a + b *)
  np_sub_arr : ndarray -> ndarray -> result ndarray;  (* a - b *)
  np_full_like : ndarray -> Q -> result ndarray;    (* np.full_like(a, x) *)
  astype_uint8 : ndarray -> result ndarray;         (* a.astype(np.uint8) *)
  astype_float32 : ndarray -> result ndarray;       (* a.astype(np.float32) *)
  np_stack3 : ndarray -> ndarray -> ndarray -> result ndarray;
                                                    (* np.stack([r, g, b], axis=2) *)
  Image_fromarray : ndarray -> string -> result image;
                                                    (* Image.fromarray(a, mode=m) *)
  Image_new : string -> nat * nat -> Z -> image     (* Image.new(m, size, color) *)
}.

(** A value stored in a dataset attribute, as [float()] and
    [isinstance(v, (list, tuple))] see it.  pydicom holds an attribute
    of several values as a [MultiValue], which is a sequence but neither
    a [list] nor a [tuple]. *)
Inductive scalar : Type :=
| Num (q : Q)                 (* float(v) returns q *)
| Unparsable                  (* float(v) raises ValueError *)
| NoneVal.                    (* float(v) raises TypeError *)

Inductive value : Type :=
| One (v : scalar)
| Seq (items : list scalar)   (* a list or tuple *)
| Multi (items : list scalar). (* a pydicom MultiValue *)

Definition py_float (v : value) : result Q :=
  match v with
  | One (Num q) => Ok q
  | One Unparsable => Raise (ValueError "could not convert string to float")
  | One NoneVal =>
      Raise (TypeError "float() argument must be a string or a real number")
  | Seq _ | Multi _ =>
      Raise (TypeError "float() argument must be a string or a real number")
  end.

(** [v != x] for a float [x] *)
Definition value_ne (v : value) (x : Q) : bool :=
  match v with
  | One (Num q) => negb (Qeq_bool q x)
  | _ => true
  end.

(** [if isinstance(v, (list, tuple)): v = v[0]] *)
Definition take_first (v : value) : result value :=
  match v with
  | Seq (v0 :: _) => Ok (One v0)
  | Seq [] => Raise (IndexError "list index out of range")
  | One _ | Multi _ => Ok v
  end.

Inductive meta_value : Type :=
| MNone
| MFloat (q : Q)
| MInt (z : Z)
| MStr (s : string).

Definition meta_float (o : option Q) : meta_value :=
  match o with Some q => MFloat q | None => MNone end.

(** [repr] of a shape tuple *)
Definition repr_shape (s : list nat) : string :=
  match s with
  | [] => "()"
  | [n] => "(" ++ str_int (Z.of_nat n) ++ ",)"
  | _ => "(" ++ String.concat ", " (map (fun n => str_int (Z.of_nat n)) s) ++ ")"
  end.

Section Pipeline.

Context {lib : ArrayLib}.

(** The attributes of a [pydicom.Dataset] that [image_utils.py] reads,
    with the outcome of the calls it makes on the dataset. *)
Record Dataset : Type := {
  file_meta : bool;                              (* hasattr(ds, 'file_meta') *)
  decompress : result unit;                      (* ds.decompress() *)
  pixel_array : result ndarray;                  (* ds.pixel_array *)
  apply_color_lut : ndarray -> result ndarray;   (* apply_color_lut(a, ds) *)
  PhotometricInterpretation : option string;
  NumberOfFrames : option Z;
  WindowCenter : option value;
  WindowWidth : option value;
  RescaleSlope : option value;
  RescaleIntercept : option value
}.

Definition getattr {A} (attr : option A) (default : A) : A :=
  match attr with Some v => v | None => default end.

Definition apply_rescale (pixel_array : ndarray) (dataset : Dataset)
    : ndarray :=
  let slope := getattr (RescaleSlope dataset) (One (Num 1)) in
  let intercept := getattr (RescaleIntercept dataset) (One (Num 0)) in
  let body : result ndarray :=
    if value_ne slope 1 || value_ne intercept 0 then
      s ← py_float slope;
      scaled ← np_mul pixel_array s;
      i ← py_float intercept;
      np_add scaled i
    else Ok pixel_array in
  match body with
  | Ok a => a
  | Raise _ => pixel_array
  end.

(** [((a - window_min) / (window_max - window_min) * 255)] on Python
    floats *)
Definition scale_to_255 (a : ndarray) (lo hi : Q) : result ndarray :=
  shifted ← np_sub a lo;
  unit ← np_div shifted (hi - lo);
  np_mul unit 255.

(** [((a - pixel_min) / (pixel_max - pixel_min) * 255)] on the numpy
    scalars that [src.min()] and [src.max()] returned *)
Definition scale_items_to_255 (a : ndarray) (src : ndarray)
    (pixel_min pixel_max : Q) : result ndarray :=
  shifted ← np_sub_item a pixel_min;
  unit ← np_div shifted (np_item_sub src pixel_max pixel_min);
  np_mul unit 255.

(** The handler of [apply_window]: min-max normalisation of the array
    that [pixel_array] names when the exception arrives. *)
Definition apply_window_fallback (pixel_array : ndarray) : result ndarray :=
  pixel_min ← np_min pixel_array;
  pixel_max ← np_max pixel_array;
  pixel_array ←
    (if negb (Qeq_bool pixel_max pixel_min)
     then scale_items_to_255 pixel_array pixel_array pixel_min pixel_max
     else np_full_like pixel_array 128);
  astype_uint8 pixel_array.

Definition apply_window (pixel_array : ndarray)
    (window_center window_width : Q) : result ndarray :=
  let window_min := (window_center - window_width / 2)%Q in
  let window_max := (window_center + window_width / 2)%Q in
  match np_clip pixel_array window_min window_max with
  | Raise _ => apply_window_fallback pixel_array
  | Ok clipped =>
      match (if negb (Qeq_bool window_max window_min)
             then scale_to_255 clipped window_min window_max
             else np_full_like clipped 128) with
      | Raise _ => apply_window_fallback clipped
      | Ok scaled =>
          match astype_uint8 scaled with
          | Raise _ => apply_window_fallback scaled
          | Ok out => Ok out
          end
      end
  end.

Definition auto_window (pixel_array : ndarray) : result (Q * Q) :=
  try_except
    ('(p2, p98) ← np_percentile_2_98 pixel_array;
     let window_center := ((p2 + p98) / 2)%Q in
     let window_width := (p98 - p2)%Q in
     window_width ←
       (if Qlt_le_dec window_width 1 then
          pixel_max ← np_max pixel_array;
          pixel_min ← np_min pixel_array;
          Ok (Py.max 1 (np_item_sub pixel_array pixel_max pixel_min))
        else Ok window_width);
     Ok (window_center, window_width))
    (fun _ =>
       pixel_min ← np_min pixel_array;
       pixel_max ← np_max pixel_array;
       Ok ((np_item_add pixel_array pixel_min pixel_max / 2)%Q,
           Py.max 1 (np_item_sub pixel_array pixel_max pixel_min))).

(** The window the dataset declares.  [window_center] is assigned before
    [float(ww)] is evaluated, so it survives a failure of the latter.
    A handler for [(ValueError, TypeError, IndexError)] lets any other
    exception through. *)
Definition is_window_error (e : exn) : bool :=
  match e with
  | ValueError _ | TypeError _ | IndexError _ => true
  | _ => false
  end.

Definition declared_window (dataset : Dataset)
    : result (option Q * option Q) :=
  match WindowCenter dataset, WindowWidth dataset with
  | Some wc, Some ww =>
      match (wc ← take_first wc; ww ← take_first ww;
             c ← py_float wc; Ok (c, ww)) with
      | Ok (c, ww) =>
          match py_float ww with
          | Ok w => Ok (Some c, Some w)
          | Raise e => if is_window_error e then Ok (Some c, None) else Raise e
          end
      | Raise e => if is_window_error e then Ok (None, None) else Raise e
      end
  | _, _ => Ok (None, None)
  end.

(** Rescale, auto-window unless both parameters are known, window.  The
    source writes these three statements out in the grayscale branch, in
    the palette fallback and in the branch for unsupported tags. *)
Definition windowed (pixel_array : ndarray) (dataset : Dataset)
    (window : option Q * option Q) : result (ndarray * Q * Q) :=
  let pixel_array := apply_rescale pixel_array dataset in
  '(window_center, window_width) ←
    match window with
    | (Some c, Some w) => Ok (c, w)
    | _ => auto_window pixel_array
    end;
  pixel_array ← apply_window pixel_array window_center window_width;
  Ok (pixel_array, window_center, window_width).

(** "Convert to uint8 if needed", as in the colour and palette branches *)
Definition to_uint8 (pixel_array : ndarray) : result ndarray :=
  if negb (is_uint8 pixel_array) then
    pixel_min ← np_min pixel_array;
    pixel_max ← np_max pixel_array;
    if Qlt_le_dec pixel_min pixel_max then
      scaled ← scale_items_to_255 pixel_array pixel_array pixel_min pixel_max;
      astype_uint8 scaled
    else astype_uint8 pixel_array
  else Ok pixel_array.

Definition clip_uint8 (a : ndarray) : result ndarray :=
  clipped ← np_clip a 0 255; astype_uint8 clipped.

Definition ybr_to_rgb (pixel_array : ndarray) : result ndarray :=
  Y ← (c ← np_channel pixel_array 0; astype_float32 c);
  Cb ← (c ← np_channel pixel_array 1; f ← astype_float32 c; np_sub f 128);
  Cr ← (c ← np_channel pixel_array 2; f ← astype_float32 c; np_sub f 128);
  R ← (t ← np_mul Cr (1402 # 1000); np_add_arr Y t);
  G ← (t ← np_mul Cb (344136 # 1000000); d ← np_sub_arr Y t;
       u ← np_mul Cr (714136 # 1000000); np_sub_arr d u);
  B ← (t ← np_mul Cb (1772 # 1000); np_add_arr Y t);
  R ← clip_uint8 R;
  G ← clip_uint8 G;
  B ← clip_uint8 B;
  np_stack3 R G B.

Definition is_monochrome (photometric : string) : bool :=
  String.eqb photometric "MONOCHROME1" || String.eqb photometric "MONOCHROME2".

Definition is_colour (photometric : string) : bool :=
  String.eqb photometric "RGB" || String.eqb photometric "YBR_FULL"
  || String.eqb photometric "YBR_FULL_422".

(** Grayscale rendering without inversion: the palette fallback and the
    branch for unsupported tags. *)
Definition grayscale (pixel_array : ndarray) (dataset : Dataset)
    (window : option Q * option Q)
    : result (image * option Q * option Q) :=
  '(pixel_array, window_center, window_width) ←
    windowed pixel_array dataset window;
  img ← Image_fromarray pixel_array "L";
  Ok (img, Some window_center, Some window_width).

Definition metadata_of (window_center window_width : option Q)
    (photometric : string) (frame_index : Z) : gmap string meta_value :=
  <["window_center" := meta_float window_center]>
  (<["window_width" := meta_float window_width]>
  (<["photometric" := MStr photometric]>
  (<["frame_index" := MInt frame_index]> ∅))).

(** The body of the [try] of [dicom_to_pil]. *)
Definition convert (dataset : Dataset) (frame_index : Z)
    : result (image * gmap string meta_value) :=
  let _ := if file_meta dataset
           then try_except (decompress dataset) (fun _ => Ok tt)
           else Ok tt in
  pixel_array ← pixel_array dataset;
  let photometric :=
    getattr (PhotometricInterpretation dataset) "MONOCHROME2" in
  let num_frames := getattr (NumberOfFrames dataset) 1 in
  pixel_array ←
    (if 1 <? num_frames then
       match shape pixel_array with
       | [] => Raise (IndexError "tuple index out of range")
       | n :: _ =>
           if Z.of_nat n <=? frame_index then
             Raise (ValueError
               ("Frame index " ++ str_int frame_index
                ++ " out of range (max: " ++ str_int (Z.of_nat n - 1) ++ ")"))
           else np_getitem pixel_array frame_index
       end
     else Ok pixel_array);
  window ← declared_window dataset;
  '(img, window_center, window_width) ←
    (if is_monochrome photometric then
       '(pixel_array, window_center, window_width) ←
         windowed pixel_array dataset window;
       pixel_array ←
         (if String.eqb photometric "MONOCHROME1"
          then np_rsub 255 pixel_array else Ok pixel_array);
       img ← Image_fromarray pixel_array "L";
       Ok (img, Some window_center, Some window_width)
     else if is_colour photometric then
       match shape pixel_array with
       | [_; _; 3%nat] =>
           pixel_array ← to_uint8 pixel_array;
           img ←
             (if String.eqb photometric "RGB"
              then Image_fromarray pixel_array "RGB"
              else rgb_array ← ybr_to_rgb pixel_array;
                   Image_fromarray rgb_array "RGB");
           Ok (img, fst window, snd window)
       | s => Raise (ValueError ("Invalid RGB image shape: " ++ repr_shape s))
       end
     else if String.eqb photometric "PALETTE COLOR" then
       match apply_color_lut dataset pixel_array with
       | Raise _ => grayscale pixel_array dataset window
       | Ok looked_up =>
           match to_uint8 looked_up with
           | Raise _ => grayscale looked_up dataset window
           | Ok converted =>
               match Image_fromarray converted "RGB" with
               | Raise _ => grayscale converted dataset window
               | Ok img => Ok (img, fst window, snd window)
               end
           end
       end
     else grayscale pixel_array dataset window);
  Ok (img, metadata_of window_center window_width photometric frame_index).

(** [Image.new('L', (512, 512), 128)] *)
Definition blank_image : image := Image_new "L" (512%nat, 512%nat) 128.

Definition dicom_to_pil (dataset : Dataset) (frame_index : Z)
    : image * gmap string meta_value :=
  match convert dataset frame_index with
  | Ok out => out
  | Raise e => (blank_image, {["error" := MStr (exn_str e)]})
  end.

Definition get_frame_count (dataset : Dataset) : Z :=
  let body : result Z :=
    if match NumberOfFrames dataset with
       | Some n => 1 <? n
       | None => false
       end
    then Ok (getattr (NumberOfFrames dataset) 1)
    else
      pixel_array ← pixel_array dataset;
      match shape pixel_array with
      | n0 :: n1 :: _ :: _ =>
          if (List.last (shape pixel_array) 0 =? 3)%nat then Ok 1
          else if (n0 <? 100)%nat && (n0 <? n1)%nat then Ok (Z.of_nat n0)
          else Ok 1
      | _ => Ok 1
      end in
  match body with
  | Ok n => n
  | Raise _ => 1
  end.

End Pipeline.

(** *** A reference implementation of the array operations

    Arrays are a shape, a dtype and the items in row-major order.
    Arithmetic between an array and a Python number gives a float array
    with exact items; arithmetic in an integer dtype wraps around.  It
    serves to run the pipeline on small inputs. *)

Module Ref.

Inductive dtype : Type := uint8 | int16 | float64.

Record array : Type := {
  a_shape : list nat;
  a_dtype : dtype;
  a_data : list Q
}.

Definition a_uint8 (a : array) : bool :=
  match a_dtype a with uint8 => true | _ => false end.

Inductive pixels : Type :=
| Fill (colour : Z)
| Items (data : list Q).

Record picture : Type := {
  p_mode : string;
  p_size : nat * nat;
  p_pixels : pixels
}.

Definition q_ltb (a b : Q) : bool :=
  match Qcompare a b with Lt => true | _ => false end.

Definition float_array (a : array) (data : list Q) : array :=
  {| a_shape := a_shape a; a_dtype := float64; a_data := data |}.

Definition elementwise (f : Q -> Q) (a : array) : result array :=
  Ok (float_array a (map f (a_data a))).

Definition pointwise (f : Q -> Q -> Q) (a b : array) : result array :=
  if bool_decide (a_shape a = a_shape b)
  then Ok (float_array a (zip_with f (a_data a) (a_data b)))
  else Raise (ValueError "operands could not be broadcast together").

(** A float cast to [uint8]: the fraction is dropped, the rest wraps. *)
Definition to_byte (q : Q) : Q :=
  inject_Z ((Qnum q ÷ Z.pos (Qden q)) mod 256).

(** A number as the dtype holds it: an integer dtype keeps the residue
    in its range. *)
Definition wrap (t : dtype) (q : Q) : Q :=
  match t with
  | uint8 => to_byte q
  | int16 =>
      inject_Z ((Qnum q ÷ Z.pos (Qden q) + 32768) mod 65536 - 32768)
  | float64 => q
  end.

Definition getitem (a : array) (i : Z) : result array :=
  match a_shape a with
  | [] => Raise (IndexError "too many indices for array")
  | n :: rest =>
      let len := Z.of_nat n in
      if (- len <=? i) && (i <? len) then
        let k := Z.to_nat (i mod len) in
        let stride := foldr Nat.mul 1%nat rest in
        Ok {| a_shape := rest; a_dtype := a_dtype a;
              a_data := take stride (drop (k * stride) (a_data a)) |}
      else Raise (IndexError "index is out of bounds for axis 0")
  end.

Fixpoint every_nth (c k : nat) (i : nat) (l : list Q) : list Q :=
  match l with
  | [] => []
  | x :: l' =>
      if (i mod c =? k)%nat then x :: every_nth c k (S i) l'
      else every_nth c k (S i) l'
  end.

Definition channel (a : array) (k : nat) : result array :=
  match a_shape a with
  | [h; w; c] =>
      if (k <? c)%nat then
        Ok {| a_shape := [h; w]; a_dtype := a_dtype a;
              a_data := every_nth c k 0 (a_data a) |}
      else Raise (IndexError "index is out of bounds for axis 2")
  | _ => Raise (IndexError "too many indices for array")
  end.

Definition minimum (a : array) : result Q :=
  match a_data a with
  | [] => Raise (ValueError "zero-size array to reduction operation minimum")
  | x :: l => Ok (foldl (fun m y => if q_ltb y m then y else m) x l)
  end.

Definition maximum (a : array) : result Q :=
  match a_data a with
  | [] => Raise (ValueError "zero-size array to reduction operation maximum")
  | x :: l => Ok (foldl (fun m y => if q_ltb m y then y else m) x l)
  end.

(** The [q]-th percentile by linear interpolation between the two
    nearest ranks. *)
Definition percentile (sorted : list Q) (q : Z) : Q :=
  let n := Z.of_nat (length sorted) in
  let pos := (inject_Z ((n - 1) * q) / 100)%Q in
  let lo := Qfloor pos in
  let hi := Z.min (lo + 1) (n - 1) in
  let x0 := nth (Z.to_nat lo) sorted 0%Q in
  let x1 := nth (Z.to_nat hi) sorted 0%Q in
  (x0 + (pos - inject_Z lo) * (x1 - x0))%Q.

Definition percentile_2_98 (a : array) : result (Q * Q) :=
  match a_data a with
  | [] => Raise (IndexError "index -1 is out of bounds for axis 0 with size 0")
  | _ =>
      let sorted := list_sort (fun x => x) q_ltb (a_data a) in
      Ok (percentile sorted 2, percentile sorted 98)
  end.

Definition clip (a : array) (lo hi : Q) : result array :=
  Ok {| a_shape := a_shape a; a_dtype := a_dtype a;
        a_data := map (fun x =>
                         let y := if q_ltb x lo then lo else x in
                         if q_ltb hi y then hi else y) (a_data a) |}.

Fixpoint interleave3 (r g b : list Q) : list Q :=
  match r, g, b with
  | x :: r', y :: g', z :: b' => x :: y :: z :: interleave3 r' g' b'
  | _, _, _ => []
  end.

Definition stack3 (r g b : array) : result array :=
  if bool_decide (a_shape r = a_shape g) && bool_decide (a_shape g = a_shape b)
  then Ok {| a_shape := (a_shape r ++ [3%nat])%list;
             a_dtype := if a_uint8 r && a_uint8 g && a_uint8 b
                        then uint8 else float64;
             a_data := interleave3 (a_data r) (a_data g) (a_data b) |}
  else Raise (ValueError "all input arrays must have the same shape").

Definition fromarray (a : array) (mode : string) : result picture :=
  match a_shape a with
  | [h; w] =>
      if String.eqb mode "L"
      then Ok {| p_mode := mode; p_size := (w, h); p_pixels := Items (a_data a) |}
      else Raise (ValueError "not enough image data")
  | [h; w; 3%nat] =>
      if String.eqb mode "RGB"
      then Ok {| p_mode := mode; p_size := (w, h); p_pixels := Items (a_data a) |}
      else Raise (ValueError "Too many dimensions")
  | _ => Raise (ValueError "Too many dimensions")
  end.

#[export] Instance lib : ArrayLib := {|
  ndarray := array;
  image := picture;
  shape := a_shape;
  is_uint8 := a_uint8;
  np_getitem := getitem;
  np_channel := channel;
  np_percentile_2_98 := percentile_2_98;
  np_min := minimum;
  np_max := maximum;
  np_item_add := fun a x y => wrap (a_dtype a) (x + y);
  np_item_sub := fun a x y => wrap (a_dtype a) (x - y);
  np_clip := clip;
  np_add := fun a x => elementwise (fun y => y + x)%Q a;
  np_sub := fun a x => elementwise (fun y => y - x)%Q a;
  np_sub_item := fun a x =>
    Ok {| a_shape := a_shape a; a_dtype := a_dtype a;
          a_data := map (fun y => wrap (a_dtype a) (y - x)) (a_data a) |};
  np_rsub := fun x a =>
    Ok {| a_shape := a_shape a; a_dtype := a_dtype a;
          a_data := map (fun y => wrap (a_dtype a) (x - y)) (a_data a) |};
  np_mul := fun a x => elementwise (fun y => y * x)%Q a;
  np_div := fun a x => elementwise (fun y => y / x)%Q a;
  np_add_arr := pointwise Qplus;
  np_sub_arr := pointwise Qminus;
  np_full_like := fun a x =>
    Ok {| a_shape := a_shape a; a_dtype := a_dtype a;
          a_data := map (fun _ => wrap (a_dtype a) x) (a_data a) |};
  astype_uint8 := fun a =>
    Ok {| a_shape := a_shape a; a_dtype := uint8;
          a_data := map to_byte (a_data a) |};
  astype_float32 := fun a => Ok (float_array a (a_data a));
  np_stack3 := stack3;
  Image_fromarray := fromarray;
  Image_new := fun mode size colour =>
    {| p_mode := mode; p_size := size; p_pixels := Fill colour |}
|}.

End Ref.

End ImageUtils.

(** ** app/pdf_utils.py

    The log records of this module are not modelled. *)

Module PdfUtils.

Import Py.

(** *** reportlab and PIL, as the module uses them *)

Record style : Type := {
  style_name : string;
  style_parent : string;
  font_size : Z;
  space_after : option Z;
  alignment : string
}.

(** The flowables the module puts into a document. *)
Inductive flowable : Type :=
| Paragraph (text : string) (st : style)
| Spacer (width height : Q)
| RLImage (buffer : string) (width height : Q)
| PageBreak.

(** [reportlab.lib.units] and [reportlab.lib.pagesizes] *)
Definition inch : Q := 72.
Definition cm : Q := inch / (254 # 100).
Definition mm : Q := cm * (1 # 10).
Definition A4 : Q * Q := (210 * mm, 297 * mm)%Q.

(** The order in which a [dict] yields its items: some arrangement of
    them. *)
Record DictOrder : Type := {
  items : forall V : Type, gmap string V -> list (string * V);
  items_perm : forall (V : Type) (m : gmap string V), items V m ≡ₚ map_to_list m
}.

(** The library calls of the module: each returns or raises.
    [pixels_of] gives the attributes that [image_utils] reads of an
    instance held by a series. *)
Class DocLib {lib : ImageUtils.ArrayLib} : Type := {
  pixels_of : Models.Dataset -> ImageUtils.Dataset;
  image_mode : ImageUtils.image -> string;              (* img.mode *)
  image_size : ImageUtils.image -> Z * Z;               (* img.size *)
  flatten_on_white : ImageUtils.image -> result ImageUtils.image;
      (* Image.new('RGB', img.size, white), then paste with the alpha mask *)
  image_convert_rgb : ImageUtils.image -> result ImageUtils.image;
                                                        (* img.convert('RGB') *)
  save_jpeg : ImageUtils.image -> result string;
      (* img.save(buffer, format='JPEG', quality=90), the bytes written *)
  markup_ok : string -> bool;      (* Paragraph(text, style) can be built *)
  image_data_ok : string -> bool;  (* RLImage(buffer, ...) can be built *)
  reformat_date : string -> option string;
      (* strptime(s, '%Y%m%d').strftime('%Y-%m-%d'); None on ValueError *)
  now : string;         (* datetime.now().strftime('%Y-%m-%d %H:%M:%S') *)
  dict_order : DictOrder;
  build : list flowable -> result string   (* doc.build(elements), the PDF *)
}.

(** [Paragraph(text, style)] *)
Definition mk_paragraph `{DocLib} (text : string) (st : style)
    : result flowable :=
  if markup_ok text then Ok (Paragraph text st)
  else Raise (ValueError ("paragraph text " ++ text ++ " caused exception")).

(** [RLImage(buffer, width=width, height=height)] *)
Definition mk_image `{DocLib} (buffer : string) (width height : Q)
    : result flowable :=
  if image_data_ok buffer then Ok (RLImage buffer width height)
  else Raise (OtherException "cannot identify image file").

(** [a / b] on floats, and on integers; each raises
    [ZeroDivisionError] with its own message. *)
Definition py_div (a b : Q) : result Q :=
  if Qeq_bool b 0 then Raise (OtherException "float division by zero")
  else Ok (a / b)%Q.

Definition py_int_div (a b : Z) : result Q :=
  if b =? 0 then Raise (OtherException "division by zero")
  else Ok (inject_Z a / inject_Z b)%Q.

(** [l[i]] on a list *)
Definition py_index {A} (l : list A) (i : Z) : result A :=
  let n := Z.of_nat (length l) in
  let k := if i <? 0 then i + n else i in
  if (0 <=? k) && (k <? n) then
    match l !! Z.to_nat k with
    | Some x => Ok x
    | None => Raise (IndexError "list index out of range")
    end
  else Raise (IndexError "list index out of range").

(** [s or default] on strings *)
Definition or_default (s default : string) : string :=
  if truthy_str s then s else default.

(** The integer nearest to [q], the even one of two. *)
Definition round_half_even (q : Q) : Z :=
  let f := Qfloor q in
  match Qcompare (q - inject_Z f) (1 # 2) with
  | Lt => f
  | Gt => f + 1
  | Eq => if Z.even f then f else f + 1
  end.

(** [f"{x:.0f}"] *)
Definition format_0f (x : ImageUtils.meta_value) : result string :=
  match x with
  | ImageUtils.MFloat q =>
      let r := round_half_even q in
      if (r =? 0) && match Qcompare q 0 with Lt => true | _ => false end
      then Ok "-0" else Ok (str_int r)
  | ImageUtils.MInt z => Ok (str_int z)
  | ImageUtils.MNone =>
      Raise (TypeError "unsupported format string passed to NoneType.__format__")
  | ImageUtils.MStr _ =>
      Raise (ValueError "Unknown format code 'f' for object of type 'str'")
  end.

(** *** Elements appended so far, and how the statement ended *)

Definition Page (A : Type) : Type := list flowable * result A.

#[global] Instance Page_ret : MRet Page := fun A a => ([], Ok a).

#[global] Instance Page_bind : MBind Page := fun A B k m =>
  match m with
  | (elements, Ok a) =>
      let '(more, r) := k a in ((elements ++ more)%list, r)
  | (elements, Raise e) => (elements, Raise e)
  end.

(** [elements.append(x)] *)
Definition append (x : flowable) : Page unit := ([x], Ok tt).

(** A call that appends nothing *)
Definition call {A} (r : result A) : Page A := ([], r).

Record page_metadata : Type := {
  series_name : string;
  image_info : string;
  window_info : string
}.

Section Document.

Context {lib : ImageUtils.ArrayLib} {doc : DocLib}.

Definition title_style : style :=
  {| style_name := "CustomTitle"; style_parent := "Heading1"; font_size := 24;
     space_after := Some 30; alignment := "TA_CENTER" |}.

Definition info_style : style :=
  {| style_name := "CustomInfo"; style_parent := "Normal"; font_size := 12;
     space_after := Some 12; alignment := "TA_LEFT" |}.

Definition image_info_style : style :=
  {| style_name := "ImageInfo"; style_parent := "Normal"; font_size := 8;
     space_after := Some 6; alignment := "TA_CENTER" |}.

Definition page_error_style : style :=
  {| style_name := "Error"; style_parent := "Normal"; font_size := 12;
     space_after := None; alignment := "TA_CENTER" |}.

Definition document_error_style : style :=
  {| style_name := "Error"; style_parent := "Heading1"; font_size := 18;
     space_after := None; alignment := "TA_CENTER" |}.

(** The summary line of one series on the cover page. *)
Definition series_summary (series : Models.DicomSeries.t) : string :=
  let modality := or_default (Models.DicomSeries.modality series) "Unknown" in
  let description :=
    or_default (Models.DicomSeries.series_description series) "No description" in
  let instance_count := Z.of_nat (length (Models.DicomSeries.instances series)) in
  let total_frames :=
    foldl (fun total instance =>
             total + ImageUtils.get_frame_count (pixels_of instance))
      0 (Models.DicomSeries.instances series) in
  "‚Ä¢ <b>" ++ modality ++ "</b> - " ++ description ++ " ("
  ++ str_int instance_count ++ " instances, " ++ str_int total_frames
  ++ " images)".

Definition create_cover_page (study : Models.DicomStudy.t) (anonymize : bool)
    : result (list flowable) :=
  title ← mk_paragraph "DICOM Study Report" title_style;
  let elements := [title; Spacer 1 ((5 # 10) * inch)] in
  elements ←
    (if anonymize then
       p1 ← mk_paragraph "<b>Patient:</b> [ANONYMIZED]" info_style;
       p2 ← mk_paragraph "<b>Patient ID:</b> [ANONYMIZED]" info_style;
       Ok (elements ++ [p1; p2])%list
     else
       let patient_name :=
         or_default (Models.DicomStudy.patient_name study) "Unknown" in
       let patient_id :=
         or_default (Models.DicomStudy.patient_id study) "Unknown" in
       p1 ← mk_paragraph ("<b>Patient Name:</b> " ++ patient_name) info_style;
       p2 ← mk_paragraph ("<b>Patient ID:</b> " ++ patient_id) info_style;
       Ok (elements ++ [p1; p2])%list);
  let study_date := or_default (Models.DicomStudy.study_date study) "Unknown" in
  let study_date :=
    if (String.length study_date =? 8)%nat then
      match reformat_date study_date with
      | Some formatted_date => formatted_date
      | None => study_date
      end
    else study_date in
  p3 ← mk_paragraph ("<b>Study Date:</b> " ++ study_date) info_style;
  p4 ← mk_paragraph
         ("<b>Accession Number:</b> "
          ++ or_default (Models.DicomStudy.accession_number study) "Unknown")
         info_style;
  p5 ← mk_paragraph ("<b>Study UID:</b> " ++ Models.DicomStudy.study_uid study)
         info_style;
  p6 ← mk_paragraph "<b>Series Summary:</b>" info_style;
  let elements :=
    (elements ++ [p3; p4; p5; Spacer 1 ((3 # 10) * inch); p6;
                  Spacer 1 ((1 # 10) * inch)])%list in
  elements ←
    for_each (fun elements kv =>
                p ← mk_paragraph (series_summary (snd kv)) info_style;
                Ok (elements ++ [p])%list)
      elements (items dict_order _ (Models.DicomStudy.series study));
  p7 ← mk_paragraph ("<i>Generated on: " ++ now ++ "</i>") info_style;
  Ok (elements ++ [Spacer 1 ((5 # 10) * inch); p7; PageBreak])%list.

Definition pil_to_reportlab_image (pil_image : ImageUtils.image)
    (max_width max_height : Q) : result flowable :=
  let mode := image_mode pil_image in
  pil_image ←
    (if String.eqb mode "RGBA" || String.eqb mode "LA"
     then flatten_on_white pil_image
     else if negb (String.eqb mode "RGB" || String.eqb mode "L")
     then image_convert_rgb pil_image
     else Ok pil_image);
  img_buffer ← save_jpeg pil_image;
  let '(img_width, img_height) := image_size pil_image in
  aspect_ratio ← py_int_div img_width img_height;
  box_ratio ← py_div max_width max_height;
  size ←
    (if Qlt_le_dec box_ratio aspect_ratio then
       height ← py_div max_width aspect_ratio;
       Ok (max_width, height)
     else Ok ((max_height * aspect_ratio)%Q, max_height));
  mk_image img_buffer (fst size) (snd size).

(** The [try] block of [create_image_page]. *)
Definition image_page (series : Models.DicomSeries.t)
    (instance_idx frame_idx : Z) : Page page_metadata :=
  instance ← call (py_index (Models.DicomSeries.instances series) instance_idx);
  let '(pil_image, metadata) :=
    ImageUtils.dicom_to_pil (pixels_of instance) frame_idx in
  let '(page_width, page_height) := A4 in
  let margin := ((75 # 100) * inch)%Q in
  let available_width := (page_width - 2 * margin)%Q in
  let available_height := (page_height - 2 * margin - 1 * inch)%Q in
  rl_image ←
    call (pil_to_reportlab_image pil_image available_width available_height);
  _ ← append (Spacer 1 ((2 # 10) * inch));
  _ ← append rl_image;
  let total_frames := ImageUtils.get_frame_count (pixels_of instance) in
  let frame_info :=
    if 1 <? total_frames
    then " (Frame " ++ str_int (frame_idx + 1) ++ "/" ++ str_int total_frames
         ++ ")"
    else "" in
  let instance_info :=
    "Instance " ++ str_int (instance_idx + 1) ++ "/"
    ++ str_int (Z.of_nat (length (Models.DicomSeries.instances series)))
    ++ frame_info in
  window_info ←
    call (match metadata !! "window_center", metadata !! "window_width" with
          | Some wc, Some ww =>
              w ← format_0f ww;
              l ← format_0f wc;
              Ok ("W: " ++ w ++ " / L: " ++ l)
          | _, _ => Ok ""
          end);
  _ ← append (Spacer 1 ((1 # 10) * inch));
  p ← call (mk_paragraph instance_info image_info_style);
  _ ← append p;
  _ ← (if truthy_str window_info then
         p ← call (mk_paragraph window_info image_info_style);
         append p
       else mret tt);
  let page_metadata :=
    {| series_name :=
         or_default (Models.DicomSeries.series_description series)
           ("Series "
            ++ String.substring 0 8 (Models.DicomSeries.series_uid series)
            ++ "...");
       image_info := instance_info;
       window_info := window_info |} in
  _ ← append PageBreak;
  mret page_metadata.

Definition create_image_page (series : Models.DicomSeries.t)
    (instance_idx frame_idx : Z)
    : result (list flowable * page_metadata) :=
  match image_page series instance_idx frame_idx with
  | (elements, Ok page_metadata) => Ok (elements, page_metadata)
  | (elements, Raise e) =>
      p ← mk_paragraph ("Error loading image: " ++ exn_str e) page_error_style;
      Ok ((elements ++ [Spacer 1 (2 * inch); p; PageBreak])%list,
          {| series_name := "Error"; image_info := "Failed to load";
             window_info := "" |})
  end.

(** [range(n)] *)
Definition range (n : Z) : list Z := Z.of_nat <$> seq 0 (Z.to_nat n).

(** The pages of one instance: one per frame index below its frame
    count; a page that cannot be made is skipped. *)
Definition instance_pages (series : Models.DicomSeries.t) (instance_idx : Z)
    (instance : Models.Dataset) : list flowable :=
  let frame_count := ImageUtils.get_frame_count (pixels_of instance) in
  foldl (fun elements frame_idx =>
           match create_image_page series instance_idx frame_idx with
           | Ok (page_elements, _) => (elements ++ page_elements)%list
           | Raise _ => elements
           end) [] (range frame_count).

Definition series_pages (series : Models.DicomSeries.t) : list flowable :=
  foldl (fun elements '(instance_idx, instance) =>
           (elements
            ++ instance_pages series (Z.of_nat instance_idx) instance)%list)
    [] (imap (fun instance_idx instance => (instance_idx, instance))
          (Models.DicomSeries.instances series)).

(** The list [elements] when the loop over the studies is left. *)
Definition study_elements (studies : gmap string Models.DicomStudy.t)
    (anonymize cover_page : bool) : result (list flowable) :=
  for_each (fun elements kv =>
              elements ←
                (if cover_page then
                   cover_elements ← create_cover_page (snd kv) anonymize;
                   Ok (elements ++ cover_elements)%list
                 else Ok elements);
              Ok (foldl (fun elements ks =>
                           (elements ++ series_pages (snd ks))%list)
                    elements
                    (items dict_order _ (Models.DicomStudy.series (snd kv)))))
    [] (items dict_order _ studies).

(** The list handed to [doc.build]. *)
Definition document_elements (studies : gmap string Models.DicomStudy.t)
    (anonymize cover_page : bool) : result (list flowable) :=
  elements ← study_elements studies anonymize cover_page;
  match elements with
  | [] =>
      p ← mk_paragraph "No images could be processed" document_error_style;
      Ok [Spacer 1 (2 * inch); p]
  | _ => Ok elements
  end.

Definition create_pdf_from_studies (studies : gmap string Models.DicomStudy.t)
    (anonymize cover_page : bool) : result string :=
  elements ← document_elements studies anonymize cover_page;
  try_except (build elements) (fun e => Raise e).

End Document.

End PdfUtils.

(** ** app/main.py *)

Module Main.

Import Py.

(** *** Requests, responses and the environment *)

(** What the endpoints read of a [fastapi.Request]. *)
Record ClientRequest : Type := {
  x_forwarded_for : option string;  (* request.headers.get("X-Forwarded-For") *)
  x_real_ip : option string;        (* request.headers.get("X-Real-IP") *)
  client_host : option string       (* request.client.host, if request.client *)
}.

Module RenderRequest.

Record t : Type := {
  examID : Z;
  pacs_studies_iuid : string;
  CodAutorizacao : string;
  CodFaturamento : string;
  CodProcedimento : string;
  Authorization : string;
  IntegrationToken : string;
  UrlCallback : string;
  anonymize : bool;
  cover_page : bool;
  max_workers : Z
}.

End RenderRequest.

Module RenderRequestSync.

Record t : Type := {
  examID : Z;
  pacs_studies_iuid : string;
  IntegrationToken : string;
  anonymize : option bool;
  cover_page : option bool;
  max_workers : option Z
}.

End RenderRequestSync.

Module CallbackPayloadSantana.

Record t : Type := {
  examID : Z;
  studyIUID : string;
  ImagensPDF : string;
  CodAutorizacao : string;
  CodFaturamento : string;
  CodProcedimento : string;
  Authorization : string;
  IntegrationToken : string
}.

End CallbackPayloadSantana.

(** The values of the JSON bodies that the module posts. *)
Inductive json : Type :=
| JInt (z : Z)
| JBool (b : bool)
| JStr (s : string).

Record Post : Type := {
  post_url : string;
  post_json : gmap string json;
  post_headers : list (string * string);
  post_timeout : Z
}.

Record PostResponse : Type := {
  status_code : Z;
  text : string;
  reason_phrase : string    (* [reason] of a [requests] response *)
}.

Record StreamingResponse : Type := {
  content : string;
  media_type : string;
  response_headers : list (string * string)
}.

Record Env : Type := {
  wado : DicomwebUtils.Env;
  CREATE_LOG_URL : option string;          (* os.getenv('CREATE_LOG_URL') *)
  ALLOWED_CLIENT_IPS : option string;      (* os.getenv('ALLOWED_CLIENT_IPS') *)
  requests_post : Post -> result PostResponse;  (* requests.post *)
  httpx_post : Post -> result PostResponse;     (* httpx.AsyncClient.post *)
  b64encode : string -> string;  (* base64.b64encode(b).decode('utf-8') *)
  total_time : string;           (* f"{total_time:.2f}" where it is used *)
  http_exception_str : Z -> string -> string;
                                 (* str(HTTPException(status_code, detail)) *)
  type_name : exn -> string      (* type(e).__name__ *)
}.

(** *** Effects: the requests posted, and what a call raises

    The log records of this module are not part of the trace. *)

Inductive event : Type :=
| LogPost (p : Post)         (* a [requests.post] *)
| CallbackPost (p : Post).   (* an [httpx] post *)

(** What a function of this module raises: FastAPI's [HTTPException],
    or an exception that reached it from a call. *)
Inductive error : Type :=
| HTTPException (status_code : Z) (detail : string)
| Other (e : exn).

Inductive outcome (A : Type) : Type :=
| Return (a : A)
| Throw (e : error).
Arguments Return {A} a.
Arguments Throw {A} e.

Definition App (A : Type) : Type := list event * outcome A.

#[global] Instance App_ret : MRet App := fun A a => ([], Return a).

#[global] Instance App_bind : MBind App := fun A B k m =>
  match m with
  | (tr, Return a) => let '(tr', r) := k a in ((tr ++ tr')%list, r)
  | (tr, Throw e) => (tr, Throw e)
  end.

Definition throw {A} (e : error) : App A := ([], Throw e).

(** A call into another module, or into a library *)
Definition of_result {A} (r : result A) : App A :=
  ([], match r with Ok a => Return a | Raise e => Throw (Other e) end).

(** A request that goes out, and what the call returns or raises *)
Definition posting {A} (ev : event) (r : result A) : App A :=
  ([ev], match r with Ok a => Return a | Raise e => Throw (Other e) end).

(** [try: m  except Exception as e: h e] *)
Definition App_try {A} (m : App A) (h : error -> App A) : App A :=
  match m with
  | (tr, Return a) => (tr, Return a)
  | (tr, Throw e) => let '(tr', r) := h e in ((tr ++ tr')%list, r)
  end.

(** [str(e)] and [type(e).__name__] *)
Definition error_str (env : Env) (e : error) : string :=
  match e with
  | HTTPException status_code detail => http_exception_str env status_code detail
  | Other e => exn_str e
  end.

Definition error_type (env : Env) (e : error) : string :=
  match e with
  | HTTPException _ _ => "HTTPException"
  | Other e => type_name env e
  end.

(** *** Strings *)

(** [s.split(sep)] for a separator of one character: the result is
    never empty. *)
Fixpoint split_chars (sep : ascii) (s : list ascii) : list (list ascii) :=
  match s with
  | [] => [[]]
  | c :: s' =>
      match split_chars sep s' with
      | w :: ws => if Ascii.eqb c sep then [] :: w :: ws else (c :: w) :: ws
      | [] => [[c]]
      end
  end.

Definition split (sep : ascii) (s : string) : list string :=
  map string_of_list_ascii (split_chars sep (list_ascii_of_string s)).

(** [[ip.strip() for ip in s.split(',') if ip.strip()]] *)
Definition stripped_entries (s : string) : list string :=
  flat_map (fun ip =>
              if truthy_str (DicomwebUtils.strip DicomwebUtils.is_space ip)
              then [DicomwebUtils.strip DicomwebUtils.is_space ip] else [])
    (split "," s).

(** [x or default] *)
Definition or_str (x default : string) : string :=
  if truthy_str x then x else default.

(** *** The functions of the module *)

Definition send_log_callback (env : Env) (exameID : Z) (success : bool)
    (message : string) (statusCode : Z) (statusMessage : string)
    (integrationToken : string) (additional_data : option (gmap string json))
    : App bool :=
  App_try
    (let create_log_url := Models.getattr (CREATE_LOG_URL env) "" in
     if negb (truthy_str create_log_url) then mret false
     else
       let payload : gmap string json :=
         {[ "exameID" := JInt exameID; "success" := JBool success;
            "message" := JStr message; "statusCode" := JInt statusCode;
            "statusMessage" := JStr statusMessage ]} in
       let payload :=
         match additional_data with
         | Some data =>
             if (size data =? 0)%nat then payload else data ∪ payload
         | None => payload
         end in
       let post :=
         {| post_url := create_log_url; post_json := payload;
            post_timeout := 10;
            post_headers := [("Content-Type", "application/json");
                             ("token", integrationToken)] |} in
       response ← posting (LogPost post) (requests_post env post);
       (* response.raise_for_status() *)
       _ ← (if (400 <=? status_code response) && (status_code response <? 500)
            then throw (Other (OtherException
                   (str_int (status_code response) ++ " Client Error: "
                    ++ reason_phrase response ++ " for url: "
                    ++ create_log_url)))
            else if (500 <=? status_code response)
                    && (status_code response <? 600)
            then throw (Other (OtherException
                   (str_int (status_code response) ++ " Server Error: "
                    ++ reason_phrase response ++ " for url: "
                    ++ create_log_url)))
            else mret tt);
       mret true)
    (fun _ => mret false).

Definition validate_client_ip (env : Env) (request : ClientRequest) : bool :=
  let allowed_ips_env := Models.getattr (ALLOWED_CLIENT_IPS env) "" in
  if negb (truthy_str allowed_ips_env) then true
  else
    let allowed_ips := stripped_entries allowed_ips_env in
    match allowed_ips with
    | [] => true
    | _ :: _ =>
        let client_ip :=
          DicomwebUtils.strip DicomwebUtils.is_space
            (hd "" (split "," (Models.getattr (x_forwarded_for request) ""))) in
        let client_ip :=
          if negb (truthy_str client_ip)
          then Models.getattr (x_real_ip request) "" else client_ip in
        let client_ip :=
          if negb (truthy_str client_ip)
          then Models.getattr (client_host request) "unknown" else client_ip in
        bool_decide (client_ip ∈ allowed_ips)
    end.

Definition check_ip_access (env : Env) (request : ClientRequest) : App unit :=
  if negb (validate_client_ip env request) then
    throw (HTTPException 403
      "Access denied: Your IP address is not authorized to access this service")
  else mret tt.

Definition send_callback (env : Env) (callback_url : string)
    (payload : CallbackPayloadSantana.t) : App bool :=
  App_try
    (let payload_dict : gmap string json :=
       {[ "PDF" := JStr (CallbackPayloadSantana.ImagensPDF payload);
          "CodAutorizacao" := JStr (CallbackPayloadSantana.CodAutorizacao payload);
          "CodFaturamento" := JStr (CallbackPayloadSantana.CodFaturamento payload);
          "CodProcedimento" :=
            JStr (CallbackPayloadSantana.CodProcedimento payload) ]} in
     let post :=
       {| post_url := callback_url; post_json := payload_dict;
          post_timeout := 30;
          post_headers :=
            [("Content-Type", "application/json");
             ("Authorization", CallbackPayloadSantana.Authorization payload);
             ("user-agent", "integracao.mobilemed")] |} in
     response ← posting (CallbackPost post) (httpx_post env post);
     if status_code response =? 200 then
       _ ← send_log_callback env (CallbackPayloadSantana.examID payload) true
             (or_str (text response) "Sucesso no envio de PDF") 200 "OK"
             (CallbackPayloadSantana.IntegrationToken payload) None;
       mret true
     else
       _ ← send_log_callback env (CallbackPayloadSantana.examID payload) false
             ("Callback failed with status " ++ str_int (status_code response)
              ++ ": " ++ text response)
             (status_code response) (reason_phrase response)
             (CallbackPayloadSantana.IntegrationToken payload) None;
       mret false)
    (fun e =>
       _ ← send_log_callback env (CallbackPayloadSantana.examID payload) false
             ("Callback exception: " ++ error_str env e) 500
             "Internal Server Error"
             (CallbackPayloadSantana.IntegrationToken payload) None;
       mret false).

(** [f"{examID}-{pacs_studies_iuid}"] *)
Definition process_key (examID : Z) (pacs_studies_iuid : string) : string :=
  str_int examID ++ "-" ++ pacs_studies_iuid.

(** [if key in processed_requests: processed_requests.remove(key)] *)
Definition release (key : string) (processed_requests : gset string)
    : gset string :=
  if bool_decide (key ∈ processed_requests)
  then processed_requests ∖ {[key]} else processed_requests.

Section Endpoints.

Context {lib : ImageUtils.ArrayLib} {doc : PdfUtils.DocLib}.

(** The background task: what it posts and raises, and the set
    [processed_requests] when it is left. *)
Definition process_dicom_async (env : Env) (render_request : RenderRequest.t)
    (callback_url : string) (processed_requests : gset string)
    : App unit * gset string :=
  let process_key :=
    process_key (RenderRequest.examID render_request)
      (RenderRequest.pacs_studies_iuid render_request) in
  (App_try
     (studies ← of_result
        (DicomwebUtils.process_dicom_wado_study (wado env)
           (RenderRequest.pacs_studies_iuid render_request)
           (RenderRequest.max_workers render_request));
      _ ← (if (size studies =? 0)%nat then
             throw (HTTPException 400
               "No valid DICOM instances found in DICOMweb server")
           else mret tt);
      pdf_buffer ← of_result
        (PdfUtils.create_pdf_from_studies studies
           (RenderRequest.anonymize render_request)
           (RenderRequest.cover_page render_request));
      let pdf_base64 := b64encode env pdf_buffer in
      let pdf_size := Z.of_nat (String.length pdf_buffer) in
      let callback_payload :=
        {| CallbackPayloadSantana.examID := RenderRequest.examID render_request;
           CallbackPayloadSantana.studyIUID :=
             RenderRequest.pacs_studies_iuid render_request;
           CallbackPayloadSantana.ImagensPDF := pdf_base64;
           CallbackPayloadSantana.CodAutorizacao :=
             RenderRequest.CodAutorizacao render_request;
           CallbackPayloadSantana.CodFaturamento :=
             RenderRequest.CodFaturamento render_request;
           CallbackPayloadSantana.CodProcedimento :=
             RenderRequest.CodProcedimento render_request;
           CallbackPayloadSantana.Authorization :=
             RenderRequest.Authorization render_request;
           CallbackPayloadSantana.IntegrationToken :=
             RenderRequest.IntegrationToken render_request |} in
      _ ← send_callback env callback_url callback_payload;
      _ ← send_log_callback env (RenderRequest.examID render_request) true
            ("PDF de imagens DICOM gerado com sucesso (async), tempo de processamento: "
             ++ total_time env ++ "s")
            200 "OK" (RenderRequest.IntegrationToken render_request)
            (Some {[ "studyIUID" :=
                       JStr (RenderRequest.pacs_studies_iuid render_request);
                     "processing_time" := JStr (total_time env ++ "s");
                     "pdf_size" := JInt pdf_size ]});
      mret tt)
     (fun e =>
        _ ← send_log_callback env (RenderRequest.examID render_request) false
              ("Error processing DICOM to PDF: " ++ error_str env e) 500
              "Internal Server Error"
              (RenderRequest.IntegrationToken render_request)
              (Some {[ "studyIUID" :=
                         JStr (RenderRequest.pacs_studies_iuid render_request);
                       "error_type" := JStr (error_type env e) ]});
        mret tt),
   release process_key processed_requests).

Record Health : Type := {
  health_status : string;
  dicom_server : string;
  ip_validation : string;
  allowed_ips_count : Z
}.

Definition health_check (env : Env) (request : ClientRequest) : App Health :=
  _ ← check_ip_access env request;
  let dicom_wado_url :=
    Models.getattr (DicomwebUtils.DICOM_WADO_URL (wado env)) "" in
  let allowed_ips_env := Models.getattr (ALLOWED_CLIENT_IPS env) "" in
  let allowed_ips :=
    if truthy_str allowed_ips_env then stripped_entries allowed_ips_env
    else [] in
  mret {| health_status := "ok";
          dicom_server :=
            if truthy_str dicom_wado_url then "configured"
            else "not_configured";
          ip_validation :=
            match allowed_ips with [] => "disabled" | _ :: _ => "enabled" end;
          allowed_ips_count := Z.of_nat (length allowed_ips) |}.

Record Accepted : Type := {
  accepted_status : string;
  accepted_message : string;
  accepted_examID : Z;
  accepted_pacs_studies_iuid : string;
  accepted_callback_url : string
}.

(** The task handed to [background_tasks.add_task]: the arguments with
    which [process_dicom_async] will run. *)
Record BackgroundTask : Type := {
  task_request : RenderRequest.t;
  task_callback_url : string
}.

Definition render_dicom_to_pdf_async (env : Env)
    (render_request : RenderRequest.t) (request : ClientRequest)
    (processed_requests : gset string)
    : outcome (Accepted * BackgroundTask) * gset string :=
  let _ := validate_client_ip env request in
  let process_key :=
    process_key (RenderRequest.examID render_request)
      (RenderRequest.pacs_studies_iuid render_request) in
  if bool_decide (process_key ∈ processed_requests) then
    (Throw (HTTPException 409
       ("Request for examID " ++ str_int (RenderRequest.examID render_request)
        ++ " is already being processed")),
     processed_requests)
  else
    let processed_requests := {[process_key]} ∪ processed_requests in
    let callback_url := RenderRequest.UrlCallback render_request in
    if negb (truthy_str callback_url) then
      (Throw (HTTPException 500
         "Callback URL not configured (UrlCallback is missing in request)"),
       release process_key processed_requests)
    else
      (Return
         ({| accepted_status := "accepted";
             accepted_message := "Request accepted for processing";
             accepted_examID := RenderRequest.examID render_request;
             accepted_pacs_studies_iuid :=
               RenderRequest.pacs_studies_iuid render_request;
             accepted_callback_url := callback_url |},
          {| task_request := render_request;
             task_callback_url := callback_url |}),
       processed_requests).

Definition render_dicom_to_pdf_sync (env : Env)
    (render_request : RenderRequestSync.t) (request : ClientRequest)
    : App StreamingResponse :=
  let _ := validate_client_ip env request in
  App_try
    (studies ← of_result
       (DicomwebUtils.process_dicom_wado_study (wado env)
          (RenderRequestSync.pacs_studies_iuid render_request)
          (match RenderRequestSync.max_workers render_request with
           | Some n => if n =? 0 then 4 else n
           | None => 4
           end));
     _ ← (if (size studies =? 0)%nat then
            throw (HTTPException 400
              "No valid DICOM instances found in DICOMweb server")
          else mret tt);
     pdf_buffer ← of_result
       (PdfUtils.create_pdf_from_studies studies
          (Models.getattr (RenderRequestSync.anonymize render_request) false)
          (Models.getattr (RenderRequestSync.cover_page render_request) false));
     let pdf_size := Z.of_nat (String.length pdf_buffer) in
     _ ← send_log_callback env (RenderRequestSync.examID render_request) true
           ("PDF de imagens DICOM gerado com sucesso (sync), tempo de processamento: "
            ++ total_time env ++ "s")
           200 "OK" (RenderRequestSync.IntegrationToken render_request)
           (Some {[ "studyIUID" :=
                      JStr (RenderRequestSync.pacs_studies_iuid render_request);
                    "processing_time" := JStr (total_time env ++ "s");
                    "pdf_size" := JInt pdf_size ]});
     mret {| content := pdf_buffer;
             media_type := "application/pdf";
             response_headers :=
               [("Content-Disposition",
                 "attachment; filename=exam_"
                 ++ str_int (RenderRequestSync.examID render_request)
                 ++ ".pdf")] |})
    (fun e =>
       _ ← send_log_callback env (RenderRequestSync.examID render_request) false
             ("Error processing DICOM to PDF: " ++ error_str env e) 500
             "Internal Server Error"
             (RenderRequestSync.IntegrationToken render_request)
             (Some {[ "studyIUID" :=
                        JStr (RenderRequestSync.pacs_studies_iuid render_request);
                      "error_type" := JStr (error_type env e) ]});
       throw (HTTPException 500 (error_str env e))).

End Endpoints.

End Main.

(** * Vocabulary of the statements *)

Module Spec.

Import Models.

(** [a] may stand before [b] in a list sorted with [lt]: [b] is not
    smaller than [a]. *)
Definition not_after {A} (lt : A -> A -> bool) (a b : A) : Prop :=
  lt b a = false.

Definition lex (c1 c2 : comparison) : comparison :=
  match c1 with Eq => c2 | _ => c1 end.

(** Three-way comparison of third items, with [None] before every
    [str]. *)
Definition name_cmp (f1 f2 : option string) : comparison :=
  match f1, f2 with
  | None, None => Eq
  | None, Some _ => Lt
  | Some _, None => Gt
  | Some s1, Some s2 => String.compare s1 s2
  end.

(** Three-way lexicographic comparison of sort keys: position, then
    instance number, then the third item. *)
Definition key_cmp (a b : Key) : comparison :=
  let '(z1, n1, f1) := a in
  let '(z2, n2, f2) := b in
  lex (Qcompare z1 z2) (lex (Z.compare n1 n2) (name_cmp f1 f2)).

(** [<] on sort keys where Python evaluates it, continued to the keys
    it cannot compare by [name_cmp]. *)
Definition key_ltb (a b : Key) : bool :=
  match key_cmp a b with Lt => true | _ => false end.

(** Two keys that [<] cannot compare: they agree on position and
    instance number, and the third item is [None] in one and a [str] in
    the other. *)
Definition unordered (a b : Key) : bool :=
  let '(z1, n1, f1) := a in
  let '(z2, n2, f2) := b in
  Qeq_bool z1 z2 && (n1 =? n2) &&
  match f1, f2 with
  | None, Some _ | Some _, None => true
  | _, _ => false
  end.

(** Ascending order of sort keys: [b < a] evaluates to [False]. *)
Definition KeyLe (a b : Key) : Prop := key_lt b a = Py.Ok false.

(** The instance was read from a buffer, as every fetched instance
    is. *)
Definition from_buffer (d : Dataset) : Prop := filename d = Some None.

(** Two instances that share position and instance number. *)
Definition same_slice (a b : Dataset) : bool :=
  Qeq_bool (z_pos a) (z_pos b) && (instance_num a =? instance_num b).

(** No two instances of [l] have keys that [<] cannot compare. *)
Definition comparable (l : list Dataset) : Prop :=
  forall a b, a ∈ l -> b ∈ l -> unordered (sort_key a) (sort_key b) = false.

(** The series with its instances in stable ascending order of
    [key_ltb], and the study with every series so. *)
Definition sorted (s : DicomSeries.t) : DicomSeries.t :=
  {| DicomSeries.series_uid := DicomSeries.series_uid s;
     DicomSeries.series_description := DicomSeries.series_description s;
     DicomSeries.instances :=
       Py.list_sort sort_key key_ltb (DicomSeries.instances s);
     DicomSeries.modality := DicomSeries.modality s |}.

Definition finalized (st : DicomStudy.t) : DicomStudy.t :=
  {| DicomStudy.study_uid := DicomStudy.study_uid st;
     DicomStudy.series := sorted <$> DicomStudy.series st;
     DicomStudy.patient_name := DicomStudy.patient_name st;
     DicomStudy.patient_id := DicomStudy.patient_id st;
     DicomStudy.study_date := DicomStudy.study_date st;
     DicomStudy.accession_number := DicomStudy.accession_number st;
     DicomStudy.study_description := DicomStudy.study_description st |}.

(** The series bucket an instance is routed to. *)
Definition route (d : Dataset) : string :=
  getattr (SeriesInstanceUID d) "UNKNOWN".

(** The instances of series [k] of a study; none when there is no such
    series. *)
Definition series_instances (st : DicomStudy.t) (k : string)
    : option (list Dataset) :=
  DicomSeries.instances <$> (DicomStudy.series st !! k).

(** The study built from the instances [l], in their order of arrival,
    and finalized. *)
Definition assemble (uid : string) (l : list Dataset)
    : Py.result DicomStudy.t :=
  DicomStudy.finalize (foldl DicomStudy.add_instance (DicomStudy.init uid) l).

(** No two distinct instances of [l] have equal sort keys. *)
Definition distinct_keys (l : list Dataset) : Prop :=
  forall a b, a ∈ l -> b ∈ l ->
    key_eqb (sort_key a) (sort_key b) = true -> a = b.

(** The value of the first instance of [l] that carries the attribute. *)
Fixpoint first_carrying (attr : Dataset -> option string) (l : list Dataset)
    : option string :=
  match l with
  | [] => None
  | d :: l' =>
      match attr d with
      | Some v => Some v
      | None => first_carrying attr l'
      end
  end.

(** The first non-empty value of the attribute among [l]; the empty
    string when there is none. *)
Fixpoint first_nonempty (attr : Dataset -> option string) (l : list Dataset)
    : string :=
  match l with
  | [] => ""
  | d :: l' =>
      match attr d with
      | Some v => if Py.truthy_str v then v else first_nonempty attr l'
      | None => first_nonempty attr l'
      end
  end.

End Spec.

(** Statements about the retrieval scheduler. *)
Module RetrievalSpec.

Import Py DicomwebUtils.

(** The requests sent, in order. *)
Definition requests (trace : list event) : list Request :=
  flat_map (fun ev => match ev with EvRequest r => [r] | EvLog _ _ => [] end)
    trace.

(** The fetch of one instance went through: the URL is configured, the
    one request sent was answered with status 200, the body was read and
    decoded to [ds]. *)
Definition fetched (env : Env) (trace : list event) (ds : Dataset) : Prop :=
  exists url req response data,
    get_dicom_wado_url env = Ok url /\
    trace = [EvRequest req] /\
    req_timeout req = 15 /\
    urlopen env req = Ok response /\
    status response = 200 /\
    read response = Ok data /\
    dcmread env data = Ok ds.

(** The last record of the trace is the warning about instance
    [sop_uid]. *)
Definition warned (trace : list event) (sop_uid : string) : Prop :=
  exists e,
    last trace =
      Some (EvLog WARNING ("⚠️ Failed to download instance " ++ sop_uid
                             ++ ": " ++ exn_str e)).

(** Instance [i] of series [series_uid] of study [study_uid] can be
    downloaded: it has a usable [sop_iuid] and its download returns a
    dataset that counts as true. *)
Definition downloadable (env : Env) (study_uid series_uid : string)
    (i : InstanceData) : Prop :=
  exists sop_uid ds,
    truthy_uid (sop_iuid i) = Some sop_uid /\
    run (download_dicom_instance env study_uid series_uid sop_uid)
      = Ok (Some ds) /\
    ds_len ds <> 0%nat.

(** No instance that the metadata lists can be downloaded. *)
Definition nothing_downloadable (env : Env) (study_list : list StudyData)
    : Prop :=
  forall sd se i study_uid series_uid,
    sd ∈ study_list -> se ∈ getattr (series sd) [] ->
    i ∈ getattr (instances se) [] ->
    truthy_uid (study_iuid sd) = Some study_uid ->
    truthy_uid (series_iuid se) = Some series_uid ->
    ~ downloadable env study_uid series_uid i.

(** Every series of the study holds at least one instance. *)
Definition no_empty_series (st : DicomStudy.t) : Prop :=
  map_Forall (fun _ s => DicomSeries.instances s <> []) (DicomStudy.series st).

(** A character that [get_dicom_wado_url] may strip from an end of the
    configured value. *)
Definition strippable (c : ascii) : bool := is_space c || is_quote c.

(** The request for the metadata of study [study_iuid] at the
    configured URL [url]. *)
Definition metadata_request (url study_iuid : string) : Request :=
  {| req_url := rstrip is_slash url ++ "?studyUID=" ++ study_iuid;
     req_headers := [("Accept", "application/json");
                     ("User-Agent", "DICOM-PDF-Converter/1.0")];
     req_timeout := 30 |}.

(** The metadata fetch goes through: the URL is configured, the request
    is answered with status 200, the body is read and parsed to [md]. *)
Definition metadata_fetched (env : Env) (study_iuid : string) (md : Metadata)
    : Prop :=
  exists url response content,
    get_dicom_wado_url env = Ok url /\
    urlopen env (metadata_request url study_iuid) = Ok response /\
    status response = 200 /\
    read response = Ok content /\
    json_loads env content = Ok md.

(** The metadata fetch fails with [e]: [e] is what the first failing
    stage raises, where the stages are the configuration, the request,
    the status check (which fails with an [HTTPError] that carries the
    status), the read and the parse. *)
Definition metadata_failed (env : Env) (study_iuid : string) (e : exn)
    : Prop :=
  get_dicom_wado_url env = Raise e \/
  exists url,
    get_dicom_wado_url env = Ok url /\
    (urlopen env (metadata_request url study_iuid) = Raise e \/
     exists response,
       urlopen env (metadata_request url study_iuid) = Ok response /\
       (status response <> 200 /\
        e = HTTPError (status response)
              ("HTTP " ++ str_int (status response)) \/
        status response = 200 /\
        (read response = Raise e \/
         exists content,
           read response = Ok content /\
           json_loads env content = Raise e))).

(** What the collecting loop keeps of the outcome of one download. *)
Definition kept (outcome : result (option Dataset)) : list Dataset :=
  match outcome with
  | Ok o => match truthy_dataset o with Some ds => [ds] | None => [] end
  | Raise _ => []
  end.

(** The datasets of a series that can be downloaded, in the order in
    which the metadata lists them. *)
Definition fetched_in_order (env : Env) (study_uid series_uid : string)
    (instances : list InstanceData) : list Dataset :=
  flat_map (fun i =>
              match truthy_uid (sop_iuid i) with
              | Some sop_uid =>
                  kept (run (download_dicom_instance env study_uid series_uid
                               sop_uid))
              | None => []
              end) instances.

(** The environment [env] with another completion order. *)
Definition with_scheduler (env : Env) (sch : Scheduler) : Env :=
  {| DICOM_WADO_URL := DICOM_WADO_URL env;
     urlopen := urlopen env;
     json_loads := json_loads env;
     dcmread := dcmread env;
     dcmread_filename := dcmread_filename env;
     scheduler := sch |}.

(** Every instance of the study was read from a buffer. *)
Definition buffered (st : DicomStudy.t) : Prop :=
  forall k l, Spec.series_instances st k = Some l -> Forall Spec.from_buffer l.

(** Two studies have the same series, and each series holds the same
    instances up to their order. *)
Definition perm_series (st1 st2 : DicomStudy.t) : Prop :=
  forall k,
    option_Forall2 (fun l1 l2 : list Dataset => l1 ≡ₚ l2)
      (Spec.series_instances st1 k) (Spec.series_instances st2 k).

(** Two studies have the same series, each series holds the same
    instances up to their order, and in the same order when no two of
    its instances have equal sort keys. *)
Definition same_series (st1 st2 : DicomStudy.t) : Prop :=
  forall k,
    option_Forall2
      (fun l1 l2 : list Dataset =>
         l1 ≡ₚ l2 /\ (Spec.distinct_keys l1 -> l1 = l2))
      (Spec.series_instances st1 k) (Spec.series_instances st2 k).

(** Two results list the same studies, with the same series. *)
Definition same_studies (m1 m2 : gmap string DicomStudy.t) : Prop :=
  forall uid, option_Forall2 same_series (m1 !! uid) (m2 !! uid).

(** The characters of an encoded query value: letters, digits and
    [_ . - ~ + %]. *)
Definition url_safe (c : ascii) : bool :=
  let n := N_of_ascii c in
  ((48 <=? n) && (n <=? 57) || (65 <=? n) && (n <=? 90)
   || (97 <=? n) && (n <=? 122))%N
  || Ascii.eqb c "_" || Ascii.eqb c "." || Ascii.eqb c "-"
  || Ascii.eqb c "~" || Ascii.eqb c "+" || Ascii.eqb c "%".

End RetrievalSpec.

(** Statements about the pixel pipeline. *)
Module PipelineSpec.

Import Py ImageUtils.

Section WithLib.

Context {lib : ArrayLib}.

(** The dataset [ds] under another photometric tag for which the
    decoder returns the same pixel array, as it does for a
    [PALETTE COLOR] image read as [MONOCHROME2]: both hold one sample
    per pixel. *)
Definition with_photometric (ds : Dataset) (p : option string) : Dataset :=
  {| file_meta := file_meta ds;
     decompress := decompress ds;
     pixel_array := pixel_array ds;
     apply_color_lut := apply_color_lut ds;
     PhotometricInterpretation := p;
     NumberOfFrames := NumberOfFrames ds;
     WindowCenter := WindowCenter ds;
     WindowWidth := WindowWidth ds;
     RescaleSlope := RescaleSlope ds;
     RescaleIntercept := RescaleIntercept ds |}.

End WithLib.

End PipelineSpec.

(** Statements about the PDF document. *)
Module DocumentSpec.

Import Py PdfUtils.

Definition is_page_break (x : flowable) : bool :=
  match x with PageBreak => true | _ => false end.

(** The number of page breaks among the elements. *)
Definition page_breaks (elements : list flowable) : nat :=
  length (List.filter is_page_break elements).

(** The box that an image page leaves to its image. *)
Definition available_width : Q := (fst A4 - 2 * ((75 # 100) * inch))%Q.
Definition available_height : Q :=
  (snd A4 - 2 * ((75 # 100) * inch) - 1 * inch)%Q.

(** The study [study] with another patient name and patient ID. *)
Definition with_patient (study : Models.DicomStudy.t) (name id : string)
    : Models.DicomStudy.t :=
  {| Models.DicomStudy.study_uid := Models.DicomStudy.study_uid study;
     Models.DicomStudy.series := Models.DicomStudy.series study;
     Models.DicomStudy.patient_name := name;
     Models.DicomStudy.patient_id := id;
     Models.DicomStudy.study_date := Models.DicomStudy.study_date study;
     Models.DicomStudy.accession_number :=
       Models.DicomStudy.accession_number study;
     Models.DicomStudy.study_description :=
       Models.DicomStudy.study_description study |}.

(** Elements that are empty unless they hold a page break. *)
Definition closed (elements : list flowable) : Prop :=
  page_breaks elements = 0%nat -> elements = [].

Section WithDoc.

Context {lib : ImageUtils.ArrayLib} {doc : DocLib}.

(** The frames that the instances of a series, of a study and of all
    studies count. *)
Definition frames_of_instance (instance : Models.Dataset) : nat :=
  Z.to_nat (ImageUtils.get_frame_count (pixels_of instance)).

Definition frames_of_series (series : Models.DicomSeries.t) : nat :=
  sum_list_with frames_of_instance (Models.DicomSeries.instances series).

Definition frames_of_study (study : Models.DicomStudy.t) : nat :=
  sum_list_with (fun ks => frames_of_series (snd ks))
    (map_to_list (Models.DicomStudy.series study)).

Definition frames (studies : gmap string Models.DicomStudy.t) : nat :=
  sum_list_with (fun kv => frames_of_study (snd kv)) (map_to_list studies).

End WithDoc.

End DocumentSpec.

(** Statements about the service. *)
Module ServiceSpec.

Import Py Main.

(** The request [request] with an [X-Forwarded-For] header. *)
Definition with_forwarded (request : ClientRequest) (value : string)
    : ClientRequest :=
  {| x_forwarded_for := Some value;
     x_real_ip := x_real_ip request;
     client_host := client_host request |}.

(** The entries of [ALLOWED_CLIENT_IPS] that are not blank, stripped. *)
Definition allowed_ips (env : Env) : list string :=
  stripped_entries (Models.getattr (ALLOWED_CLIENT_IPS env) "").

(** The posts of a trace that went to the callback URL, and those that
    went to the log URL. *)
Definition callback_posts (tr : list event) : list Post :=
  flat_map (fun ev => match ev with CallbackPost p => [p] | LogPost _ => [] end) tr.

Definition log_posts (tr : list event) : list Post :=
  flat_map (fun ev => match ev with LogPost p => [p] | CallbackPost _ => [] end) tr.

(** A status that [raise_for_status] lets pass. *)
Definition passes (response : PostResponse) : Prop :=
  ~ (400 <= status_code response < 600).

End ServiceSpec.

(** * Example inputs *)

Module Examples.

Import Models.

(** A dataset read from a buffer, with an identity and, possibly, a
    position, an instance number and a patient name. *)
Definition dataset (id : N) (z : option Q)
    (num : option Z) (patient : option string) : Dataset :=
  {| ds_id := id; ds_len := 1; filename := Some None;
     ImagePositionPatient :=
       match z with
       | Some q => Some [Some 0%Q; Some 0%Q; Some q]
       | None => None
       end;
     InstanceNumber := Some <$> num;
     SeriesInstanceUID := None; SeriesDescription := None; Modality := None;
     PatientName := patient; PatientID := None; StudyDate := None;
     AccessionNumber := None; StudyDescription := None |}.

(** The dataset [d] as it is when read from the file [path]. *)
Definition from_path (path : string) (d : Dataset) : Dataset :=
  {| ds_id := ds_id d; ds_len := ds_len d; filename := Some (Some path);
     ImagePositionPatient := ImagePositionPatient d;
     InstanceNumber := InstanceNumber d;
     SeriesInstanceUID := SeriesInstanceUID d;
     SeriesDescription := SeriesDescription d; Modality := Modality d;
     PatientName := PatientName d; PatientID := PatientID d;
     StudyDate := StudyDate d; AccessionNumber := AccessionNumber d;
     StudyDescription := StudyDescription d |}.

(** Two fetched instances of series ["1.2.3.1"] that declare neither a
    position nor an instance number, as secondary captures do, and the
    second of them read from a file instead. *)
Definition capture (id : N) : Dataset :=
  {| ds_id := id; ds_len := 1; filename := Some None;
     ImagePositionPatient := None; InstanceNumber := None;
     SeriesInstanceUID := Some "1.2.3.1"; SeriesDescription := None;
     Modality := Some "OT";
     PatientName := None; PatientID := None; StudyDate := None;
     AccessionNumber := None; StudyDescription := None |}.

Definition twin_a : Dataset := capture 1.
Definition twin_b : Dataset := capture 2.
Definition twin_on_disk : Dataset := from_path "slice.dcm" twin_b.

(** Two fetched slices at different positions. *)
Definition slice_hi : Dataset := dataset 7 (Some (5 # 1)) (Some 2) None.
Definition slice_lo : Dataset := dataset 8 (Some (1 # 1)) (Some 1) None.

(** An instance with an empty patient name, then one that names the
    patient. *)
Definition anonymous : Dataset := dataset 1 None (Some 1) (Some "").
Definition named : Dataset := dataset 2 None (Some 2) (Some "DOE^JOHN").

(** A server that lists one study with one series of one instance and
    answers every request with a body that does not decode. *)
Definition in_order : DicomwebUtils.Scheduler :=
  {| DicomwebUtils.as_completed := fun A l => l;
     DicomwebUtils.as_completed_perm := fun A l => Permutation_refl l |}.

Definition one_instance_metadata : DicomwebUtils.Metadata :=
  {| DicomwebUtils.other_keys := [];
     DicomwebUtils.studies := Some [
       {| DicomwebUtils.study_iuid := Some "1.2.3";
          DicomwebUtils.series := Some [
            {| DicomwebUtils.series_iuid := Some "1.2.3.1";
               DicomwebUtils.instances := Some [
                 {| DicomwebUtils.sop_iuid := Some "1.2.3.1.1" |} ] |} ] |} ] |}.

Definition undecodable_server : DicomwebUtils.Env :=
  {| DicomwebUtils.DICOM_WADO_URL := Some "http://pacs.example/wado/";
     DicomwebUtils.urlopen := fun _ =>
       Py.Ok {| DicomwebUtils.status := 200;
                DicomwebUtils.read := Py.Ok "payload" |};
     DicomwebUtils.json_loads := fun _ => Py.Ok one_instance_metadata;
     DicomwebUtils.dcmread := fun _ =>
       Py.Raise (Py.OtherException "File is missing DICOM File Meta Information");
     DicomwebUtils.dcmread_filename :=
       ltac:(intros data ds H; discriminate H);
     DicomwebUtils.scheduler := in_order |}.

(** A server whose metadata response has an ['error'] key and no
    ['studies'] key. *)
Definition keyless_server : DicomwebUtils.Env :=
  {| DicomwebUtils.DICOM_WADO_URL := Some "http://pacs.example/wado/";
     DicomwebUtils.urlopen := fun _ =>
       Py.Ok {| DicomwebUtils.status := 200;
                DicomwebUtils.read := Py.Ok "payload" |};
     DicomwebUtils.json_loads := fun _ =>
       Py.Ok {| DicomwebUtils.other_keys := ["error"];
                DicomwebUtils.studies := None |};
     DicomwebUtils.dcmread := fun _ => Py.Ok slice_lo;
     DicomwebUtils.dcmread_filename :=
       ltac:(intros data ds H; injection H as <-; reflexivity);
     DicomwebUtils.scheduler := in_order |}.

(** The same server with bodies that decode to [slice_lo]. *)
Definition good_server : DicomwebUtils.Env :=
  {| DicomwebUtils.DICOM_WADO_URL := Some "http://pacs.example/wado/";
     DicomwebUtils.urlopen := fun _ =>
       Py.Ok {| DicomwebUtils.status := 200;
                DicomwebUtils.read := Py.Ok "payload" |};
     DicomwebUtils.json_loads := fun _ => Py.Ok one_instance_metadata;
     DicomwebUtils.dcmread := fun _ => Py.Ok slice_lo;
     DicomwebUtils.dcmread_filename :=
       ltac:(intros data ds H; injection H as <-; reflexivity);
     DicomwebUtils.scheduler := in_order |}.

(** A single-frame 2x2 grayscale image with a declared window, and a
    two-frame one without. *)
Definition gray_2x2 : ImageUtils.Ref.array :=
  {| ImageUtils.Ref.a_shape := [2; 2]%nat;
     ImageUtils.Ref.a_dtype := ImageUtils.Ref.uint8;
     ImageUtils.Ref.a_data := [0%Q; 100 # 1; 200 # 1; 255 # 1] |}.

Definition gray_2x2x2 : ImageUtils.Ref.array :=
  {| ImageUtils.Ref.a_shape := [2; 2; 2]%nat;
     ImageUtils.Ref.a_dtype := ImageUtils.Ref.uint8;
     ImageUtils.Ref.a_data :=
       [0%Q; 100 # 1; 200 # 1; 255 # 1; 10 # 1; 20 # 1; 30 # 1; 40 # 1] |}.

Definition single_frame : ImageUtils.Dataset (lib := ImageUtils.Ref.lib) :=
  {| ImageUtils.file_meta := false;
     ImageUtils.decompress := Py.Ok tt;
     ImageUtils.pixel_array := Py.Ok (gray_2x2 : @ImageUtils.ndarray ImageUtils.Ref.lib);
     ImageUtils.apply_color_lut := fun _ =>
       Py.Raise (Py.ValueError "No suitable Palette Color Lookup Table Module found");
     ImageUtils.PhotometricInterpretation := Some "MONOCHROME2";
     ImageUtils.NumberOfFrames := Some 1;
     ImageUtils.WindowCenter := Some (ImageUtils.One (ImageUtils.Num (128 # 1)));
     ImageUtils.WindowWidth := Some (ImageUtils.One (ImageUtils.Num (256 # 1)));
     ImageUtils.RescaleSlope := None;
     ImageUtils.RescaleIntercept := None |}.

Definition two_frames : ImageUtils.Dataset (lib := ImageUtils.Ref.lib) :=
  {| ImageUtils.file_meta := false;
     ImageUtils.decompress := Py.Ok tt;
     ImageUtils.pixel_array := Py.Ok (gray_2x2x2 : @ImageUtils.ndarray ImageUtils.Ref.lib);
     ImageUtils.apply_color_lut := fun _ =>
       Py.Raise (Py.ValueError "No suitable Palette Color Lookup Table Module found");
     ImageUtils.PhotometricInterpretation := Some "MONOCHROME2";
     ImageUtils.NumberOfFrames := Some 2;
     ImageUtils.WindowCenter := None;
     ImageUtils.WindowWidth := None;
     ImageUtils.RescaleSlope := None;
     ImageUtils.RescaleIntercept := None |}.

(** A signed 16-bit image of 100 items that is zero but for one item
    at each end of the range. *)
Definition int16_outliers : ImageUtils.Ref.array :=
  {| ImageUtils.Ref.a_shape := [10; 10]%nat;
     ImageUtils.Ref.a_dtype := ImageUtils.Ref.int16;
     ImageUtils.Ref.a_data :=
       ((-32768 # 1) :: replicate 98 0%Q ++ [32767 # 1])%list |}.

(** Instances of series ["1.2.3.1"]: the first to arrive has neither a
    description nor a modality, the second has both. *)
Definition bare_instance : Dataset :=
  {| ds_id := 11; ds_len := 1; filename := Some None;
     ImagePositionPatient := None; InstanceNumber := Some (Some 1);
     SeriesInstanceUID := Some "1.2.3.1"; SeriesDescription := None;
     Modality := None;
     PatientName := None; PatientID := None; StudyDate := None;
     AccessionNumber := None; StudyDescription := None |}.

Definition labelled_instance : Dataset :=
  {| ds_id := 12; ds_len := 1; filename := Some None;
     ImagePositionPatient := None; InstanceNumber := Some (Some 2);
     SeriesInstanceUID := Some "1.2.3.1"; SeriesDescription := Some "AXIAL T1";
     Modality := Some "MR";
     PatientName := None; PatientID := None; StudyDate := None;
     AccessionNumber := None; StudyDescription := None |}.

(** A single-frame grayscale image that declares no window. *)
Definition unwindowed : ImageUtils.Dataset (lib := ImageUtils.Ref.lib) :=
  {| ImageUtils.file_meta := false;
     ImageUtils.decompress := Py.Ok tt;
     ImageUtils.pixel_array :=
       Py.Ok (gray_2x2 : @ImageUtils.ndarray ImageUtils.Ref.lib);
     ImageUtils.apply_color_lut := fun _ =>
       Py.Raise (Py.ValueError "No suitable Palette Color Lookup Table Module found");
     ImageUtils.PhotometricInterpretation := Some "MONOCHROME2";
     ImageUtils.NumberOfFrames := None;
     ImageUtils.WindowCenter := None;
     ImageUtils.WindowWidth := None;
     ImageUtils.RescaleSlope := None;
     ImageUtils.RescaleIntercept := None |}.

(** A 1x2 colour image that declares no window, and an instance whose
    pixel data cannot be read. *)
Definition rgb_1x2 : ImageUtils.Ref.array :=
  {| ImageUtils.Ref.a_shape := [1; 2; 3]%nat;
     ImageUtils.Ref.a_dtype := ImageUtils.Ref.uint8;
     ImageUtils.Ref.a_data := [255 # 1; 0%Q; 0%Q; 0%Q; 0%Q; 255 # 1] |}.

Definition colour_frame : ImageUtils.Dataset (lib := ImageUtils.Ref.lib) :=
  {| ImageUtils.file_meta := false;
     ImageUtils.decompress := Py.Ok tt;
     ImageUtils.pixel_array :=
       Py.Ok (rgb_1x2 : @ImageUtils.ndarray ImageUtils.Ref.lib);
     ImageUtils.apply_color_lut := fun _ =>
       Py.Raise (Py.ValueError "No suitable Palette Color Lookup Table Module found");
     ImageUtils.PhotometricInterpretation := Some "RGB";
     ImageUtils.NumberOfFrames := None;
     ImageUtils.WindowCenter := None;
     ImageUtils.WindowWidth := None;
     ImageUtils.RescaleSlope := None;
     ImageUtils.RescaleIntercept := None |}.

Definition unreadable : ImageUtils.Dataset (lib := ImageUtils.Ref.lib) :=
  {| ImageUtils.file_meta := false;
     ImageUtils.decompress := Py.Ok tt;
     ImageUtils.pixel_array :=
       Py.Raise (Py.AttributeError "No pixel data found in this dataset");
     ImageUtils.apply_color_lut := fun _ =>
       Py.Raise (Py.ValueError "No suitable Palette Color Lookup Table Module found");
     ImageUtils.PhotometricInterpretation := Some "MONOCHROME2";
     ImageUtils.NumberOfFrames := None;
     ImageUtils.WindowCenter := None;
     ImageUtils.WindowWidth := None;
     ImageUtils.RescaleSlope := None;
     ImageUtils.RescaleIntercept := None |}.

(** Dicts that yield their items in key order, and a document library
    in which every paragraph, image and document can be built.  The
    instances numbered 21, 22 and 23 hold [colour_frame], [unreadable]
    and [two_frames]; every other one holds [single_frame]. *)
Definition in_key_order : PdfUtils.DictOrder :=
  {| PdfUtils.items := fun V m => map_to_list m;
     PdfUtils.items_perm := fun V m => Permutation_refl (map_to_list m) |}.

Definition plain_doc : PdfUtils.DocLib (lib := ImageUtils.Ref.lib) :=
  {| PdfUtils.pixels_of := fun d =>
       if (ds_id d =? 21)%N then colour_frame
       else if (ds_id d =? 22)%N then unreadable
       else if (ds_id d =? 23)%N then two_frames
       else single_frame;
     PdfUtils.image_mode := ImageUtils.Ref.p_mode;
     PdfUtils.image_size := fun p =>
       (Z.of_nat (fst (ImageUtils.Ref.p_size p)),
        Z.of_nat (snd (ImageUtils.Ref.p_size p)));
     PdfUtils.flatten_on_white := fun p =>
       Py.Ok {| ImageUtils.Ref.p_mode := "RGB";
                ImageUtils.Ref.p_size := ImageUtils.Ref.p_size p;
                ImageUtils.Ref.p_pixels := ImageUtils.Ref.p_pixels p |};
     PdfUtils.image_convert_rgb := fun p =>
       Py.Ok {| ImageUtils.Ref.p_mode := "RGB";
                ImageUtils.Ref.p_size := ImageUtils.Ref.p_size p;
                ImageUtils.Ref.p_pixels := ImageUtils.Ref.p_pixels p |};
     PdfUtils.save_jpeg := fun p => Py.Ok ("JPEG " ++ ImageUtils.Ref.p_mode p);
     PdfUtils.markup_ok := fun _ => true;
     PdfUtils.image_data_ok := fun _ => true;
     PdfUtils.reformat_date := fun _ => None;
     PdfUtils.now := "2024-01-01 00:00:00";
     PdfUtils.dict_order := in_key_order;
     PdfUtils.build := fun _ => Py.Ok "%PDF" |}.

(** A series of a colour instance, an unreadable one and one with two
    frames, and the study that holds it. *)
Definition mixed_series : DicomSeries.t :=
  {| DicomSeries.series_uid := "1.2.3.1";
     DicomSeries.series_description := "";
     DicomSeries.instances :=
       [dataset 21 None None None; dataset 22 None None None;
        dataset 23 None None None];
     DicomSeries.modality := "CT" |}.

Definition mixed_study : DicomStudy.t :=
  {| DicomStudy.study_uid := "1.2.3";
     DicomStudy.series := {["1.2.3.1" := mixed_series]};
     DicomStudy.patient_name := "DOE^JOHN";
     DicomStudy.patient_id := "";
     DicomStudy.study_date := "20240101";
     DicomStudy.accession_number := "";
     DicomStudy.study_description := "" |}.

(** A service that admits two addresses, and a client that connects
    from a third one. *)
Definition service : Main.Env :=
  {| Main.wado := good_server;
     Main.CREATE_LOG_URL := Some "http://log.example/create";
     Main.ALLOWED_CLIENT_IPS := Some "10.0.0.1, 10.0.0.2";
     Main.requests_post := fun _ =>
       Py.Ok {| Main.status_code := 200; Main.text := "";
                Main.reason_phrase := "OK" |};
     Main.httpx_post := fun _ =>
       Py.Ok {| Main.status_code := 200; Main.text := "";
                Main.reason_phrase := "OK" |};
     Main.b64encode := fun s => s;
     Main.total_time := "0.00";
     Main.http_exception_str := fun status_code detail =>
       Py.str_int status_code ++ ": " ++ detail;
     Main.type_name := fun _ => "Exception" |}.

Definition outside_client : Main.ClientRequest :=
  {| Main.x_forwarded_for := None;
     Main.x_real_ip := None;
     Main.client_host := Some "203.0.113.7" |}.

End Examples.

(** * Properties *)

(** ** The stable sort *)

Section StableSort.

Context {A : Type} (lt : A -> A -> bool).

Abbreviation not_after := (Spec.not_after lt).

Hypothesis lt_asym : forall a b, lt a b = true -> lt b a = false.
Hypothesis not_after_trans :
  forall a b c, not_after a b -> not_after b c -> not_after a c.

Lemma insert_by_perm (x : A) (l : list A) : Py.insert_by lt x l ≡ₚ x :: l.
Proof.
  induction l as [|y l IH]; simpl; [done|].
  destruct (lt y x); [|done].
  rewrite IH. apply Permutation_swap.
Qed.

Lemma insert_by_sorted (x : A) (l : list A) :
  StronglySorted not_after l -> StronglySorted not_after (Py.insert_by lt x l).
Proof.
  induction 1 as [|y l Hl IH Hy]; simpl.
  - repeat constructor.
  - destruct (lt y x) eqn:Hyx.
    + constructor; [exact IH|].
      rewrite insert_by_perm. constructor; [|exact Hy].
      apply lt_asym, Hyx.
    + constructor; [by constructor|].
      constructor; [exact Hyx|].
      eapply Forall_impl; [exact Hy|].
      intros z Hz. by eapply not_after_trans.
Qed.

(** Items that [lt] never separates keep their places relative to each
    other when a new first item is inserted. *)
Lemma insert_by_filter (P : A -> bool) (x : A) (l : list A) :
  (forall a b, P a = true -> P b = true -> lt a b = false) ->
  List.filter P (Py.insert_by lt x l) = List.filter P (x :: l).
Proof.
  intros HP. induction l as [|y l IH]; [done|].
  cbn [Py.insert_by]. destruct (lt y x) eqn:Hyx; [|done].
  cbn [List.filter] in *. rewrite IH.
  destruct (P y) eqn:HPy, (P x) eqn:HPx; try done.
  by rewrite (HP y x) in Hyx.
Qed.

(** A sorted list is determined by its items once no two distinct items
    are mutually [not_after]. *)
Lemma sorted_perm_unique (l1 l2 : list A) :
  StronglySorted not_after l1 -> StronglySorted not_after l2 ->
  l1 ≡ₚ l2 ->
  (forall a b, a ∈ l1 -> b ∈ l1 -> not_after a b -> not_after b a -> a = b) ->
  l1 = l2.
Proof.
  intros H1. revert l2.
  induction H1 as [|x l1 Hs1 IH Hx]; intros l2 H2 Hp Hanti.
  - by apply Permutation_nil_l in Hp.
  - destruct H2 as [|y l2 Hs2 Hy].
    + by apply Permutation_nil_r in Hp.
    + assert (x = y) as ->.
      { assert (x ∈ y :: l2) as Hxin by (rewrite <- Hp; left).
        assert (y ∈ x :: l1) as Hyin by (rewrite Hp; left).
        apply elem_of_cons in Hxin as [?|Hxin]; [done|].
        apply elem_of_cons in Hyin as [?|Hyin]; [done|].
        rewrite Forall_forall in Hx, Hy.
        apply Hanti; [left|by right|by apply Hx|by apply Hy]. }
      f_equal. apply IH; [done|by eapply Permutation_cons_inv|].
      intros a b Ha Hb. apply Hanti; by right.
Qed.

End StableSort.

Section ListSort.

Context {A K : Type} (key : A -> K) (lt : K -> K -> bool).

Lemma list_sort_perm (l : list A) : Py.list_sort key lt l ≡ₚ l.
Proof.
  induction l as [|x l IH]; [done|].
  cbn [Py.list_sort foldr]. fold (Py.list_sort key lt l).
  by rewrite insert_by_perm, IH.
Qed.

Lemma list_sort_sorted (l : list A) :
  (forall a b, lt a b = true -> lt b a = false) ->
  (forall a b c, lt b a = false -> lt c b = false -> lt c a = false) ->
  StronglySorted (fun a b => lt (key b) (key a) = false) (Py.list_sort key lt l).
Proof.
  intros Hasym Htrans. induction l as [|x l IH]; [constructor|].
  cbn [Py.list_sort foldr]. fold (Py.list_sort key lt l).
  apply (insert_by_sorted (fun a b => lt (key a) (key b))); [| |exact IH].
  - intros a b. apply Hasym.
  - intros a b c. unfold Spec.not_after. apply Htrans.
Qed.

Lemma list_sort_stable (P : A -> bool) (l : list A) :
  (forall a b, P a = true -> P b = true -> lt (key a) (key b) = false) ->
  List.filter P (Py.list_sort key lt l) = List.filter P l.
Proof.
  intros HP. induction l as [|x l IH]; [done|].
  cbn [Py.list_sort foldr]. fold (Py.list_sort key lt l).
  rewrite (insert_by_filter (fun a b => lt (key a) (key b))); [|exact HP].
  cbn [List.filter]. by rewrite IH.
Qed.

End ListSort.

(** ** A sort whose comparison may raise *)

Section SortWith.

Import Py.

Context {A : Type} (lt : A -> A -> result bool) (ltb : A -> A -> bool).

(** Where every comparison that the insertion may make returns, the
    insertion returns what [insert_by] does. *)
Lemma insert_with_returns (x : A) (l : list A) :
  (forall y, y ∈ l -> lt y x = Ok (ltb y x)) ->
  insert_with lt x l = Ok (insert_by ltb x l).
Proof.
  induction l as [|y l IH]; intros H; [done|].
  cbn [insert_with insert_by]. rewrite (H y) by left. cbn.
  destruct (ltb y x); [|done].
  rewrite IH; [done|]. intros z Hz. apply H. by right.
Qed.

(** An insertion raises only what a comparison with the new item
    raised. *)
Lemma insert_with_raises (x : A) (l : list A) (e : exn) :
  insert_with lt x l = Raise e -> exists y, y ∈ l /\ lt y x = Raise e.
Proof.
  induction l as [|y l IH]; [done|].
  cbn [insert_with]. destruct (lt y x) as [[|]|e'] eqn:E; cbn.
  - destruct (insert_with lt x l) as [r|e'] eqn:Er; cbn; [done|].
    intros [= ->]. destruct (IH eq_refl) as (z & Hz & Hlt).
    exists z. split; [by right|done].
  - done.
  - intros [= ->]. exists y. split; [left|done].
Qed.

End SortWith.

Section ListSortWith.

Import Py.

Context {A K : Type} (key : A -> K).
Context (lt : K -> K -> result bool) (ltb : K -> K -> bool).

Lemma list_sort_with_returns (l : list A) :
  (forall a b, a ∈ l -> b ∈ l -> lt (key a) (key b) = Ok (ltb (key a) (key b))) ->
  list_sort_with key lt l = Ok (list_sort key ltb l).
Proof.
  induction l as [|x l IH]; intros H; [done|].
  cbn [list_sort_with list_sort foldr].
  fold (list_sort_with key lt l). fold (list_sort key ltb l).
  rewrite IH by (intros a b Ha Hb; apply H; by right). cbn.
  apply (insert_with_returns (fun a b => lt (key a) (key b))
           (fun a b => ltb (key a) (key b))).
  intros y Hy. rewrite list_sort_perm in Hy. apply H; [by right|left].
Qed.

Lemma list_sort_with_perm (l l' : list A) :
  list_sort_with key lt l = Ok l' -> l' ≡ₚ l.
Proof.
  revert l'. induction l as [|x l IH]; intros l'.
  - by intros [= <-].
  - cbn [list_sort_with foldr]. fold (list_sort_with key lt l).
    destruct (list_sort_with key lt l) as [st|e]; cbn; [|done].
    intros Hins. rewrite <- (IH st eq_refl). clear IH.
    revert l' Hins. induction st as [|y st IHst]; intros l'; cbn.
    + by intros [= <-].
    + destruct (lt (key y) (key x)) as [[|]|e]; cbn; [| |done].
      * destruct (insert_with _ x st) as [r|e]; cbn; [|done].
        intros [= <-]. rewrite (IHst r eq_refl). apply Permutation_swap.
      * by intros [= <-].
Qed.

Lemma list_sort_with_raises (l : list A) (e : exn) :
  list_sort_with key lt l = Raise e ->
  exists a b, a ∈ l /\ b ∈ l /\ lt (key a) (key b) = Raise e.
Proof.
  induction l as [|x l IH]; [done|].
  cbn [list_sort_with foldr]. fold (list_sort_with key lt l).
  destruct (list_sort_with key lt l) as [st|e'] eqn:Est; cbn.
  - intros (y & Hy & Hlt)%insert_with_raises.
    apply list_sort_with_perm in Est. rewrite Est in Hy.
    exists y, x. split; [by right|]. split; [left|done].
  - intros [= ->]. destruct (IH eq_refl) as (a & b & Ha & Hb & Hlt).
    exists a, b. split; [by right|]. split; [by right|done].
Qed.

End ListSortWith.

(** ** The order of sort keys *)

Section KeyOrder.

Import Models Spec.

Lemma string_compare_refl (s : string) : String.compare s s = Eq.
Proof.
  induction s as [|c s IH]; simpl; [done|].
  unfold Ascii.compare. by rewrite N.compare_refl.
Qed.

Lemma string_compare_lt_trans (s1 s2 s3 : string) :
  String.compare s1 s2 = Lt -> String.compare s2 s3 = Lt ->
  String.compare s1 s3 = Lt.
Proof.
  revert s2 s3. induction s1 as [|c1 s1 IH]; intros [|c2 s2] [|c3 s3];
    simpl; try done.
  unfold Ascii.compare.
  destruct (N.compare_spec (N_of_ascii c1) (N_of_ascii c2)) as [E12|L12|G12];
    destruct (N.compare_spec (N_of_ascii c2) (N_of_ascii c3)) as [E23|L23|G23];
    try done; intros H12 H23.
  - rewrite E12, E23, N.compare_refl. by eapply IH.
  - rewrite E12. by apply N.compare_lt_iff in L23 as ->.
  - rewrite <- E23. by apply N.compare_lt_iff in L12 as ->.
  - assert (N_of_ascii c1 < N_of_ascii c3)%N as L by lia.
    by apply N.compare_lt_iff in L as ->.
Qed.

Lemma name_cmp_refl (f : option string) : name_cmp f f = Eq.
Proof. destruct f; [apply string_compare_refl|done]. Qed.

Lemma name_cmp_eq (f1 f2 : option string) : name_cmp f1 f2 = Eq -> f1 = f2.
Proof.
  destruct f1, f2; simpl; try done. by intros ->%String.compare_eq_iff.
Qed.

Lemma name_cmp_antisym (f1 f2 : option string) :
  name_cmp f2 f1 = CompOpp (name_cmp f1 f2).
Proof. destruct f1, f2; simpl; try done. apply String.compare_antisym. Qed.

Lemma name_cmp_lt_trans (f1 f2 f3 : option string) :
  name_cmp f1 f2 = Lt -> name_cmp f2 f3 = Lt -> name_cmp f1 f3 = Lt.
Proof.
  destruct f1, f2, f3; simpl; try done. apply string_compare_lt_trans.
Qed.

Lemma name_eqb_cmp (f1 f2 : option string) :
  name_eqb f1 f2 = match name_cmp f1 f2 with Eq => true | _ => false end.
Proof.
  destruct f1 as [s1|], f2 as [s2|]; simpl; try done.
  destruct (String.eqb_spec s1 s2) as [->|Hne].
  - by rewrite string_compare_refl.
  - destruct (String.compare s1 s2) eqn:E; try done.
    by apply String.compare_eq_iff in E.
Qed.

(** [<] on keys returns exactly when the keys are not [unordered], and
    then it is [key_ltb]; on [unordered] keys it raises a [TypeError]. *)
Lemma key_lt_ordered (a b : Key) :
  unordered a b = false -> key_lt a b = Py.Ok (key_ltb a b).
Proof.
  destruct a as [[z1 n1] f1], b as [[z2 n2] f2].
  unfold unordered, key_lt, key_ltb, key_cmp, lex.
  destruct (Qeq_bool z1 z2) eqn:Ez.
  - apply Qeq_bool_iff, Qeq_alt in Ez. rewrite Ez. simpl.
    destruct (Z.eqb_spec n1 n2) as [->|Hn]; simpl.
    + rewrite Z.compare_refl, name_eqb_cmp.
      destruct f1 as [s1|], f2 as [s2|]; simpl; try done.
      unfold String.ltb. by destruct (String.compare s1 s2).
    + intros _. unfold Z.ltb. destruct (Z.compare_spec n1 n2); done.
  - intros _. simpl. destruct (Qcompare z1 z2) eqn:Ec; try done.
    apply Qeq_alt, Qeq_bool_iff in Ec. congruence.
Qed.

Lemma key_lt_unordered (a b : Key) :
  unordered a b = true -> exists msg, key_lt a b = Py.Raise (Py.TypeError msg).
Proof.
  destruct a as [[z1 n1] f1], b as [[z2 n2] f2]. unfold unordered, key_lt.
  intros [[-> ->]%andb_prop Hf]%andb_prop. simpl.
  destruct f1, f2; try done; simpl; eauto.
Qed.

Lemma key_lt_returns (a b : Key) (v : bool) :
  key_lt a b = Py.Ok v -> unordered a b = false /\ v = key_ltb a b.
Proof.
  destruct (unordered a b) eqn:E.
  - apply key_lt_unordered in E as [msg ->]. done.
  - rewrite (key_lt_ordered _ _ E). by intros [= <-].
Qed.

Lemma key_lt_raises (a b : Key) (e : Py.exn) :
  key_lt a b = Py.Raise e ->
  unordered a b = true /\ exists msg, e = Py.TypeError msg.
Proof.
  destruct (unordered a b) eqn:E.
  - apply key_lt_unordered in E as [msg ->]. intros [= <-]. eauto.
  - by rewrite (key_lt_ordered _ _ E).
Qed.

Lemma unordered_sym (a b : Key) : unordered a b = unordered b a.
Proof.
  destruct a as [[z1 n1] f1], b as [[z2 n2] f2]. unfold unordered.
  rewrite (Z.eqb_sym n1 n2).
  assert (Qeq_bool z1 z2 = Qeq_bool z2 z1) as ->.
  { unfold Qeq_bool. apply Z.eqb_sym. }
  by destruct f1, f2.
Qed.

Lemma unordered_refl (a : Key) : unordered a a = false.
Proof.
  destruct a as [[z n] f]. unfold unordered. destruct f; by rewrite ?andb_false_r.
Qed.

Lemma key_eqb_cmp (a b : Key) :
  key_eqb a b = match key_cmp a b with Eq => true | _ => false end.
Proof.
  destruct a as [[z1 n1] f1], b as [[z2 n2] f2]. unfold key_eqb, key_cmp, lex.
  destruct (Qeq_bool z1 z2) eqn:Ez.
  - apply Qeq_bool_iff, Qeq_alt in Ez. rewrite Ez. simpl.
    destruct (Z.eqb_spec n1 n2) as [->|Hn]; simpl.
    + rewrite Z.compare_refl. apply name_eqb_cmp.
    + destruct (Z.compare_spec n1 n2); done.
  - simpl. destruct (Qcompare z1 z2) eqn:Ec; try done.
    apply Qeq_alt, Qeq_bool_iff in Ec. congruence.
Qed.

Lemma key_cmp_antisym (a b : Key) : key_cmp b a = CompOpp (key_cmp a b).
Proof.
  destruct a as [[z1 n1] f1], b as [[z2 n2] f2]. unfold key_cmp, lex.
  rewrite <- (Qcompare_antisym z1 z2), (Z.compare_antisym n1 n2),
    (name_cmp_antisym f1 f2).
  destruct (Qcompare z1 z2), (Z.compare n1 n2); done.
Qed.

Lemma key_cmp_eq_l (a b c : Key) :
  key_cmp a b = Eq -> key_cmp a c = key_cmp b c.
Proof.
  destruct a as [[z1 n1] f1], b as [[z2 n2] f2], c as [[z3 n3] f3].
  unfold key_cmp, lex.
  destruct (Qcompare z1 z2) eqn:Ez; try done.
  destruct (Z.compare_spec n1 n2) as [->| |]; try done.
  intros ->%name_cmp_eq.
  apply Qeq_alt in Ez.
  by rewrite (Qcompare_comp z1 z2 Ez z3 z3 (Qeq_refl z3)).
Qed.

Lemma key_cmp_lt_trans (a b c : Key) :
  key_cmp a b = Lt -> key_cmp b c = Lt -> key_cmp a c = Lt.
Proof.
  destruct a as [[z1 n1] f1], b as [[z2 n2] f2], c as [[z3 n3] f3].
  unfold key_cmp, lex.
  destruct (Qcompare_spec z1 z2) as [E12|L12|G12]; try done;
    destruct (Qcompare_spec z2 z3) as [E23|L23|G23]; try done.
  - assert (Qcompare z1 z3 = Eq) as -> by (apply (proj1 (Qeq_alt z1 z3)); lra).
    destruct (Z.compare_spec n1 n2) as [E|Ln|Gn]; try done;
      destruct (Z.compare_spec n2 n3) as [E'|Ln'|Gn']; try done.
    + rewrite E, E', Z.compare_refl. apply name_cmp_lt_trans.
    + intros _ _. assert (n1 < n3) as L by lia.
      by apply Z.compare_lt_iff in L as ->.
    + intros _ _. assert (n1 < n3) as L by lia.
      by apply Z.compare_lt_iff in L as ->.
    + intros _ _. assert (n1 < n3) as L by lia.
      by apply Z.compare_lt_iff in L as ->.
  - intros _ _. by assert (Qcompare z1 z3 = Lt) as -> by (apply (proj1 (Qlt_alt z1 z3)); lra).
  - intros _ _. by assert (Qcompare z1 z3 = Lt) as -> by (apply (proj1 (Qlt_alt z1 z3)); lra).
  - intros _ _. by assert (Qcompare z1 z3 = Lt) as -> by (apply (proj1 (Qlt_alt z1 z3)); lra).
Qed.

Lemma key_ltb_asym (a b : Key) : key_ltb a b = true -> key_ltb b a = false.
Proof.
  unfold key_ltb. rewrite (key_cmp_antisym a b). by destruct (key_cmp a b).
Qed.

Lemma key_not_after_trans (a b c : Key) :
  key_ltb b a = false -> key_ltb c b = false -> key_ltb c a = false.
Proof.
  unfold key_ltb.
  rewrite (key_cmp_antisym a b), (key_cmp_antisym b c), (key_cmp_antisym a c).
  destruct (key_cmp a b) eqn:Hab; try done; intros _.
  - by rewrite (key_cmp_eq_l _ _ _ Hab).
  - destruct (key_cmp b c) eqn:Hbc; try done; intros _.
    + assert (key_cmp c b = Eq) as Hcb by (by rewrite key_cmp_antisym, Hbc).
      pose proof (key_cmp_eq_l _ _ a Hcb) as E.
      rewrite (key_cmp_antisym a c), (key_cmp_antisym a b), Hab in E.
      destruct (key_cmp a c); done.
    + by rewrite (key_cmp_lt_trans _ _ _ Hab Hbc).
Qed.

Lemma key_not_ltb_eqb (a b : Key) :
  key_ltb a b = false -> key_ltb b a = false -> key_eqb a b = true.
Proof.
  unfold key_ltb. rewrite key_eqb_cmp, (key_cmp_antisym a b).
  by destruct (key_cmp a b).
Qed.

(** Two keys that both equal a third are not separated by [<]. *)
Lemma key_eqb_class (a b k : Key) :
  key_eqb a k = true -> key_eqb b k = true -> key_ltb a b = false.
Proof.
  unfold key_ltb. rewrite !key_eqb_cmp. intros Ha Hb.
  destruct (key_cmp a k) eqn:Ea; try done.
  destruct (key_cmp b k) eqn:Eb; try done.
  rewrite (key_cmp_eq_l _ _ _ Ea), key_cmp_antisym, Eb. done.
Qed.

Lemma key_eqb_ordered (a b : Key) :
  key_eqb a b = true -> unordered a b = false.
Proof.
  destruct a as [[z1 n1] f1], b as [[z2 n2] f2]. unfold key_eqb, unordered.
  intros [_ Hf]%andb_prop. destruct f1, f2; try done; by rewrite andb_false_r.
Qed.

Lemma KeyLe_ltb (a b : Key) :
  KeyLe a b <-> unordered a b = false /\ key_ltb b a = false.
Proof.
  unfold KeyLe. rewrite (unordered_sym a b). split.
  - intros [H E]%key_lt_returns. done.
  - intros [H1 H2]. by rewrite (key_lt_ordered _ _ H1), H2.
Qed.

(** Between two keys of one slice there are only keys of that slice:
    when [x <= m <= y] and neither [m], [x] nor [m], [y] are
    [unordered], then [x], [y] are not [unordered] either. *)
Lemma unordered_between (x m y : Key) :
  key_ltb m x = false -> key_ltb y m = false ->
  unordered m x = false -> unordered m y = false ->
  unordered y x = false.
Proof.
  destruct x as [[zx nx] fx], m as [[zm nm] fm], y as [[zy ny] fy].
  unfold key_ltb, key_cmp, lex, unordered.
  destruct (Qeq_bool zy zx) eqn:Eyx; [|done].
  destruct (Z.eqb_spec ny nx) as [->|]; [|done]. simpl.
  apply Qeq_bool_iff in Eyx.
  destruct (Qcompare_spec zm zx) as [Emx|Lmx|Gmx]; [|done|].
  - assert (Qcompare zy zm = Eq) as -> by (apply (proj1 (Qeq_alt zy zm)); lra).
    assert (Qeq_bool zm zx = true) as -> by (by apply Qeq_bool_iff).
    assert (Qeq_bool zm zy = true) as -> by (apply Qeq_bool_iff; lra).
    destruct (Z.compare_spec nm nx) as [->|Ln|Gn]; [|done|].
    + rewrite Z.compare_refl, Z.eqb_refl. simpl.
      destruct fx, fm, fy; done.
    + destruct (Z.compare_spec nx nm); [lia|done|lia].
  - destruct (Qcompare_spec zy zm) as [E|L|G]; [lra|done|lra].
Qed.

(** An instance read from a buffer has [None] for its third key item,
    so two of them are never [unordered]. *)
Lemma from_buffer_sort_key (d : Dataset) :
  from_buffer d -> sort_key d = (z_pos d, instance_num d, None).
Proof. unfold from_buffer, sort_key. by intros ->. Qed.

Lemma from_buffer_ordered (a b : Dataset) :
  from_buffer a -> from_buffer b ->
  unordered (sort_key a) (sort_key b) = false.
Proof.
  intros Ha Hb. rewrite (from_buffer_sort_key a Ha), (from_buffer_sort_key b Hb).
  unfold unordered. by rewrite andb_false_r.
Qed.

(** [str(id(ds))] tells objects apart. *)
Lemma str_nat_inj (m n : N) : Py.str_nat m = Py.str_nat n -> m = n.
Proof.
  unfold Py.str_nat. intros H. apply DecimalN.Unsigned.to_uint_inj.
  apply (f_equal NilZero.uint_of_string) in H.
  assert (forall k, N.to_uint k <> Decimal.Nil) as Hnil.
  { intros [|q]; [done|apply DecimalPos.Unsigned.to_uint_nonnil]. }
  rewrite !NilZero.usu in H by apply Hnil. by injection H.
Qed.

End KeyOrder.

(** ** Ordering and aggregation *)

Section Ordering.

Import Models Spec Examples.

Lemma study_add_instance_lookup (st : DicomStudy.t) (d : Dataset) (k : string) :
  series_instances (DicomStudy.add_instance st d) k =
    if decide (route d = k)
    then Some (default [] (series_instances st k) ++ [d])%list
    else series_instances st k.
Proof.
  unfold series_instances, DicomStudy.add_instance. simpl. fold (route d).
  rewrite lookup_alter. destruct (decide (route d = k)) as [<-|Hne].
  - destruct (DicomStudy.series st !! route d) eqn:E; simpl.
    + by rewrite E.
    + by rewrite lookup_insert_eq.
  - destruct (DicomStudy.series st !! route d); [done|].
    by rewrite lookup_insert_ne.
Qed.

Lemma study_foldl_lookup (l : list Dataset) (st : DicomStudy.t) (k : string) :
  series_instances (foldl DicomStudy.add_instance st l) k =
    match series_instances st k, filter (fun d => route d = k) l with
    | None, [] => None
    | o, f => Some (default [] o ++ f)%list
    end.
Proof.
  revert st. induction l as [|d l IH]; intros st; simpl.
  - destruct (series_instances st k); simpl; by rewrite ?app_nil_r.
  - rewrite IH, study_add_instance_lookup, filter_cons.
    destruct (decide (route d = k)); [|done].
    destruct (series_instances st k); simpl;
      rewrite <- ?app_assoc; simpl; by destruct (filter _ l).
Qed.

Lemma study_of_instances_lookup (uid : string) (l : list Dataset) (k : string) :
  series_instances (foldl DicomStudy.add_instance (DicomStudy.init uid) l) k =
    match filter (fun d => route d = k) l with
    | [] => None
    | f => Some f
    end.
Proof.
  rewrite study_foldl_lookup. unfold series_instances, DicomStudy.init.
  cbn [DicomStudy.series]. rewrite lookup_empty. cbn.
  by destruct (filter _ l).
Qed.

Lemma strongly_sorted_weaken {A} (R S : A -> A -> Prop) (l : list A) :
  (forall a b, R a b -> S a b) -> StronglySorted R l -> StronglySorted S l.
Proof.
  intros H. induction 1 as [|x l Hl IH Hx]; constructor; [done|].
  eapply Forall_impl; [exact Hx|]. intros b. apply H.
Qed.

Lemma list_sort_key_sorted (l : list Dataset) :
  StronglySorted (fun a b => key_ltb (sort_key b) (sort_key a) = false)
    (Py.list_sort sort_key key_ltb l).
Proof.
  apply list_sort_sorted.
  - apply key_ltb_asym.
  - apply key_not_after_trans.
Qed.

Lemma list_sort_arrival_independent (l1 l2 : list Dataset) :
  l1 ≡ₚ l2 -> distinct_keys l1 ->
  Py.list_sort sort_key key_ltb l1 = Py.list_sort sort_key key_ltb l2.
Proof.
  intros Hp Hd.
  apply (sorted_perm_unique (fun a b => key_ltb (sort_key a) (sort_key b))).
  - apply list_sort_key_sorted.
  - apply list_sort_key_sorted.
  - by rewrite !list_sort_perm.
  - intros a b Ha Hb Hab Hba. rewrite list_sort_perm in Ha, Hb.
    apply Hd; [done..|]. by apply key_not_ltb_eqb.
Qed.

(** *** When the sort returns and what it raises *)

Lemma comparable_perm (l1 l2 : list Dataset) :
  l1 ≡ₚ l2 -> comparable l1 -> comparable l2.
Proof. intros Hp H a b Ha Hb. apply H; by rewrite Hp. Qed.

Lemma from_buffer_comparable (l : list Dataset) :
  Forall from_buffer l -> comparable l.
Proof.
  rewrite Forall_forall. intros H a b Ha Hb.
  apply from_buffer_ordered; by apply H.
Qed.

Lemma sort_comparable (l : list Dataset) :
  comparable l ->
  Py.list_sort_with sort_key key_lt l
  = Py.Ok (Py.list_sort sort_key key_ltb l).
Proof.
  intros H. apply list_sort_with_returns.
  intros a b Ha Hb. apply key_lt_ordered. by apply H.
Qed.

(** An insertion into a sorted list of comparable items that returns
    has met no item that cannot be compared with the new one. *)
Lemma insert_returns_comparable (x : Dataset) (st r : list Dataset) :
  StronglySorted (fun a b => key_ltb (sort_key b) (sort_key a) = false) st ->
  comparable st ->
  Py.insert_with (fun a b => key_lt (sort_key a) (sort_key b)) x st = Py.Ok r ->
  forall y, y ∈ st -> unordered (sort_key y) (sort_key x) = false.
Proof.
  intros Hs. revert r. induction Hs as [|m st Hst IH Hm]; intros r Hc.
  - intros _ y Hy. by apply elem_of_nil in Hy.
  - cbn [Py.insert_with].
    destruct (key_lt (sort_key m) (sort_key x)) as [[|]|e] eqn:E;
      cbn [mbind Py.result_bind]; [| |done].
    + destruct (Py.insert_with _ x st) as [r'|e] eqn:Er;
        cbn [mbind Py.result_bind]; [|done].
      intros _ y [->|Hy]%elem_of_cons.
      * by apply key_lt_returns in E as [E _].
      * eapply IH; [|done..]. intros a b Ha Hb. apply Hc; by right.
    + intros _ y [->|Hy]%elem_of_cons.
      * by apply key_lt_returns in E as [E _].
      * apply key_lt_returns in E as [E1 E2].
        apply (unordered_between _ (sort_key m)); [done| |done|].
        -- rewrite Forall_forall in Hm. by apply Hm.
        -- apply Hc; [left|by right].
Qed.

Lemma sort_returns_comparable (l l' : list Dataset) :
  Py.list_sort_with sort_key key_lt l = Py.Ok l' -> comparable l.
Proof.
  revert l'. induction l as [|x l IH]; intros l'.
  - intros _ a b Ha. by apply elem_of_nil in Ha.
  - cbn [Py.list_sort_with foldr]. fold (Py.list_sort_with sort_key key_lt l).
    destruct (Py.list_sort_with sort_key key_lt l) as [st|e] eqn:Est; cbn;
      [|done].
    intros Hins. pose proof (IH st eq_refl) as Hc.
    rewrite (sort_comparable l Hc) in Est. injection Est as <-.
    assert (forall y, y ∈ l -> unordered (sort_key y) (sort_key x) = false)
      as Hx.
    { intros y Hy.
      eapply (insert_returns_comparable x); [apply list_sort_key_sorted| |done|].
      - eapply comparable_perm; [|exact Hc]. by rewrite list_sort_perm.
      - by rewrite list_sort_perm. }
    intros a b [->|Ha]%elem_of_cons [->|Hb]%elem_of_cons.
    + apply unordered_refl.
    + rewrite unordered_sym. by apply Hx.
    + by apply Hx.
    + by apply Hc.
Qed.

Lemma sort_returns (l l' : list Dataset) :
  Py.list_sort_with sort_key key_lt l = Py.Ok l' <->
  comparable l /\ l' = Py.list_sort sort_key key_ltb l.
Proof.
  split.
  - intros H. pose proof (sort_returns_comparable _ _ H) as Hc.
    split; [done|]. rewrite (sort_comparable l Hc) in H. by injection H.
  - intros [Hc ->]. by apply sort_comparable.
Qed.

Lemma sort_raises (l : list Dataset) (e : Py.exn) :
  Py.list_sort_with sort_key key_lt l = Py.Raise e ->
  (exists msg, e = Py.TypeError msg) /\
  exists a b, a ∈ l /\ b ∈ l /\ unordered (sort_key a) (sort_key b) = true.
Proof.
  intros (a & b & Ha & Hb & [Hu He]%key_lt_raises)%list_sort_with_raises.
  split; [done|]. by exists a, b.
Qed.

Lemma sort_instances_returns (s s' : DicomSeries.t) :
  DicomSeries.sort_instances s = Py.Ok s' <->
  comparable (DicomSeries.instances s) /\ s' = sorted s.
Proof.
  unfold DicomSeries.sort_instances, sorted.
  destruct (Py.list_sort_with _ _ _) as [l'|e] eqn:E; cbn.
  - apply sort_returns in E as [Hc ->]. split.
    + by intros [= <-].
    + by intros [_ ->].
  - split; [done|]. intros [Hc _]. by rewrite (sort_comparable _ Hc) in E.
Qed.

Lemma sort_instances_raises (s : DicomSeries.t) (e : Py.exn) :
  DicomSeries.sort_instances s = Py.Raise e ->
  (exists msg, e = Py.TypeError msg) /\
  exists a b, a ∈ DicomSeries.instances s /\ b ∈ DicomSeries.instances s /\
    unordered (sort_key a) (sort_key b) = true.
Proof.
  unfold DicomSeries.sort_instances.
  destruct (Py.list_sort_with _ _ _) as [l'|e'] eqn:E; cbn; [done|].
  intros [= <-]. by apply sort_raises.
Qed.

(** The loop of [finalize] *)
Lemma insert_all_lookup {V} (f : V -> V) (l : list (string * V))
    (acc : gmap string V) (k : string) :
  NoDup l.*1 ->
  foldl (fun m kv => <[kv.1 := f kv.2]> m) acc l !! k =
    match (list_to_map l : gmap string V) !! k with
    | Some v => Some (f v)
    | None => acc !! k
    end.
Proof.
  revert acc. induction l as [|[k0 v0] l IH]; intros acc Hnd; [done|].
  apply NoDup_cons in Hnd as [Hk0 Hnd]. cbn [foldl fst snd list_to_map foldr].
  rewrite (IH _ Hnd). destruct (decide (k = k0)) as [->|Hne].
  - rewrite (not_elem_of_list_to_map_1 l k0 Hk0), !lookup_insert_eq. done.
  - rewrite !lookup_insert_ne by done. done.
Qed.

Lemma insert_all_map_to_list {V} (f : V -> V) (m : gmap string V) :
  foldl (fun m kv => <[kv.1 := f kv.2]> m) m (map_to_list m) = f <$> m.
Proof.
  apply map_eq. intros k.
  rewrite insert_all_lookup by apply NoDup_fst_map_to_list.
  rewrite list_to_map_to_list, lookup_fmap. by destruct (m !! k).
Qed.

Abbreviation sort_step :=
  (fun (all_series : gmap string DicomSeries.t) '(uid, series) =>
     series' ← DicomSeries.sort_instances series;
     Py.Ok (<[uid := series']> all_series)).

Lemma sort_loop_returns (l : list (string * DicomSeries.t))
    (acc r : gmap string DicomSeries.t) :
  Py.for_each sort_step acc l = Py.Ok r <->
  (forall k s, (k, s) ∈ l -> comparable (DicomSeries.instances s)) /\
  r = foldl (fun m kv => <[kv.1 := sorted kv.2]> m) acc l.
Proof.
  revert acc. induction l as [|[k0 s0] l IH]; intros acc.
  - cbn. split.
    + intros [= <-]. split; [|done]. intros k s Hks. by apply elem_of_nil in Hks.
    + by intros [_ ->].
  - cbn [Py.for_each foldl fst snd].
    destruct (DicomSeries.sort_instances s0) as [s0'|e] eqn:E0; cbn.
    + apply sort_instances_returns in E0 as [Hc0 ->].
      rewrite IH. split.
      * intros [Hc ->]. split; [|done].
        intros k s [[= -> ->]|Hks]%elem_of_cons; [done|by eapply Hc].
      * intros [Hc ->]. split; [|done].
        intros k s Hks. eapply Hc. by right.
    + split; [done|]. intros [Hc _].
      assert (comparable (DicomSeries.instances s0)) as Hc0
        by (eapply Hc; left).
      assert (DicomSeries.sort_instances s0 = Py.Ok (sorted s0)) as E
        by (by apply sort_instances_returns).
      congruence.
Qed.

Lemma sort_loop_raises (l : list (string * DicomSeries.t))
    (acc : gmap string DicomSeries.t) (e : Py.exn) :
  Py.for_each sort_step acc l = Py.Raise e ->
  exists k s, (k, s) ∈ l /\ DicomSeries.sort_instances s = Py.Raise e.
Proof.
  revert acc. induction l as [|[k0 s0] l IH]; intros acc; [done|].
  cbn [Py.for_each].
  destruct (DicomSeries.sort_instances s0) as [s0'|e'] eqn:E0; cbn.
  - intros (k & s & Hks & Hs)%IH. exists k, s. split; [by right|done].
  - intros [= ->]. exists k0, s0. split; [left|done].
Qed.

(** [finalize] returns exactly when the instances of every series are
    comparable, and then with every series sorted. *)
Lemma finalize_returns (st st' : DicomStudy.t) :
  DicomStudy.finalize st = Py.Ok st' <->
  map_Forall (fun _ s => comparable (DicomSeries.instances s))
    (DicomStudy.series st) /\
  st' = finalized st.
Proof.
  unfold DicomStudy.finalize, finalized.
  destruct (Py.for_each _ _ _) as [r|e] eqn:E; cbn.
  - apply sort_loop_returns in E as [Hc ->].
    rewrite insert_all_map_to_list. split.
    + intros [= <-]. split; [|done].
      intros k s Hks. eapply Hc. by apply elem_of_map_to_list.
    + by intros [_ ->].
  - split; [done|]. intros [Hc _].
    assert (Py.for_each sort_step (DicomStudy.series st)
              (map_to_list (DicomStudy.series st))
            = Py.Ok (foldl (fun m kv => <[kv.1 := sorted kv.2]> m)
                       (DicomStudy.series st) (map_to_list (DicomStudy.series st))))
      as E'.
    { apply sort_loop_returns. split; [|done].
      intros k s Hks%elem_of_map_to_list. by eapply Hc. }
    congruence.
Qed.

Lemma finalize_raises (st : DicomStudy.t) (e : Py.exn) :
  DicomStudy.finalize st = Py.Raise e ->
  (exists msg, e = Py.TypeError msg) /\
  exists k s a b,
    DicomStudy.series st !! k = Some s /\
    a ∈ DicomSeries.instances s /\ b ∈ DicomSeries.instances s /\
    unordered (sort_key a) (sort_key b) = true.
Proof.
  unfold DicomStudy.finalize.
  destruct (Py.for_each _ _ _) as [r|e'] eqn:E; cbn; [done|].
  intros [= <-].
  apply sort_loop_raises in E as (k & s & Hks%elem_of_map_to_list & Hs).
  apply sort_instances_raises in Hs as [He (a & b & Ha & Hb & Hu)].
  split; [done|]. by exists k, s, a, b.
Qed.

Lemma finalize_from_buffer (st : DicomStudy.t) :
  map_Forall (fun _ s => Forall from_buffer (DicomSeries.instances s))
    (DicomStudy.series st) ->
  DicomStudy.finalize st = Py.Ok (finalized st).
Proof.
  intros H. apply finalize_returns. split; [|done].
  intros k s Hks. apply from_buffer_comparable. by eapply H.
Qed.

Lemma finalized_lookup (st : DicomStudy.t) (k : string) :
  series_instances (finalized st) k
  = Py.list_sort sort_key key_ltb <$> series_instances st k.
Proof.
  unfold series_instances, finalized. cbn. rewrite lookup_fmap.
  by destruct (DicomStudy.series st !! k).
Qed.

(** C1 does not hold of the code.  Every fetched instance is read from
    a buffer, so its [filename] is [None] and the fallback to
    [str(id(ds))] never applies: two fetched instances that share
    position and instance number have equal keys, the stable sort leaves
    them in their order of arrival, and the two arrival orders give two
    different finalized series. *)
Theorem fetched_twins_keep_arrival_order :
  from_buffer twin_a /\ from_buffer twin_b /\
  [twin_a; twin_b] ≡ₚ [twin_b; twin_a] /\
  (exists st, assemble "1.2.3" [twin_a; twin_b] = Py.Ok st /\
     series_instances st "1.2.3.1" = Some [twin_a; twin_b]) /\
  (exists st, assemble "1.2.3" [twin_b; twin_a] = Py.Ok st /\
     series_instances st "1.2.3.1" = Some [twin_b; twin_a]) /\
  [twin_a; twin_b] <> [twin_b; twin_a].
Proof.
  split; [done|]. split; [done|]. split; [apply Permutation_swap|].
  assert (forall l, Forall from_buffer l -> l <> [] ->
            Forall (fun d => route d = "1.2.3.1") l ->
            Py.list_sort sort_key key_ltb l = l ->
            exists st, assemble "1.2.3" l = Py.Ok st /\
              series_instances st "1.2.3.1" = Some l) as H.
  { intros l Hb Hne Hr Hs.
    assert (filter (fun d => route d = "1.2.3.1") l = l) as Hf.
    { clear Hb Hne Hs. induction Hr as [|d l Hd Hr IH]; [done|].
      rewrite filter_cons, decide_True by done. by rewrite IH. }
    unfold assemble. eexists. split.
    - apply finalize_from_buffer. intros k s Hks.
      pose proof (study_of_instances_lookup "1.2.3" l k) as Hl.
      unfold series_instances in Hl. rewrite Hks in Hl. cbn in Hl.
      destruct (filter (fun d => route d = k) l) eqn:Ef; [done|].
      injection Hl as ->.
      rewrite <- Ef. rewrite Forall_forall in Hb |- *.
      intros x [_ Hx]%list_elem_of_filter. by apply Hb.
    - rewrite finalized_lookup, study_of_instances_lookup, Hf.
      destruct l; [done|]. cbn [fmap option_fmap option_map]. by rewrite Hs. }
  split; [apply H; by repeat constructor|].
  split; [apply H; by repeat constructor|].
  intros E. by injection E.
Qed.

(** C2 does not hold of the code.  The third item of the key is meant
    to identify the instance (the file name or the object's identity),
    but for instances read from a buffer it is [None]: the two fetched
    instances, which are distinct objects, have the same key in every
    item, and the sort leaves them as they arrived. *)
Theorem fetched_twins_share_their_key :
  from_buffer twin_a /\ from_buffer twin_b /\
  ds_id twin_a <> ds_id twin_b /\
  sort_key twin_a = (0%Q, 0, None) /\
  sort_key twin_b = (0%Q, 0, None) /\
  key_eqb (sort_key twin_a) (sort_key twin_b) = true /\
  (let s := DicomSeries.add_instance
              (DicomSeries.add_instance (DicomSeries.init "1.2.3.1" "") twin_b)
              twin_a in
   exists s', DicomSeries.sort_instances s = Py.Ok s' /\
     DicomSeries.instances s' = [twin_b; twin_a]).
Proof.
  split; [done|]. split; [done|]. split; [done|].
  split; [done|]. split; [done|]. split; [done|].
  cbn zeta. eexists. split; [by vm_compute|done].
Qed.

Lemma update_field_foldl (attr : Dataset -> option string) (l : list Dataset)
    (field : string) :
  foldl (fun f d => DicomStudy.update_field f (attr d)) field l
  = if Py.truthy_str field then field else first_nonempty attr l.
Proof.
  revert field. induction l as [|d l IH]; intros field; simpl.
  - unfold Py.truthy_str. by destruct (String.eqb_spec field "") as [->|].
  - rewrite IH. unfold DicomStudy.update_field.
    destruct (Py.truthy_str field) eqn:Ef; simpl; [by rewrite Ef|].
    destruct (attr d) as [v|]; simpl; [done|by rewrite Ef].
Qed.

Lemma study_fields_foldl (l : list Dataset) (st : DicomStudy.t) :
  let upd attr field :=
    foldl (fun f d => DicomStudy.update_field f (attr d)) field l in
  let st' := foldl DicomStudy.add_instance st l in
  DicomStudy.patient_name st' = upd PatientName (DicomStudy.patient_name st) /\
  DicomStudy.patient_id st' = upd PatientID (DicomStudy.patient_id st) /\
  DicomStudy.study_date st' = upd StudyDate (DicomStudy.study_date st) /\
  DicomStudy.accession_number st'
    = upd AccessionNumber (DicomStudy.accession_number st) /\
  DicomStudy.study_description st'
    = upd StudyDescription (DicomStudy.study_description st).
Proof.
  cbv beta zeta. revert st. induction l as [|d l IH]; intros st; [done|].
  cbn [foldl]. apply IH.
Qed.

(** C8, as stated, fails: the first instance that carries [PatientName]
    carries the empty string; the field is set from it and still counts
    as unset, so the next instance's name replaces it. *)
Lemma patient_name_taken_from_later_instance :
  first_carrying PatientName [anonymous; named] = Some "" /\
  DicomStudy.patient_name
    (foldl DicomStudy.add_instance (DicomStudy.init "1.2.3") [anonymous])
    = "" /\
  DicomStudy.patient_name
    (foldl DicomStudy.add_instance (DicomStudy.init "1.2.3") [anonymous; named])
    = "DOE^JOHN".
Proof. by vm_compute. Qed.

(** C8, amended: after any sequence of [add_instance] calls each
    study-level descriptive field that was non-empty before the calls is
    unchanged, and each field that was empty holds the first non-empty
    value of its attribute among the added instances (and stays empty
    when there is none). *)
Theorem study_fields_first_nonempty_wins
    (st : DicomStudy.t) (l : list Dataset) :
  let keep field attr :=
    if Py.truthy_str field then field else first_nonempty attr l in
  let st' := foldl DicomStudy.add_instance st l in
  DicomStudy.patient_name st' = keep (DicomStudy.patient_name st) PatientName /\
  DicomStudy.patient_id st' = keep (DicomStudy.patient_id st) PatientID /\
  DicomStudy.study_date st' = keep (DicomStudy.study_date st) StudyDate /\
  DicomStudy.accession_number st'
    = keep (DicomStudy.accession_number st) AccessionNumber /\
  DicomStudy.study_description st'
    = keep (DicomStudy.study_description st) StudyDescription.
Proof.
  cbv beta zeta. rewrite <- !update_field_foldl. apply study_fields_foldl.
Qed.

End Ordering.

(** ** The retrieval scheduler *)

Section Retrieval.

Import Py DicomwebUtils Spec RetrievalSpec Examples.

(** C3: the worker count follows the policy table. *)
Theorem optimize_max_workers_table (total_instances requested_workers : Z) :
  1 <= total_instances ->
  (total_instances <= 2 ->
     optimize_max_workers total_instances requested_workers = 1) /\
  (3 <= total_instances <= 10 ->
     optimize_max_workers total_instances requested_workers
     = Z.min 2 requested_workers) /\
  (11 <= total_instances <= 50 ->
     optimize_max_workers total_instances requested_workers
     = Z.min 4 requested_workers) /\
  (50 < total_instances ->
     optimize_max_workers total_instances requested_workers
     = Z.min 8 requested_workers).
Proof.
  intros _. unfold optimize_max_workers, Py.min.
  repeat split; intros H;
    repeat match goal with
           | |- context [?a <=? ?b] => destruct (Z.leb_spec a b); try lia
           | |- context [?a <? ?b] => destruct (Z.ltb_spec a b); try lia
           end.
Qed.

Lemma optimize_max_workers_table_witness :
  1 <= 30 /\
  ((30 <= 2 -> optimize_max_workers 30 16 = 1) /\
   (3 <= 30 <= 10 -> optimize_max_workers 30 16 = Z.min 2 16) /\
   (11 <= 30 <= 50 -> optimize_max_workers 30 16 = Z.min 4 16) /\
   (50 < 30 -> optimize_max_workers 30 16 = Z.min 8 16)).
Proof.
  split; [lia|]. apply (optimize_max_workers_table 30 16). lia.
Defined.

Local Arguments urlencode : simpl never.
Local Arguments rstrip : simpl never.
Local Arguments exn_str : simpl never.
Local Arguments String.append : simpl never.

(** The cases in which the fetch fails: nothing is returned, at most one
    request was sent, and the warning is the last record. *)
Local Ltac absent_case :=
  split; [eauto|]; split; [cbn; lia|]; split;
  [ intros ?; split; [done|];
    intros (? & ? & ? & ? & ? & ? & _); simplify_eq
  | intros _; eexists; reflexivity ].

(** C7: [download_dicom_instance] never raises and sends at most one
    request.  It returns a dataset exactly when the fetch went through
    (URL configured, status 200, body read and decoded), and this
    dataset is the decoded one; in every other case it returns [None]
    and the last thing it does is to log the warning. *)
Theorem download_dicom_instance_absent_on_error
    (env : Env) (study_uid series_uid sop_uid : string) :
  let trace := fst (download_dicom_instance env study_uid series_uid sop_uid) in
  let outcome := run (download_dicom_instance env study_uid series_uid sop_uid) in
  (exists o, outcome = Ok o) /\
  (length (requests trace) <= 1)%nat /\
  (forall ds, outcome = Ok (Some ds) <-> fetched env trace ds) /\
  (outcome = Ok None -> warned trace sop_uid).
Proof.
  cbv zeta. unfold download_dicom_instance, run, fetched, warned.
  unfold mbind, IO_bind, IO_try, lift, send, raise, log, mret, IO_ret.
  destruct (get_dicom_wado_url env) as [url|e] eqn:Eurl; cbn.
  2:{ absent_case. }
  match goal with
  | |- context [urlopen env ?r] => set (req := r)
  end.
  destruct (urlopen env req) as [response|e] eqn:Eopen; cbn.
  2:{ absent_case. }
  destruct (Z.eqb_spec (status response) 200) as [Est|Est]; cbn.
  2:{ absent_case. }
  destruct (read response) as [data|e] eqn:Eread; cbn.
  2:{ absent_case. }
  destruct (dcmread env data) as [ds0|e] eqn:Edec; cbn.
  2:{ absent_case. }
  split; [eauto|]. split; [cbn; lia|]. split; [|done].
  intros ds. split.
  - intros [= <-]. exists url, req, response, data. by repeat split.
  - intros (url' & req' & response' & data' & _ & [= <-] & _ & Ho & _ & Hr & Hd).
    rewrite Eopen in Ho. injection Ho as <-. rewrite Eread in Hr.
    injection Hr as <-. rewrite Edec in Hd. by injection Hd as <-.
Qed.

(** *** Loops *)

Lemma for_each_invariant {A S} (P : S -> Prop) (body : S -> A -> result S)
    (l : list A) (s s' : S) :
  P s ->
  (forall s x s', x ∈ l -> P s -> body s x = Ok s' -> P s') ->
  for_each body s l = Ok s' -> P s'.
Proof.
  revert s. induction l as [|x l IH]; intros s Hs Hbody; simpl.
  - by intros [= <-].
  - unfold mbind, result_bind. destruct (body s x) as [s1|e] eqn:E; [|done].
    apply IH.
    + eapply Hbody; [left|exact Hs|exact E].
    + intros s2 y s3 Hy. apply Hbody. by right.
Qed.

Lemma for_each_skip {A S} (body : S -> A -> result S) (l : list A) (s : S) :
  (forall x, x ∈ l -> body s x = Ok s) -> for_each body s l = Ok s.
Proof.
  induction l as [|x l IH]; intros Hbody; simpl; [done|].
  rewrite (Hbody x) by left. simpl. apply IH. intros y Hy. apply Hbody.
  by right.
Qed.

(** *** Downloads *)

Lemma download_dicom_instance_returns
    (env : Env) (study_uid series_uid sop_uid : string) :
  exists o,
    run (download_dicom_instance env study_uid series_uid sop_uid) = Ok o.
Proof.
  unfold download_dicom_instance, run.
  unfold mbind, IO_bind, IO_try, lift, send, raise, log, mret, IO_ret.
  destruct (get_dicom_wado_url env); cbn; [|eauto].
  match goal with
  | |- context [urlopen env ?r] => destruct (urlopen env r) as [response|]
  end; cbn; [|eauto].
  destruct (status response =? 200); cbn; [|eauto].
  destruct (read response) as [data|]; cbn; [|eauto].
  destruct (dcmread env data); cbn; eauto.
Qed.

Lemma get_study_metadata_url (env : Env) (study_iuid : string) (md : Metadata) :
  run (get_study_metadata env study_iuid) = Ok md ->
  exists url, get_dicom_wado_url env = Ok url.
Proof.
  unfold get_study_metadata, run.
  unfold mbind, IO_bind, IO_try, lift, send, raise, log, mret, IO_ret.
  destruct (get_dicom_wado_url env); cbn; [eauto|done].
Qed.

Lemma collect_not_downloadable (env : Env) (study_uid series_uid : string)
    (i : InstanceData) (sop_uid : string) (downloaded : list Dataset) :
  ~ downloadable env study_uid series_uid i ->
  truthy_uid (sop_iuid i) = Some sop_uid ->
  collect downloaded
    (run (download_dicom_instance env study_uid series_uid sop_uid))
  = Ok downloaded.
Proof.
  intros Hno Hsop.
  destruct (download_dicom_instance_returns env study_uid series_uid sop_uid)
    as [o Ho].
  unfold collect. rewrite Ho. simpl.
  destruct o as [ds|]; simpl; [|done].
  destruct (Nat.eqb_spec (ds_len ds) 0) as [|Hlen]; [done|].
  destruct Hno. by exists sop_uid, ds.
Qed.

Lemma elem_of_submit_all (env : Env) (study_uid series_uid : string)
    (instances : list InstanceData) (f : result (option Dataset) * string) :
  f ∈ submit_all env study_uid series_uid instances ->
  exists i,
    i ∈ instances /\ truthy_uid (sop_iuid i) = Some (snd f) /\
    fst f = run (download_dicom_instance env study_uid series_uid (snd f)).
Proof.
  unfold submit_all. rewrite list_elem_of_In, in_flat_map.
  intros (i & Hi & Hf). exists i. rewrite list_elem_of_In. split; [done|].
  destruct (truthy_uid (sop_iuid i)) as [sop|]; [|done].
  destruct Hf as [<-|[]]. done.
Qed.

Lemma download_series_nothing (env : Env) (study_uid series_uid : string)
    (max_workers : Z) (instances : list InstanceData) :
  (forall i, i ∈ instances -> ~ downloadable env study_uid series_uid i) ->
  download_series env study_uid series_uid max_workers instances = Ok [].
Proof.
  intros Hno. unfold download_series.
  destruct (_ && _).
  - apply for_each_skip. intros f Hf.
    rewrite (as_completed_perm (scheduler env)) in Hf.
    apply elem_of_submit_all in Hf as (i & Hi & Hsop & ->).
    by eapply collect_not_downloadable; [apply Hno|].
  - apply for_each_skip. intros i Hi.
    destruct (truthy_uid (sop_iuid i)) as [sop|] eqn:Hsop; [|done].
    by eapply collect_not_downloadable; [apply Hno|].
Qed.

(** *** Series are never empty *)

Lemma add_instance_no_empty_series (st : DicomStudy.t) (d : Dataset) :
  no_empty_series st -> no_empty_series (DicomStudy.add_instance st d).
Proof.
  unfold no_empty_series, DicomStudy.add_instance. cbn.
  intros Hst k s. rewrite lookup_alter.
  destruct (decide (getattr (SeriesInstanceUID d) "UNKNOWN" = k)) as [<-|Hne].
  - intros (s0 & _ & ->)%fmap_Some. cbn. by destruct (DicomSeries.instances s0).
  - destruct (DicomStudy.series st !! _).
    + apply Hst.
    + rewrite lookup_insert_ne by done. apply Hst.
Qed.

Lemma foldl_add_instance_no_empty_series (l : list Dataset) (st : DicomStudy.t) :
  no_empty_series st ->
  no_empty_series (foldl DicomStudy.add_instance st l).
Proof.
  revert st. induction l as [|d l IH]; intros st Hst; [done|].
  cbn. by apply IH, add_instance_no_empty_series.
Qed.

Lemma finalize_no_empty_series (st st' : DicomStudy.t) :
  DicomStudy.finalize st = Ok st' ->
  no_empty_series st -> no_empty_series st'.
Proof.
  intros [_ ->]%finalize_returns.
  unfold no_empty_series, finalized. cbn.
  intros Hst k s. rewrite lookup_fmap.
  intros (s0 & Hs0 & ->)%fmap_Some. cbn. intros Hnil.
  apply (Hst k s0 Hs0).
  apply Permutation_nil_r. rewrite <- Hnil. by rewrite list_sort_perm.
Qed.

Lemma process_series_no_empty_series (env : Env) (study_uid : string)
    (max_workers : Z) (st st' : DicomStudy.t) (series_data : SeriesData) :
  no_empty_series st ->
  process_series env study_uid max_workers st series_data = Ok st' ->
  no_empty_series st'.
Proof.
  unfold process_series. intros Hst.
  destruct (truthy_uid (series_iuid series_data)); [|by intros [= <-]].
  unfold mbind, result_bind. destruct (download_series _ _ _ _ _); [|done].
  intros [= <-]. by apply foldl_add_instance_no_empty_series.
Qed.

Lemma process_study_no_empty_series (env : Env) (max_workers : Z)
    (studies studies' : gmap string DicomStudy.t) (study_data : StudyData) :
  map_Forall (fun _ st => no_empty_series st) studies ->
  process_study env max_workers studies study_data = Ok studies' ->
  map_Forall (fun _ st => no_empty_series st) studies'.
Proof.
  unfold process_study. intros Hall.
  destruct (truthy_uid (study_iuid study_data)) as [uid|]; [|by intros [= <-]].
  unfold mbind, result_bind.
  destruct (for_each _ _ _) as [dicom_study|] eqn:Eloop; [|done].
  destruct (size _ =? 0)%nat; [by intros [= <-]|].
  destruct (DicomStudy.finalize dicom_study) as [finalized_study|] eqn:Efin;
    [|done].
  intros [= <-]. apply map_Forall_insert_2; [|done].
  apply (finalize_no_empty_series _ _ Efin).
  eapply (for_each_invariant no_empty_series); [| |exact Eloop].
  - unfold no_empty_series, DicomStudy.init. cbn. apply map_Forall_empty.
  - intros st x st' _. apply process_series_no_empty_series.
Qed.

Lemma process_study_invariant (env : Env) (max_workers : Z)
    (studies studies' : gmap string DicomStudy.t) (study_data : StudyData) :
  map_Forall (fun _ st => no_empty_series st /\ DicomStudy.series st <> ∅)
    studies ->
  process_study env max_workers studies study_data = Ok studies' ->
  map_Forall (fun _ st => no_empty_series st /\ DicomStudy.series st <> ∅)
    studies'.
Proof.
  unfold process_study. intros Hall.
  destruct (truthy_uid (study_iuid study_data)) as [uid|]; [|by intros [= <-]].
  unfold mbind, result_bind.
  destruct (for_each _ _ _) as [dicom_study|] eqn:Eloop; [|done].
  destruct (Nat.eqb_spec (size (DicomStudy.series dicom_study)) 0)
    as [|Hsize]; [by intros [= <-]|].
  destruct (DicomStudy.finalize dicom_study) as [finalized_study|] eqn:Efin;
    [|done].
  intros [= <-]. apply map_Forall_insert_2; [|done]. split.
  - apply (finalize_no_empty_series _ _ Efin).
    eapply (for_each_invariant no_empty_series); [| |exact Eloop].
    + unfold no_empty_series, DicomStudy.init. cbn. apply map_Forall_empty.
    + intros st x st' _. apply process_series_no_empty_series.
  - apply finalize_returns in Efin as [_ ->].
    unfold finalized. cbn. intros Hempty%fmap_empty_inv.
    by apply map_size_non_empty_iff in Hsize.
Qed.

(** C6: when the metadata response lacks the ['studies'] key the call
    raises a [ValueError]; when the key is there and no listed instance
    can be downloaded the call returns the empty mapping. *)
Theorem process_dicom_wado_study_missing_key_or_no_data
    (env : Env) (study_iuid : string) (max_workers : Z) (md : Metadata) :
  run (get_study_metadata env study_iuid) = Ok md ->
  (studies md = None ->
     exists msg,
       process_dicom_wado_study env study_iuid max_workers
       = Raise (ValueError msg)) /\
  (forall study_list,
     studies md = Some study_list ->
     nothing_downloadable env study_list ->
     process_dicom_wado_study env study_iuid max_workers = Ok ∅).
Proof.
  intros Hmd. destruct (get_study_metadata_url _ _ _ Hmd) as [url Hurl].
  unfold process_dicom_wado_study. rewrite Hurl, Hmd. cbn. split.
  - intros ->. cbn. eauto.
  - intros study_list -> Hno. cbn.
    rewrite for_each_skip; [done|].
    intros sd Hsd. unfold process_study.
    destruct (truthy_uid (DicomwebUtils.study_iuid sd)) as [uid|] eqn:Huid;
      [|done].
    rewrite for_each_skip; [done|].
    intros se Hse. unfold process_series.
    destruct (truthy_uid (series_iuid se)) as [suid|] eqn:Hsuid; [|done].
    rewrite download_series_nothing; [done|].
    intros i Hi. by eapply Hno.
Qed.

Lemma process_dicom_wado_study_missing_key_or_no_data_witness :
  run (get_study_metadata undecodable_server "1.2.3") = Ok one_instance_metadata /\
  process_dicom_wado_study undecodable_server "1.2.3" 4 = Ok ∅.
Proof.
  assert (run (get_study_metadata undecodable_server "1.2.3")
          = Ok one_instance_metadata) as Hmd by reflexivity.
  split; [exact Hmd|].
  apply (proj2 (process_dicom_wado_study_missing_key_or_no_data
                  undecodable_server "1.2.3" 4 one_instance_metadata Hmd)
           _ eq_refl).
  intros sd se i study_uid series_uid _ _ _ _ _ (sop_uid & ds & _ & Hrun & _).
  vm_compute in Hrun. discriminate Hrun.
Defined.

(** C10: an instance without [SeriesInstanceUID] goes to the series
    ["UNKNOWN"], and all such instances of a study are collected there in
    their order of arrival while the other series are left alone; that
    series, when [add_instance] creates it, is named ["UNKNOWN"] and
    holds the instance; a series that exists keeps its instances when
    another instance is added; and every series holds at least one instance: in a new study
    (which has no series), after [add_instance], after [finalize], and
    so in every study that [process_dicom_wado_study] returns, which also
    has at least one series. *)
Theorem unknown_series_shared_and_no_series_empty :
  (forall (st : DicomStudy.t) (l : list Dataset),
     l <> [] -> Forall (fun d => SeriesInstanceUID d = None) l ->
     series_instances (foldl DicomStudy.add_instance st l) "UNKNOWN"
     = Some (default [] (series_instances st "UNKNOWN") ++ l)%list /\
     forall k, k <> "UNKNOWN" ->
       series_instances (foldl DicomStudy.add_instance st l) k
       = series_instances st k) /\
  (forall (st : DicomStudy.t) (d : Dataset),
     SeriesInstanceUID d = None ->
     DicomStudy.series st !! "UNKNOWN" = None ->
     exists s,
       DicomStudy.series (DicomStudy.add_instance st d) !! "UNKNOWN" = Some s /\
       DicomSeries.series_uid s = "UNKNOWN" /\
       DicomSeries.instances s = [d]) /\
  (forall (st : DicomStudy.t) (d : Dataset) (k : string) (old : list Dataset),
     series_instances st k = Some old ->
     exists new,
       series_instances (DicomStudy.add_instance st d) k
       = Some (old ++ new)%list) /\
  (forall uid, no_empty_series (DicomStudy.init uid)) /\
  (forall st d,
     no_empty_series st -> no_empty_series (DicomStudy.add_instance st d)) /\
  (forall st st',
     DicomStudy.finalize st = Ok st' ->
     no_empty_series st -> no_empty_series st') /\
  (forall env study_iuid max_workers studies,
     process_dicom_wado_study env study_iuid max_workers = Ok studies ->
     map_Forall (fun _ st => no_empty_series st /\ DicomStudy.series st <> ∅)
       studies).
Proof.
  repeat apply conj.
  - intros st l Hl Hall.
    assert (forall k, filter (fun d => route d = k) l
                      = if decide (k = "UNKNOWN") then l else []) as Hf.
    { intros k. clear Hl. induction Hall as [|d l Hd _ IH]; [by case_decide|].
      rewrite filter_cons, IH. unfold route. rewrite Hd. cbn.
      repeat case_decide; congruence. }
    split.
    + rewrite study_foldl_lookup, Hf. cbn.
      destruct (series_instances st "UNKNOWN"), l; done.
    + intros k Hk. rewrite study_foldl_lookup, Hf.
      rewrite decide_False by done.
      destruct (series_instances st k); cbn; by rewrite ?app_nil_r.
  - intros st d Hd Hnone. unfold DicomStudy.add_instance. cbn.
    rewrite Hd. cbn. rewrite Hnone, lookup_alter_eq, lookup_insert_eq. cbn.
    by eexists.
  - intros st d k old Hold. rewrite study_add_instance_lookup, Hold.
    case_decide; cbn; [by eexists|]. exists []. by rewrite app_nil_r.
  - intros uid. unfold no_empty_series, DicomStudy.init. cbn.
    apply map_Forall_empty.
  - apply add_instance_no_empty_series.
  - apply finalize_no_empty_series.
  - intros env study_iuid max_workers studies.
    unfold process_dicom_wado_study, try_except, mbind, result_bind.
    destruct (get_dicom_wado_url env); [|done].
    destruct (run (get_study_metadata env study_iuid)) as [md|]; [|done].
    destruct (DicomwebUtils.studies md) as [study_list|]; [|done].
    destruct (for_each _ _ _) as [out|] eqn:Eloop; [|done].
    intros [= <-].
    eapply (for_each_invariant
              (map_Forall (fun _ st =>
                 no_empty_series st /\ DicomStudy.series st <> ∅)));
      [| |exact Eloop].
    + apply map_Forall_empty.
    + intros m x m' _. apply process_study_invariant.
Qed.

(** A run on a response without the ['studies'] key. *)
Example process_dicom_wado_study_missing_key :
  process_dicom_wado_study keyless_server "1.2.3" 4
  = Raise (ValueError
      "Invalid metadata structure: missing 'studies' key. Available keys: ['error']").
Proof. by vm_compute. Qed.

(** A run that returns a study: the one listed instance decodes and ends
    up alone in the series ["UNKNOWN"] of study ["1.2.3"]. *)
Example process_dicom_wado_study_returns_a_study :
  exists st,
    process_dicom_wado_study good_server "1.2.3" 4 = Ok {["1.2.3" := st]} /\
    series_instances st "UNKNOWN" = Some [slice_lo].
Proof. eexists. split; [by vm_compute|]. by vm_compute. Qed.

End Retrieval.

(** ** The pixel pipeline *)

Section PixelPipeline.

Import Py ImageUtils.

Context {lib : ArrayLib}.

Lemma metadata_of_lookup (wc ww : option Q) (photometric : string) (i : Z) :
  let m := metadata_of wc ww photometric i in
  m !! "window_center" = Some (meta_float wc) /\
  m !! "window_width" = Some (meta_float ww) /\
  m !! "photometric" = Some (MStr photometric) /\
  m !! "frame_index" = Some (MInt i) /\
  m !! "error" = None.
Proof.
  cbv zeta. unfold metadata_of.
  repeat split;
    repeat first [ rewrite lookup_insert_eq; reflexivity
                 | rewrite lookup_insert_ne by discriminate
                 | apply lookup_empty ].
Qed.

Lemma convert_metadata (dataset : Dataset) (frame_index : Z)
    (img : image) (m : gmap string meta_value) :
  convert dataset frame_index = Ok (img, m) ->
  exists wc ww,
    m = metadata_of wc ww
          (getattr (PhotometricInterpretation dataset) "MONOCHROME2")
          frame_index.
Proof.
  unfold convert, mbind, result_bind.
  repeat match goal with
         | |- context [match ?x with Ok _ => _ | Raise _ => _ end] =>
             destruct x as [?|?]; [|discriminate]
         end.
  repeat match goal with p : _ * _ |- _ => destruct p end.
  intros [= _ <-]. eauto.
Qed.

(** C4: [dicom_to_pil] returns a pair in every case.  When a stage of
    the conversion raises, the pair is the 512x512 gray (128) image of
    mode ['L'] with the metadata [{'error': str(e)}]; when the
    conversion succeeds, it is the converted image with metadata holding
    the window centre, the window width, the photometric tag and the
    frame index, and no ['error'] entry. *)
Theorem dicom_to_pil_placeholder_on_error (dataset : Dataset) (frame_index : Z) :
  (forall e, convert dataset frame_index = Raise e ->
     dicom_to_pil dataset frame_index
     = (Image_new "L" (512%nat, 512%nat) 128,
        {["error" := MStr (exn_str e)]})) /\
  (forall img m, convert dataset frame_index = Ok (img, m) ->
     dicom_to_pil dataset frame_index = (img, m) /\
     exists wc ww,
       m !! "window_center" = Some (meta_float wc) /\
       m !! "window_width" = Some (meta_float ww) /\
       m !! "photometric"
         = Some (MStr (getattr (PhotometricInterpretation dataset)
                         "MONOCHROME2")) /\
       m !! "frame_index" = Some (MInt frame_index) /\
       m !! "error" = None) /\
  ((exists e, convert dataset frame_index = Raise e) \/
   (exists out, convert dataset frame_index = Ok out)).
Proof.
  unfold dicom_to_pil. repeat apply conj.
  - by intros e ->.
  - intros img m Hc. rewrite Hc. split; [done|].
    apply convert_metadata in Hc as (wc & ww & ->).
    exists wc, ww. apply metadata_of_lookup.
  - destruct (convert dataset frame_index); eauto.
Qed.

(** C5, amended: when the declared frame count is greater than 1, the
    pixel array (if it decodes) has that many frames on its leading
    axis, and the frame index is equal to or greater than the count, the
    result is the placeholder image with an ['error'] entry.  A dataset
    whose declared frame count is 1 or absent is converted whatever the
    frame index. *)
Theorem dicom_to_pil_frame_out_of_range
    (dataset : Dataset) (frame_index num_frames : Z) :
  NumberOfFrames dataset = Some num_frames ->
  1 < num_frames ->
  num_frames <= frame_index ->
  (forall a, pixel_array dataset = Ok a ->
     exists rest, shape a = Z.to_nat num_frames :: rest) ->
  exists msg,
    dicom_to_pil dataset frame_index
    = (Image_new "L" (512%nat, 512%nat) 128, {["error" := MStr msg]}) /\
    (forall a, pixel_array dataset = Ok a ->
       msg = "Frame index " ++ str_int frame_index ++ " out of range (max: "
             ++ str_int (num_frames - 1) ++ ")").
Proof.
  intros Hn Hgt Hidx Hshape.
  unfold dicom_to_pil, convert, mbind, result_bind.
  destruct (pixel_array dataset) as [a|e] eqn:Ea.
  - destruct (Hshape a eq_refl) as [rest Hs].
    rewrite Hn, Hs. cbn [getattr].
    destruct (Z.ltb_spec 1 num_frames) as [_|]; [|lia].
    destruct (Z.leb_spec (Z.of_nat (Z.to_nat num_frames)) frame_index) as [_|];
      [|lia].
    eexists. split; [reflexivity|].
    intros a' _. unfold exn_str. by rewrite Z2Nat.id by lia.
  - eexists. split; [reflexivity|]. by intros a' [=].
Qed.

(** When [np.percentile] returns [p2] and [p98], [auto_window] returns
    the centre [(p2 + p98) / 2]; the width is [p98 - p2] when that is at
    least 1 and otherwise the larger of 1 and the difference of maximum
    and minimum as the dtype of the array holds it.  Whatever path is
    taken, a returned width is at least 1. *)
Lemma auto_window_from_percentiles (a : ndarray) (p2 p98 : Q) :
  np_percentile_2_98 a = Ok (p2, p98) ->
  (1 <= p98 - p2 ->
     auto_window a = Ok ((p2 + p98) / 2, p98 - p2))%Q /\
  (p98 - p2 < 1 ->
     forall hi lo, np_max a = Ok hi -> np_min a = Ok lo ->
       auto_window a = Ok ((p2 + p98) / 2, Py.max 1 (np_item_sub a hi lo)))%Q /\
  (forall c w, auto_window a = Ok (c, w) -> 1 <= w)%Q.
Proof.
  intros Hp. repeat apply conj.
  - intros Hw. unfold auto_window, try_except, mbind, result_bind.
    rewrite Hp. destruct (Qlt_le_dec (p98 - p2) 1); [lra|done].
  - intros Hw hi lo Hhi Hlo.
    unfold auto_window, try_except, mbind, result_bind.
    rewrite Hp. destruct (Qlt_le_dec (p98 - p2) 1); [|lra].
    by rewrite Hhi, Hlo.
  - assert (forall x, 1 <= Py.max 1 x)%Q as Hmax.
    { intros x. unfold Py.max. destruct (Qlt_le_dec 1 x); lra. }
    intros c w. unfold auto_window, try_except, mbind, result_bind.
    rewrite Hp. destruct (Qlt_le_dec (p98 - p2) 1) as [Hlt|Hge].
    + destruct (np_max a) as [hi|]; destruct (np_min a) as [lo|];
        try discriminate; intros [= _ <-]; apply Hmax.
    + by intros [= _ <-].
Qed.

End PixelPipeline.

(** ** The pipeline on the reference arrays *)

Section PixelPipelineRuns.

Import Py ImageUtils Examples.

(** C5, as stated, fails: the dataset declares one frame and the frame
    index 1 is equal to that count, yet the index is never looked at and
    the image is converted as usual. *)
Lemma frame_index_unchecked_for_single_frame :
  NumberOfFrames single_frame = Some 1 /\
  dicom_to_pil single_frame 1
  = ({| Ref.p_mode := "L"; Ref.p_size := (2%nat, 2%nat);
        Ref.p_pixels := Ref.Items [0%Q; 99 # 1; 199 # 1; 254 # 1] |},
     metadata_of (Some (128 # 1)) (Some (256 # 1)) "MONOCHROME2" 1) /\
  snd (dicom_to_pil single_frame 1) !! "error" = None.
Proof. repeat split; by vm_compute. Qed.

Lemma dicom_to_pil_frame_out_of_range_witness :
  NumberOfFrames two_frames = Some 2 /\
  1 < 2 /\
  2 <= 2 /\
  (forall a, pixel_array two_frames = Ok a ->
     exists rest, shape a = Z.to_nat 2 :: rest) /\
  exists msg,
    dicom_to_pil two_frames 2
    = (Image_new "L" (512%nat, 512%nat) 128, {["error" := MStr msg]}) /\
    (forall a, pixel_array two_frames = Ok a ->
       msg = "Frame index " ++ str_int 2 ++ " out of range (max: "
             ++ str_int (2 - 1) ++ ")").
Proof.
  assert (forall a, pixel_array two_frames = Ok a ->
            exists rest, shape a = Z.to_nat 2 :: rest) as Hshape.
  { intros a [= <-]. by eexists. }
  split; [reflexivity|]. split; [lia|]. split; [lia|]. split; [exact Hshape|].
  apply (dicom_to_pil_frame_out_of_range two_frames 2 2);
    [reflexivity | lia | lia | exact Hshape].
Defined.

(** C9 does not hold of the code.  The image is zero but for one item
    at each end of the signed 16-bit range, so both percentiles are 0
    and the width falls back to [max(1, max - min)].  The claim puts the
    width at [max(1, 32767 - (-32768))], which is 65535; the code
    subtracts the two numpy scalars in the dtype of the array, where
    the difference wraps around to -1, and returns the width 1. *)
Theorem auto_window_width_wraps_in_int16 :
  (exists p2 p98,
     np_percentile_2_98 (int16_outliers : @ndarray Ref.lib) = Ok (p2, p98) /\
     (p98 - p2 < 1)%Q) /\
  np_max (int16_outliers : @ndarray Ref.lib) = Ok (32767 # 1) /\
  np_min (int16_outliers : @ndarray Ref.lib) = Ok (-32768 # 1) /\
  (Py.max 1 ((32767 # 1) - (-32768 # 1)) == 65535 # 1)%Q /\
  exists c,
    auto_window (int16_outliers : @ndarray Ref.lib) = Ok (c, 1%Q) /\
    (c == 0)%Q.
Proof.
  split; [eexists _, _; split; [by vm_compute|by vm_compute]|].
  split; [by vm_compute|]. split; [by vm_compute|]. split; [by vm_compute|].
  eexists. split; by vm_compute.
Qed.

(** A constant image has equal percentiles; the width falls back to
    [max(1, max - min)], which is 1. *)
Example auto_window_flat :
  exists c,
    auto_window ({| Ref.a_shape := [3]%nat; Ref.a_dtype := Ref.uint8;
                    Ref.a_data := [7 # 1; 7 # 1; 7 # 1] |} : @ndarray Ref.lib)
    = Ok (c, 1%Q) /\
    (c == 7 # 1)%Q.
Proof. eexists. split; by vm_compute. Qed.

End PixelPipelineRuns.

(** ** Configuration and metadata fetch *)

Section Configuration.

Import Py DicomwebUtils RetrievalSpec.

Lemma lstrip_chars_split (p : ascii -> bool) (s : list ascii) :
  exists pre,
    s = (pre ++ lstrip_chars p s)%list /\
    Forall (fun c => p c = true) pre /\
    (forall c r, lstrip_chars p s = c :: r -> p c = false).
Proof.
  induction s as [|c s (pre & Hs & Hpre & Hhd)]; simpl.
  - exists []. by repeat split.
  - destruct (p c) eqn:Hc.
    + exists (c :: pre). repeat split; [by rewrite Hs at 1|by constructor|done].
    + exists []. repeat split; [done|]. by intros c' r [= <- _].
Qed.

Lemma rstrip_chars_split (p : ascii -> bool) (s : list ascii) :
  exists post,
    s = (rstrip_chars p s ++ post)%list /\
    Forall (fun c => p c = true) post /\
    (forall r c, rstrip_chars p s = (r ++ [c])%list -> p c = false).
Proof.
  unfold rstrip_chars.
  destruct (lstrip_chars_split p (rev s)) as (pre & Hs & Hpre & Hhd).
  exists (rev pre). repeat split.
  - rewrite <- rev_app_distr, <- Hs. by rewrite rev_involutive.
  - by apply Forall_rev.
  - intros r c Hr. apply (Hhd c (rev r)).
    apply (f_equal (@rev ascii)) in Hr.
    by rewrite rev_involutive, rev_app_distr in Hr.
Qed.

Lemma strip_split (p : ascii -> bool) (s : string) :
  exists pre post,
    list_ascii_of_string s
      = (pre ++ list_ascii_of_string (strip p s) ++ post)%list /\
    Forall (fun c => p c = true) pre /\
    Forall (fun c => p c = true) post /\
    (forall c r, list_ascii_of_string (strip p s) = c :: r -> p c = false) /\
    (forall r c, list_ascii_of_string (strip p s) = (r ++ [c])%list ->
       p c = false).
Proof.
  unfold strip. rewrite list_ascii_of_string_of_list_ascii.
  destruct (lstrip_chars_split p (list_ascii_of_string s))
    as (pre & Hs & Hpre & Hhd).
  destruct (rstrip_chars_split p (lstrip_chars p (list_ascii_of_string s)))
    as (post & Hl & Hpost & Hlast).
  exists pre, post. repeat split; try done.
  - by rewrite <- Hl.
  - intros c r Hc. rewrite Hc in Hl. by apply (Hhd c (r ++ post)%list).
Qed.

(** The URL that [get_dicom_wado_url] returns is not empty, neither
    starts nor ends with a quote character, and is what is left of the
    configured value after whitespace and quote characters were removed
    from its two ends.  When the variable is unset, or nothing is left,
    the call raises the [ValueError], and then the configured value held
    nothing but whitespace and quotes. *)
Theorem get_dicom_wado_url_stripped (env : Env) :
  let raw := getattr (DICOM_WADO_URL env) "" in
  match get_dicom_wado_url env with
  | Ok url =>
      url <> "" /\
      (exists pre post,
         list_ascii_of_string raw
           = (pre ++ list_ascii_of_string url ++ post)%list /\
         Forall (fun c => strippable c = true) pre /\
         Forall (fun c => strippable c = true) post) /\
      (forall c r, list_ascii_of_string url = c :: r -> is_quote c = false) /\
      (forall r c, list_ascii_of_string url = (r ++ [c])%list ->
         is_quote c = false)
  | Raise e =>
      e = ValueError
            "DICOM_WADO_URL environment variable not configured or empty" /\
      Forall (fun c => strippable c = true) (list_ascii_of_string raw)
  end.
Proof.
  cbv zeta. unfold get_dicom_wado_url.
  set (raw := getattr (DICOM_WADO_URL env) "").
  destruct (strip_split is_space raw) as (pre1 & post1 & H1 & Hpre1 & Hpost1 & _).
  destruct (strip_split is_quote (strip is_space raw))
    as (pre2 & post2 & H2 & Hpre2 & Hpost2 & Hhd & Hlast).
  set (url := strip is_quote (strip is_space raw)) in *.
  assert (forall l, Forall (fun c => is_space c = true) l ->
                    Forall (fun c => strippable c = true) l) as Hsp.
  { intros l Hl. eapply Forall_impl; [exact Hl|].
    intros c Hc. unfold strippable. by rewrite Hc. }
  assert (forall l, Forall (fun c => is_quote c = true) l ->
                    Forall (fun c => strippable c = true) l) as Hqu.
  { intros l Hl. eapply Forall_impl; [exact Hl|].
    intros c Hc. unfold strippable. rewrite Hc. apply orb_true_r. }
  unfold truthy_str. destruct (String.eqb_spec url "") as [Hempty|Hne]; simpl.
  - split; [done|]. rewrite H1, H2, Hempty. simpl.
    repeat (apply Forall_app; split); auto.
  - split; [done|]. split; [|by split].
    exists (pre1 ++ pre2)%list, (post2 ++ post1)%list.
    split; [|split; apply Forall_app; auto].
    rewrite H1, H2. by rewrite <- !app_assoc.
Qed.

Local Arguments rstrip : simpl never.
Local Arguments exn_str : simpl never.
Local Arguments String.append : simpl never.

(** [get_study_metadata] sends no request when the URL is not
    configured, and otherwise exactly one: the request for the study at
    the configured URL, with a timeout of 30 seconds.  It returns the
    parsed metadata exactly when the URL is configured, that request is
    answered with status 200, and the body is read and parsed, and then
    it logs neither a warning nor an error.  It raises [e] exactly when
    [e] is the exception of the first stage that fails (an [HTTPError]
    with the status code for a status other than 200), and then the
    last thing it does is to log [e] as an error. *)
Theorem get_study_metadata_reraises (env : Env) (study_iuid : string) :
  let trace := fst (get_study_metadata env study_iuid) in
  let outcome := run (get_study_metadata env study_iuid) in
  (forall e, get_dicom_wado_url env = Raise e -> requests trace = []) /\
  (forall url, get_dicom_wado_url env = Ok url ->
     requests trace = [metadata_request url study_iuid]) /\
  (forall md, outcome = Ok md <-> metadata_fetched env study_iuid md) /\
  (forall e, outcome = Raise e <-> metadata_failed env study_iuid e) /\
  (forall md, outcome = Ok md -> trace = EvRequest <$> requests trace) /\
  (forall e, outcome = Raise e ->
     trace = ((EvRequest <$> requests trace)
              ++ [EvLog ERROR ("❌ Failed to fetch study metadata: "
                               ++ exn_str e)])%list).
Proof.
  cbv zeta. unfold get_study_metadata, run, metadata_fetched, metadata_failed.
  unfold mbind, IO_bind, IO_try, lift, send, raise, log, mret, IO_ret.
  destruct (get_dicom_wado_url env) as [url|e0] eqn:Eurl; cbn.
  2:{ repeat apply conj; try done.
      - intros md. split; [done|]. by intros (? & ? & ? & ? & _).
      - intros e. split; [intros [= <-]; by left|].
        intros [[= <-]|(? & ? & _)]; done.
      - by intros e [= <-]. }
  fold (metadata_request url study_iuid).
  destruct (urlopen env (metadata_request url study_iuid))
    as [response|e0] eqn:Eopen; cbn.
  2:{ repeat apply conj; try done.
      - by intros ? [= <-].
      - intros md. split; [done|].
        intros (? & ? & ? & [= <-] & ? & _). congruence.
      - intros e. split.
        + intros [= <-]. right. exists url. split; [done|]. by left.
        + intros [?|(? & [= <-] & [?|(? & ? & _)])]; congruence.
      - by intros e [= <-]. }
  destruct (Z.eqb_spec (status response) 200) as [Est|Est]; cbn.
  2:{ repeat apply conj; try done.
      - by intros ? [= <-].
      - intros md. split; [done|].
        intros (? & ? & ? & [= <-] & ? & ? & _). congruence.
      - intros e. split.
        + intros [= <-]. right. exists url. split; [done|]. right.
          exists response. split; [done|]. by left.
        + intros [?|(? & [= <-] & [?|(? & ? & [[_ ->]|[? _]])])]; congruence.
      - by intros e [= <-]. }
  destruct (read response) as [content|e0] eqn:Eread; cbn.
  2:{ repeat apply conj; try done.
      - by intros ? [= <-].
      - intros md. split; [done|].
        intros (? & ? & ? & [= <-] & ? & ? & ? & _). congruence.
      - intros e. split.
        + intros [= <-]. right. exists url. split; [done|]. right.
          exists response. split; [done|]. right. split; [done|]. by left.
        + intros [?|(? & [= <-] & [?|(? & ? & [[? _]|[_ [?|(? & ? & _)]]])])];
            congruence.
      - by intros e [= <-]. }
  destruct (json_loads env content) as [md0|e0] eqn:Ejson; cbn.
  2:{ repeat apply conj; try done.
      - by intros ? [= <-].
      - intros md. split; [done|].
        intros (? & ? & ? & [= <-] & ? & ? & ? & ?). congruence.
      - intros e. split.
        + intros [= <-]. right. exists url. split; [done|]. right.
          exists response. split; [done|]. right. split; [done|]. right.
          by exists content.
        + intros [?|(? & [= <-] & [?|(? & ? & [[? _]|[_ [?|(? & ? & ?)]]])])];
            congruence.
      - by intros e [= <-]. }
  repeat apply conj; try done.
  - by intros ? [= <-].
  - intros md. split.
    + intros [= <-]. by exists url, response, content.
    + intros (? & ? & ? & [= <-] & ? & ? & ? & ?). congruence.
  - intros e. split; [done|].
    intros [?|(? & [= <-] & [?|(? & ? & [[? _]|[_ [?|(? & ? & ?)]]])])];
      congruence.
Qed.

End Configuration.

(** ** Series records *)

Section SeriesRecords.

Import Models Spec Examples.

Lemma series_foldl_add_instance (l : list Dataset) (s : DicomSeries.t) :
  let s' := foldl DicomSeries.add_instance s l in
  DicomSeries.series_uid s' = DicomSeries.series_uid s /\
  DicomSeries.series_description s' = DicomSeries.series_description s /\
  DicomSeries.instances s' = (DicomSeries.instances s ++ l)%list /\
  DicomSeries.modality s'
  = if Py.truthy_str (DicomSeries.modality s) then DicomSeries.modality s
    else first_nonempty Modality l.
Proof.
  cbv zeta. revert s. induction l as [|d l IH]; intros s; cbn [foldl].
  - repeat split; [by rewrite app_nil_r|].
    unfold Py.truthy_str. cbn.
    by destruct (String.eqb_spec (DicomSeries.modality s) "") as [->|].
  - destruct (IH (DicomSeries.add_instance s d)) as (Hu & Hd & Hi & Hm).
    rewrite Hu, Hd, Hi, Hm. cbn. repeat split; [by rewrite <- app_assoc|].
    destruct (Modality d) as [m|];
      destruct (Py.truthy_str (DicomSeries.modality s)) eqn:Es;
      by rewrite ?Es.
Qed.

Lemma study_add_instance_series (st : DicomStudy.t) (d : Dataset) (k : string) :
  DicomStudy.series (DicomStudy.add_instance st d) !! k =
    if decide (route d = k)
    then Some (DicomSeries.add_instance
                 (default (DicomSeries.init k (getattr (SeriesDescription d) ""))
                    (DicomStudy.series st !! k)) d)
    else DicomStudy.series st !! k.
Proof.
  unfold DicomStudy.add_instance. cbn. fold (route d).
  rewrite lookup_alter. destruct (decide (route d = k)) as [<-|Hne].
  - destruct (DicomStudy.series st !! route d) eqn:E; cbn.
    + by rewrite E.
    + by rewrite lookup_insert_eq.
  - destruct (DicomStudy.series st !! route d); [done|].
    by rewrite lookup_insert_ne.
Qed.

Lemma study_foldl_series (l : list Dataset) (st : DicomStudy.t) (k : string) :
  DicomStudy.series (foldl DicomStudy.add_instance st l) !! k =
    match DicomStudy.series st !! k, filter (fun d => route d = k) l with
    | Some s, f => Some (foldl DicomSeries.add_instance s f)
    | None, [] => None
    | None, d :: f =>
        Some (foldl DicomSeries.add_instance
                (DicomSeries.init k (getattr (SeriesDescription d) ""))
                (d :: f))
    end.
Proof.
  revert st. induction l as [|d l IH]; intros st; cbn [foldl].
  - by destruct (DicomStudy.series st !! k).
  - rewrite IH, study_add_instance_series, filter_cons.
    destruct (decide (route d = k)); [|done].
    by destruct (DicomStudy.series st !! k).
Qed.

(** A series of a study built by [add_instance] calls is stored under
    its own uid and holds, in their order of arrival, the instances that
    were routed to it.  Its description is the [SeriesDescription] of
    the first of them (the empty string when that one has none) and is
    not updated by later instances; its modality is the first non-empty
    [Modality] among them. *)
Theorem series_record_from_first_instance
    (uid : string) (l : list Dataset) (k : string) (s : DicomSeries.t) :
  DicomStudy.series (foldl DicomStudy.add_instance (DicomStudy.init uid) l) !! k
    = Some s ->
  exists d f,
    filter (fun d => route d = k) l = d :: f /\
    DicomSeries.series_uid s = k /\
    DicomSeries.series_description s = getattr (SeriesDescription d) "" /\
    DicomSeries.instances s = d :: f /\
    DicomSeries.modality s = first_nonempty Modality (d :: f).
Proof.
  rewrite study_foldl_series. unfold DicomStudy.init.
  cbn [DicomStudy.series]. rewrite lookup_empty.
  destruct (filter _ l) as [|d f]; [done|]. intros [= <-].
  exists d, f.
  destruct (series_foldl_add_instance (d :: f)
              (DicomSeries.init k (getattr (SeriesDescription d) "")))
    as (Hu & Hd & Hi & Hm).
  cbn [foldl] in Hu, Hd, Hi, Hm. by rewrite Hu, Hd, Hi, Hm.
Qed.

Lemma series_record_from_first_instance_witness :
  exists s,
    DicomStudy.series
      (foldl DicomStudy.add_instance (DicomStudy.init "1.2.3")
         [bare_instance; labelled_instance]) !! "1.2.3.1" = Some s /\
    DicomSeries.series_description s = "" /\
    DicomSeries.modality s = "MR" /\
    DicomSeries.instances s = [bare_instance; labelled_instance].
Proof.
  eexists. split; [by vm_compute|].
  destruct (series_record_from_first_instance "1.2.3"
              [bare_instance; labelled_instance] "1.2.3.1" _ eq_refl)
    as (d & f & Hf & _ & Hd & Hi & Hm).
  vm_compute in Hf. injection Hf as <- <-.
  split; [exact Hd|]. split; [exact Hm|exact Hi].
Defined.

Lemma list_sort_sorted_id {A K} (key : A -> K) (lt : K -> K -> bool)
    (l : list A) :
  StronglySorted (fun a b => lt (key b) (key a) = false) l ->
  Py.list_sort key lt l = l.
Proof.
  induction 1 as [|x l Hl IH Hx]; [done|].
  cbn [Py.list_sort foldr]. fold (Py.list_sort key lt l). rewrite IH.
  destruct l as [|y l']; [done|]. cbn.
  apply Forall_cons in Hx as [Hxy _]. by rewrite Hxy.
Qed.

Lemma sorted_idempotent (s : DicomSeries.t) : sorted (sorted s) = sorted s.
Proof.
  unfold sorted.
  cbn [DicomSeries.series_uid DicomSeries.series_description
       DicomSeries.instances DicomSeries.modality].
  f_equal. apply list_sort_sorted_id, list_sort_key_sorted.
Qed.

Lemma strongly_sorted_among {A} (R S : A -> A -> Prop) (l : list A) :
  (forall a b, a ∈ l -> b ∈ l -> R a b -> S a b) ->
  StronglySorted R l -> StronglySorted S l.
Proof.
  intros H Hs. induction Hs as [|x l Hl IH Hx]; constructor.
  - apply IH. intros a b Ha Hb. apply H; by right.
  - rewrite Forall_forall in Hx |- *. intros b Hb.
    apply H; [left|by right|by apply Hx].
Qed.

(** The sorted list of comparable instances ascends as [<] has it. *)
Lemma list_sort_KeyLe (l : list Dataset) :
  comparable l ->
  StronglySorted (fun a b => KeyLe (sort_key a) (sort_key b))
    (Py.list_sort sort_key key_ltb l).
Proof.
  intros Hc. eapply strongly_sorted_among; [|apply list_sort_key_sorted].
  intros a b Ha Hb Hab. rewrite list_sort_perm in Ha, Hb.
  apply KeyLe_ltb. split; [by apply Hc|done].
Qed.

(** [sort_instances] returns exactly when no two instances of the
    series share position and instance number while the third item of
    the key is [None] for one and a [str] for the other; otherwise it
    raises a [TypeError].  When it returns, the series keeps its uid,
    description and modality and holds the same instances in ascending
    order of their keys, those with equal keys in their order of
    arrival.  It returns for every series of instances that were read
    from a buffer. *)
Theorem sort_instances_stable_or_type_error (s : DicomSeries.t) :
  let l := DicomSeries.instances s in
  match DicomSeries.sort_instances s with
  | Py.Ok s' =>
      comparable l /\
      DicomSeries.series_uid s' = DicomSeries.series_uid s /\
      DicomSeries.series_description s' = DicomSeries.series_description s /\
      DicomSeries.modality s' = DicomSeries.modality s /\
      DicomSeries.instances s' ≡ₚ l /\
      StronglySorted (fun a b => KeyLe (sort_key a) (sort_key b))
        (DicomSeries.instances s') /\
      (forall k : Key,
         List.filter (fun d => key_eqb (sort_key d) k) (DicomSeries.instances s')
         = List.filter (fun d => key_eqb (sort_key d) k) l)
  | Py.Raise e =>
      (exists msg, e = Py.TypeError msg) /\
      exists a b, a ∈ l /\ b ∈ l /\ same_slice a b = true /\
        (sort_key a).2 = None /\ (sort_key b).2 <> None
  end /\
  (comparable l -> exists s', DicomSeries.sort_instances s = Py.Ok s') /\
  (Forall from_buffer l -> comparable l).
Proof.
  cbv zeta. split; [|split].
  - destruct (DicomSeries.sort_instances s) as [s'|e] eqn:E.
    + apply sort_instances_returns in E as [Hc ->]. unfold sorted.
      cbn [DicomSeries.series_uid DicomSeries.series_description
           DicomSeries.instances DicomSeries.modality].
      split; [done|]. repeat split.
      * apply list_sort_perm.
      * by apply list_sort_KeyLe.
      * intros k. apply list_sort_stable. intros a b. apply key_eqb_class.
    + apply sort_instances_raises in E as [He (a & b & Ha & Hb & Hu)].
      split; [done|].
      assert (same_slice a b = true /\
              ((sort_key a).2 = None /\ (sort_key b).2 <> None \/
               (sort_key b).2 = None /\ (sort_key a).2 <> None)) as [Hs Hn].
      { unfold unordered, same_slice, sort_key in *. cbn in *.
        apply andb_prop in Hu as [Hs Hn]. split; [done|].
        destruct (getattr (filename a) _), (getattr (filename b) _);
          try done; [right|left]; done. }
      destruct Hn as [[H1 H2]|[H1 H2]].
      * by exists a, b.
      * exists b, a. repeat split; try done.
        unfold same_slice in *. apply andb_prop in Hs as [Hz Hn].
        apply andb_true_intro. split.
        -- apply Qeq_bool_iff. apply Qeq_bool_iff in Hz. by symmetry.
        -- by rewrite Z.eqb_sym.
  - intros Hc. exists (sorted s). by apply sort_instances_returns.
  - apply from_buffer_comparable.
Qed.

(** A fetched instance and an instance of the same slice that was read
    from a file cannot be sorted together. *)
Example sort_instances_mixed_names :
  exists msg,
    DicomSeries.sort_instances
      (DicomSeries.add_instance
         (DicomSeries.add_instance (DicomSeries.init "1.2.3.1" "") twin_a)
         twin_on_disk)
    = Py.Raise (Py.TypeError msg).
Proof. eexists. by vm_compute. Qed.

(** [finalize] returns exactly when every series can be sorted, and
    otherwise raises the [TypeError] of a series that cannot.  When it
    returns it has changed nothing but the order of the instances
    inside each series: the study-level fields and the set of series
    are kept, every series keeps its uid, description and modality and
    holds the same instances, now in ascending key order.  Finalizing a
    second time returns the same study. *)
Theorem finalize_reorders_only (st : DicomStudy.t) :
  match DicomStudy.finalize st with
  | Py.Ok st' =>
      DicomStudy.study_uid st' = DicomStudy.study_uid st /\
      DicomStudy.patient_name st' = DicomStudy.patient_name st /\
      DicomStudy.patient_id st' = DicomStudy.patient_id st /\
      DicomStudy.study_date st' = DicomStudy.study_date st /\
      DicomStudy.accession_number st' = DicomStudy.accession_number st /\
      DicomStudy.study_description st' = DicomStudy.study_description st /\
      (forall k,
         match DicomStudy.series st !! k with
         | None => DicomStudy.series st' !! k = None
         | Some s =>
             exists s',
               DicomStudy.series st' !! k = Some s' /\
               DicomSeries.sort_instances s = Py.Ok s' /\
               DicomSeries.series_uid s' = DicomSeries.series_uid s /\
               DicomSeries.series_description s'
                 = DicomSeries.series_description s /\
               DicomSeries.modality s' = DicomSeries.modality s /\
               DicomSeries.instances s' ≡ₚ DicomSeries.instances s /\
               StronglySorted (fun a b => KeyLe (sort_key a) (sort_key b))
                 (DicomSeries.instances s')
         end) /\
      DicomStudy.finalize st' = Py.Ok st'
  | Py.Raise e =>
      (exists msg, e = Py.TypeError msg) /\
      exists k s,
        DicomStudy.series st !! k = Some s /\
        DicomSeries.sort_instances s = Py.Raise e
  end /\
  ((forall k s, DicomStudy.series st !! k = Some s ->
      exists s', DicomSeries.sort_instances s = Py.Ok s') ->
   exists st', DicomStudy.finalize st = Py.Ok st').
Proof.
  split.
  - destruct (DicomStudy.finalize st) as [st'|e] eqn:E.
    + apply finalize_returns in E as [Hc ->]. unfold finalized at 1 2 3 4 5 6.
      cbn. repeat apply conj; try reflexivity.
      * intros k. unfold finalized. cbn. rewrite lookup_fmap.
        destruct (DicomStudy.series st !! k) as [s|] eqn:Es; [|done]. cbn.
        exists (sorted s). split; [done|].
        split; [apply sort_instances_returns; split; [by eapply Hc|done]|].
        unfold sorted.
        cbn [DicomSeries.series_uid DicomSeries.series_description
             DicomSeries.instances DicomSeries.modality].
        repeat split.
        -- apply list_sort_perm.
        -- apply list_sort_KeyLe. by eapply Hc.
      * apply finalize_returns. split.
        -- unfold finalized. cbn. intros k s'. rewrite lookup_fmap.
           intros (s & Hs & ->)%fmap_Some. unfold sorted.
           cbn [DicomSeries.instances].
           eapply comparable_perm; [|by eapply Hc]. by rewrite list_sort_perm.
        -- unfold finalized. cbn. f_equal.
           rewrite <- map_fmap_compose. symmetry. apply map_fmap_ext.
           intros k s _. apply sorted_idempotent.
    + unfold DicomStudy.finalize in E.
      destruct (Py.for_each _ _ _) as [r|e'] eqn:El; [done|].
      cbn in E. injection E as <-.
      apply sort_loop_raises in El as (k & s & Hks%elem_of_map_to_list & Hs).
      split; [|by exists k, s].
      by apply sort_instances_raises in Hs as [He _].
  - intros H. exists (finalized st). apply finalize_returns. split; [|done].
    intros k s Hks. destruct (H k s Hks) as [s' Hs'].
    by apply sort_instances_returns in Hs' as [Hc _].
Qed.

End SeriesRecords.

(** ** Downloads of a series and of a study *)

Section Downloads.

Import Py DicomwebUtils Spec RetrievalSpec.

(** The worker count never exceeds 8; for a request of at least one
    worker it lies between 1 and the request and does not decrease when
    the number of instances grows; a request below one is returned as it
    is once there are more than two instances.  It does not decrease
    when the request grows. *)
Theorem optimize_max_workers_bounds (total_instances requested_workers : Z) :
  optimize_max_workers total_instances requested_workers <= 8 /\
  (1 <= requested_workers ->
     1 <= optimize_max_workers total_instances requested_workers
       <= requested_workers) /\
  (requested_workers <= 0 -> 2 < total_instances ->
     optimize_max_workers total_instances requested_workers
     = requested_workers) /\
  (forall more, total_instances <= more -> 1 <= requested_workers ->
     optimize_max_workers total_instances requested_workers
     <= optimize_max_workers more requested_workers) /\
  (forall more, requested_workers <= more ->
     optimize_max_workers total_instances requested_workers
     <= optimize_max_workers total_instances more).
Proof.
  unfold optimize_max_workers, Py.min.
  repeat apply conj; intros;
    repeat match goal with
           | |- context [?a <=? ?b] => destruct (Z.leb_spec a b)
           | |- context [?a <? ?b] => destruct (Z.ltb_spec a b)
           end; lia.
Qed.

Lemma for_each_extend {A} (h : A -> list Dataset)
    (body : list Dataset -> A -> result (list Dataset))
    (l : list A) (acc : list Dataset) :
  (forall acc x, x ∈ l -> body acc x = Ok (acc ++ h x)%list) ->
  for_each body acc l = Ok (acc ++ flat_map h l)%list.
Proof.
  revert acc. induction l as [|x l IH]; intros acc Hbody; cbn.
  - by rewrite app_nil_r.
  - rewrite (Hbody acc x) by left. cbn.
    rewrite IH; [by rewrite <- app_assoc|].
    intros acc' y Hy. apply Hbody. by right.
Qed.

Lemma collect_kept (acc : list Dataset) (outcome : result (option Dataset)) :
  (exists o, outcome = Ok o) -> collect acc outcome = Ok (acc ++ kept outcome)%list.
Proof.
  intros [o ->]. unfold collect, kept. cbn.
  destruct (truthy_dataset o); [done|]. by rewrite app_nil_r.
Qed.

Lemma flat_map_perm {A B} (h : A -> list B) (l1 l2 : list A) :
  l1 ≡ₚ l2 -> flat_map h l1 ≡ₚ flat_map h l2.
Proof.
  induction 1 as [|x l1 l2 _ IH|x y l|l1 l2 l3 _ IH1 _ IH2]; cbn.
  - done.
  - by rewrite IH.
  - rewrite !app_assoc. f_equiv. apply Permutation_app_comm.
  - by rewrite IH1.
Qed.

Lemma flat_map_submit_all (env : Env) (study_uid series_uid : string)
    (instances : list InstanceData) :
  flat_map (fun f => kept (fst f))
    (submit_all env study_uid series_uid instances)
  = fetched_in_order env study_uid series_uid instances.
Proof.
  unfold submit_all, fetched_in_order.
  induction instances as [|i l IH]; [done|]. cbn.
  rewrite flat_map_app, IH. f_equal.
  destruct (truthy_uid (sop_iuid i)); [|done]. cbn. by rewrite app_nil_r.
Qed.

(** What [download_series] returns, for every worker count and
    completion order. *)
Lemma download_series_downloads
    (env : Env) (study_uid series_uid : string) (max_workers : Z)
    (instances : list InstanceData) :
  exists downloaded,
    download_series env study_uid series_uid max_workers instances
      = Ok downloaded /\
    downloaded ≡ₚ fetched_in_order env study_uid series_uid instances /\
    (max_workers <= 1 \/ (length instances < 2)%nat ->
       downloaded = fetched_in_order env study_uid series_uid instances) /\
    (length downloaded <= length instances)%nat.
Proof.
  assert (length (fetched_in_order env study_uid series_uid instances)
          <= length instances)%nat as Hlen.
  { unfold fetched_in_order. induction instances as [|i l IH]; [done|].
    cbn. rewrite length_app.
    assert (forall r, length (kept r) <= 1)%nat as Hk.
    { intros [o|]; cbn; [|lia]. destruct (truthy_dataset o); cbn; lia. }
    destruct (truthy_uid (sop_iuid i)); [specialize (Hk
      (run (download_dicom_instance env study_uid series_uid s)))|cbn]; lia. }
  unfold download_series.
  destruct (Z.ltb_spec 1 max_workers) as [Hw|Hw];
    [destruct (Z.leb_spec 2 (Z.of_nat (length instances))) as [Hn|Hn]|]; cbn.
  - rewrite (for_each_extend (fun f => kept (fst f))).
    2:{ intros acc f Hf. apply collect_kept.
        rewrite (as_completed_perm (scheduler env)) in Hf.
        apply elem_of_submit_all in Hf as (i & _ & _ & ->).
        apply download_dicom_instance_returns. }
    eexists. split; [done|]. cbn.
    assert (flat_map (fun f => kept (fst f))
              (as_completed (scheduler env) _
                 (submit_all env study_uid series_uid instances))
            ≡ₚ fetched_in_order env study_uid series_uid instances) as Hp.
    { rewrite <- flat_map_submit_all. apply flat_map_perm.
      apply as_completed_perm. }
    split; [exact Hp|]. split; [lia|]. by rewrite Hp.
  - rewrite (for_each_extend (fun i =>
               match truthy_uid (sop_iuid i) with
               | Some sop_uid =>
                   kept (run (download_dicom_instance env study_uid
                                series_uid sop_uid))
               | None => []
               end)).
    2:{ intros acc i _. destruct (truthy_uid (sop_iuid i)).
        - apply collect_kept, download_dicom_instance_returns.
        - by rewrite app_nil_r. }
    eexists. split; [done|]. by repeat split.
  - rewrite (for_each_extend (fun i =>
               match truthy_uid (sop_iuid i) with
               | Some sop_uid =>
                   kept (run (download_dicom_instance env study_uid
                                series_uid sop_uid))
               | None => []
               end)).
    2:{ intros acc i _. destruct (truthy_uid (sop_iuid i)).
        - apply collect_kept, download_dicom_instance_returns.
        - by rewrite app_nil_r. }
    eexists. split; [done|]. by repeat split.
Qed.

(** [download_series] never raises.  Whatever the worker count and the
    order in which the downloads complete, it returns the downloadable
    datasets of the series, each once per listing; when the downloads
    run one after the other (at most one worker, or fewer than two
    listed instances) they come in the order of the metadata. *)
Theorem download_series_same_instances
    (env : Env) (study_uid series_uid : string) (max_workers : Z)
    (instances : list InstanceData) :
  exists downloaded,
    download_series env study_uid series_uid max_workers instances
      = Ok downloaded /\
    downloaded ≡ₚ fetched_in_order env study_uid series_uid instances /\
    (max_workers <= 1 \/ (length instances < 2)%nat ->
       downloaded = fetched_in_order env study_uid series_uid instances) /\
    (length downloaded <= length instances)%nat.
Proof. apply download_series_downloads. Qed.

(** *** The result does not depend on the completion order *)

Lemma for_each_lockstep {A S} (R : S -> S -> Prop)
    (body1 body2 : S -> A -> result S) (l : list A) (s1 s2 : S) :
  R s1 s2 ->
  (forall s1 s2 x, R s1 s2 ->
     exists s1' s2', body1 s1 x = Ok s1' /\ body2 s2 x = Ok s2' /\ R s1' s2') ->
  exists s1' s2',
    for_each body1 s1 l = Ok s1' /\ for_each body2 s2 l = Ok s2' /\ R s1' s2'.
Proof.
  revert s1 s2. induction l as [|x l IH]; intros s1 s2 HR Hbody; cbn.
  - by exists s1, s2.
  - destruct (Hbody s1 s2 x HR) as (t1 & t2 & -> & -> & HR'). cbn.
    by apply IH.
Qed.

Lemma foldl_add_instance_perm (l1 l2 : list Dataset) (st1 st2 : DicomStudy.t) :
  perm_series st1 st2 -> l1 ≡ₚ l2 ->
  perm_series (foldl DicomStudy.add_instance st1 l1)
    (foldl DicomStudy.add_instance st2 l2).
Proof.
  intros Hst Hl k. rewrite !study_foldl_lookup.
  assert (filter (fun d => route d = k) l1 ≡ₚ filter (fun d => route d = k) l2)
    as Hf by (by rewrite Hl).
  destruct (Hst k) as [o1 o2 Ho|].
  - constructor. cbn. by rewrite Ho, Hf.
  - destruct (filter _ l1) as [|a f1], (filter _ l2) as [|b f2].
    + constructor.
    + by apply Permutation_nil_l in Hf.
    + by apply Permutation_nil_r in Hf.
    + constructor. by cbn.
Qed.

Lemma perm_series_size (st1 st2 : DicomStudy.t) :
  perm_series st1 st2 ->
  (size (DicomStudy.series st1) =? 0)%nat = (size (DicomStudy.series st2) =? 0)%nat.
Proof.
  intros Hst.
  assert (forall a b : DicomStudy.t, perm_series a b ->
            size (DicomStudy.series a) = 0%nat ->
            size (DicomStudy.series b) = 0%nat) as Hone.
  { intros a b Hab Ha%map_size_empty_iff. apply map_size_empty_iff.
    apply map_eq. intros k. rewrite lookup_empty.
    specialize (Hab k). unfold series_instances in Hab.
    rewrite Ha, lookup_empty in Hab. cbn in Hab.
    inversion Hab as [|Hnone Hk]. symmetry in Hk.
    by apply fmap_None in Hk. }
  assert (perm_series st2 st1) as Hts.
  { intros k. destruct (Hst k); constructor. by symmetry. }
  destruct (Nat.eqb_spec (size (DicomStudy.series st1)) 0) as [H1|H1];
    destruct (Nat.eqb_spec (size (DicomStudy.series st2)) 0) as [H2|H2];
    try done.
  - by apply (Hone _ _ Hst) in H1.
  - by apply (Hone _ _ Hts) in H2.
Qed.

Lemma finalized_same_series (st1 st2 : DicomStudy.t) :
  perm_series st1 st2 -> same_series (finalized st1) (finalized st2).
Proof.
  intros Hst k. specialize (Hst k). rewrite !finalized_lookup.
  destruct Hst as [l1 l2 Hl|]; constructor.
  split.
  - by rewrite !list_sort_perm.
  - intros Hd. apply list_sort_arrival_independent; [done|].
    intros a b Ha Hb. apply Hd; by rewrite list_sort_perm.
Qed.

(** *** Every instance of a returned study was read from a buffer *)

Lemma download_dicom_instance_from_buffer
    (env : Env) (study_uid series_uid sop_uid : string) (ds : Dataset) :
  run (download_dicom_instance env study_uid series_uid sop_uid) = Ok (Some ds) ->
  from_buffer ds.
Proof.
  unfold download_dicom_instance, run.
  unfold mbind, IO_bind, IO_try, lift, send, raise, log, mret, IO_ret.
  destruct (get_dicom_wado_url env); cbn; [|done].
  match goal with
  | |- context [urlopen env ?r] => destruct (urlopen env r) as [response|]
  end; cbn; [|done].
  destruct (status response =? 200); cbn; [|done].
  destruct (read response) as [data|]; cbn; [|done].
  destruct (dcmread env data) as [ds0|] eqn:Edec; cbn; [|done].
  intros [= <-]. by eapply dcmread_filename.
Qed.

Lemma fetched_in_order_from_buffer (env : Env) (study_uid series_uid : string)
    (instances : list InstanceData) :
  Forall from_buffer (fetched_in_order env study_uid series_uid instances).
Proof.
  unfold fetched_in_order. induction instances as [|i l IH]; [constructor|].
  cbn. apply Forall_app. split; [|exact IH].
  destruct (truthy_uid (sop_iuid i)) as [sop_uid|]; [|constructor].
  unfold kept.
  destruct (run (download_dicom_instance env study_uid series_uid sop_uid))
    as [[ds|]|] eqn:E; cbn; try constructor.
  destruct (ds_len ds =? 0)%nat; constructor; [|constructor].
  by eapply download_dicom_instance_from_buffer.
Qed.

Lemma foldl_add_instance_buffered (l : list Dataset) (st : DicomStudy.t) :
  buffered st -> Forall from_buffer l ->
  buffered (foldl DicomStudy.add_instance st l).
Proof.
  intros Hst Hl k l'. rewrite study_foldl_lookup.
  assert (Forall from_buffer (filter (fun d => route d = k) l)) as Hf.
  { rewrite Forall_forall in Hl |- *.
    intros d [_ Hd]%list_elem_of_filter. by apply Hl. }
  destruct (series_instances st k) as [l0|] eqn:E; cbn.
  - intros [= <-]. apply Forall_app. split; [by eapply Hst|done].
  - destruct (filter _ l); [done|]. by intros [= <-].
Qed.

Lemma process_series_buffered (env : Env) (study_uid : string)
    (max_workers : Z) (st st' : DicomStudy.t) (series_data : SeriesData) :
  buffered st ->
  process_series env study_uid max_workers st series_data = Ok st' ->
  buffered st'.
Proof.
  unfold process_series. intros Hst.
  destruct (truthy_uid (series_iuid series_data)) as [series_uid|];
    [|by intros [= <-]].
  destruct (download_series_downloads env study_uid series_uid max_workers
              (getattr (instances series_data) [])) as (l & -> & Hl & _).
  cbn. intros [= <-]. apply foldl_add_instance_buffered; [done|].
  rewrite Hl. apply fetched_in_order_from_buffer.
Qed.

Lemma buffered_finalize (st : DicomStudy.t) :
  buffered st -> DicomStudy.finalize st = Ok (finalized st).
Proof.
  intros Hst. apply finalize_from_buffer. intros k s Hks.
  apply (Hst k). unfold series_instances. by rewrite Hks.
Qed.

Lemma process_series_lockstep (env : Env) (sch : Scheduler)
    (study_uid : string) (w1 w2 : Z) (st1 st2 : DicomStudy.t)
    (series_data : SeriesData) :
  perm_series st1 st2 ->
  exists st1' st2',
    process_series env study_uid w1 st1 series_data = Ok st1' /\
    process_series (with_scheduler env sch) study_uid w2 st2 series_data
      = Ok st2' /\
    perm_series st1' st2'.
Proof.
  intros Hst. unfold process_series.
  destruct (truthy_uid (series_iuid series_data)) as [series_uid|];
    [|by exists st1, st2].
  destruct (download_series_downloads env study_uid series_uid w1
              (getattr (instances series_data) [])) as (l1 & -> & Hl1 & _).
  destruct (download_series_downloads (with_scheduler env sch) study_uid
              series_uid w2 (getattr (instances series_data) []))
    as (l2 & -> & Hl2 & _).
  cbn. eexists _, _. split; [done|]. split; [done|].
  apply foldl_add_instance_perm; [done|]. by rewrite Hl1, Hl2.
Qed.

Lemma process_study_lockstep (env : Env) (sch : Scheduler) (w1 w2 : Z)
    (m1 m2 : gmap string DicomStudy.t) (study_data : StudyData) :
  same_studies m1 m2 ->
  exists m1' m2',
    process_study env w1 m1 study_data = Ok m1' /\
    process_study (with_scheduler env sch) w2 m2 study_data = Ok m2' /\
    same_studies m1' m2'.
Proof.
  intros Hm. unfold process_study.
  destruct (truthy_uid (study_iuid study_data)) as [uid|];
    [|by exists m1, m2].
  destruct (for_each_lockstep
              (fun st1 st2 => perm_series st1 st2 /\ buffered st1 /\ buffered st2)
              (process_series env uid w1)
              (process_series (with_scheduler env sch) uid w2)
              (getattr (series study_data) [])
              (DicomStudy.init uid) (DicomStudy.init uid))
    as (st1 & st2 & -> & -> & Hst & Hb1 & Hb2).
  { assert (forall k, series_instances (DicomStudy.init uid) k = None) as H0.
    { intros k. unfold series_instances, DicomStudy.init. cbn.
      by rewrite lookup_empty. }
    split; [|split].
    - intros k. rewrite H0. constructor.
    - intros k l. by rewrite H0.
    - intros k l. by rewrite H0. }
  { intros a b x (Hab & Ha & Hb).
    destruct (process_series_lockstep env sch uid w1 w2 a b x Hab)
      as (a' & b' & Ea & Eb & Hab').
    exists a', b'. split; [done|]. split; [done|]. split; [done|].
    split; [exact (process_series_buffered _ _ _ _ _ _ Ha Ea)
           |exact (process_series_buffered _ _ _ _ _ _ Hb Eb)]. }
  cbn. rewrite (perm_series_size _ _ Hst).
  destruct (size (DicomStudy.series st2) =? 0)%nat; [by exists m1, m2|].
  rewrite (buffered_finalize st1 Hb1), (buffered_finalize st2 Hb2). cbn.
  eexists _, _. split; [done|]. split; [done|].
  intros uid'. rewrite !lookup_insert. case_decide; [|apply Hm].
  constructor. by apply finalized_same_series.
Qed.

(** Two runs of [process_dicom_wado_study] against the same server,
    with any two worker counts and any two orders in which the parallel
    downloads complete, raise the same exception, or return the same
    study uids with the same series uids, each series holding the same
    instances, and in the same order when no two instances of it have
    equal sort keys.  (Every fetched instance is read from a buffer, so
    its key is its position and its instance number.)  Nothing is said
    of the study-level fields or of the description and modality of a
    series: they are taken from the instances in their order of arrival
    and may differ between the two runs. *)
Theorem process_dicom_wado_study_order_free
    (env : Env) (sch : Scheduler) (study_iuid : string) (w1 w2 : Z) :
  match process_dicom_wado_study env study_iuid w1,
        process_dicom_wado_study (with_scheduler env sch) study_iuid w2 with
  | Ok m1, Ok m2 => same_studies m1 m2
  | Raise e1, Raise e2 => e1 = e2
  | _, _ => False
  end.
Proof.
  unfold process_dicom_wado_study, try_except, mbind, result_bind.
  change (get_dicom_wado_url (with_scheduler env sch))
    with (get_dicom_wado_url env).
  change (run (get_study_metadata (with_scheduler env sch) study_iuid))
    with (run (get_study_metadata env study_iuid)).
  destruct (get_dicom_wado_url env); [|done].
  destruct (run (get_study_metadata env study_iuid)) as [md|]; [|done].
  destruct (DicomwebUtils.studies md) as [study_list|]; [|done].
  destruct (for_each_lockstep same_studies
              (process_study env (optimize_max_workers (count_instances md) w1))
              (process_study (with_scheduler env sch)
                 (optimize_max_workers (count_instances md) w2))
              study_list ∅ ∅) as (m1 & m2 & -> & -> & Hm); [| |done].
  - intros uid. rewrite lookup_empty. constructor.
  - intros n1 n2 x. apply process_study_lockstep.
Qed.

End Downloads.

(** ** Frames, tags and windows *)

Section FramesTagsWindows.

Import Py ImageUtils PipelineSpec.

Context {lib : ArrayLib}.



Lemma metadata_of_lookup_other (wc ww : option Q) (photometric : string)
    (i j : Z) (key : string) :
  key <> "frame_index" ->
  metadata_of wc ww photometric i !! key
  = metadata_of wc ww photometric j !! key.
Proof.
  intros Hk. unfold metadata_of.
  rewrite !lookup_insert. by repeat case_decide.
Qed.

(** When the declared frame count is 1 or absent, [dicom_to_pil] does
    not use the frame index: every index gives the same image and, apart
    from the ['frame_index'] entry itself, the same metadata. *)
Theorem dicom_to_pil_single_frame_ignores_index
    (dataset : Dataset) (i j : Z) :
  getattr (NumberOfFrames dataset) 1 <= 1 ->
  fst (dicom_to_pil dataset i) = fst (dicom_to_pil dataset j) /\
  (forall key, key <> "frame_index" ->
     snd (dicom_to_pil dataset i) !! key = snd (dicom_to_pil dataset j) !! key).
Proof.
  intros Hn. unfold dicom_to_pil, convert, mbind, result_bind.
  destruct (Z.ltb_spec 1 (getattr (NumberOfFrames dataset) 1)) as [|_]; [lia|].
  repeat (cbn [fst snd];
          match goal with
          | |- context [match ?x with Ok _ => _ | Raise _ => _ end] =>
              lazymatch x with
              | context [i] => fail
              | context [j] => fail
              | _ => destruct x as [?|?]
              end
          end);
    repeat match goal with p : _ * _ |- _ => destruct p end;
    cbn [fst snd]; try done.
  split; [done|]. apply metadata_of_lookup_other.
Qed.

Lemma metadata_of_lookup_tag (wc ww : option Q) (p q : string) (i : Z)
    (key : string) :
  key <> "photometric" ->
  metadata_of wc ww p i !! key = metadata_of wc ww q i !! key.
Proof.
  intros Hk. unfold metadata_of.
  rewrite !lookup_insert. by repeat case_decide.
Qed.

Lemma declared_window_with_photometric (dataset : Dataset) (p : option string) :
  declared_window (with_photometric dataset p) = declared_window dataset.
Proof. reflexivity. Qed.

Lemma windowed_with_photometric (a : ndarray) (dataset : Dataset)
    (p : option string) (window : option Q * option Q) :
  windowed a (with_photometric dataset p) window = windowed a dataset window.
Proof. reflexivity. Qed.

(** A [PALETTE COLOR] image whose colour table cannot be applied is
    rendered as [MONOCHROME2]: same image, same metadata apart from the
    ['photometric'] entry. *)
Theorem palette_without_lut_as_monochrome2 (dataset : Dataset) (i : Z) :
  (forall a, exists e, apply_color_lut dataset a = Raise e) ->
  fst (dicom_to_pil (with_photometric dataset (Some "PALETTE COLOR")) i)
  = fst (dicom_to_pil (with_photometric dataset (Some "MONOCHROME2")) i) /\
  (forall key, key <> "photometric" ->
     snd (dicom_to_pil (with_photometric dataset (Some "PALETTE COLOR")) i)
       !! key
     = snd (dicom_to_pil (with_photometric dataset (Some "MONOCHROME2")) i)
         !! key).
Proof.
  intros Hlut.
  unfold dicom_to_pil, convert, grayscale, mbind, result_bind.
  cbn [with_photometric file_meta decompress pixel_array apply_color_lut
       PhotometricInterpretation NumberOfFrames getattr].
  change (is_monochrome "PALETTE COLOR") with false.
  change (is_colour "PALETTE COLOR") with false.
  change (String.eqb "PALETTE COLOR" "PALETTE COLOR") with true.
  change (is_monochrome "MONOCHROME2") with true.
  change (String.eqb "MONOCHROME2" "MONOCHROME1") with false.
  cbv iota.
  repeat (rewrite ?windowed_with_photometric,
            ?declared_window_with_photometric;
          cbn [fst snd];
          try match goal with
              | |- context [apply_color_lut dataset ?a] =>
                  let e := fresh "e" in
                  let He := fresh "He" in
                  destruct (Hlut a) as [e He]; rewrite He
              end;
          match goal with
          | |- context [match ?x with Ok _ => _ | Raise _ => _ end] =>
              lazymatch x with
              | context [metadata_of] => fail
              | _ => destruct x as [?|?]
              end
          end).
  all: repeat match goal with p : _ * _ |- _ => destruct p end.
  all: cbn [fst snd].
  all: split; [done|]; by apply metadata_of_lookup_tag || done.
Qed.

Lemma declared_window_numbers (dataset : Dataset) (c w : Q) :
  WindowCenter dataset = Some (One (Num c)) ->
  WindowWidth dataset = Some (One (Num w)) ->
  declared_window dataset = Ok (Some c, Some w).
Proof. intros Hc Hw. unfold declared_window. by rewrite Hc, Hw. Qed.

Lemma windowed_declared (b b' : ndarray) (dataset : Dataset) (c w c' w' : Q) :
  windowed b dataset (Some c, Some w) = Ok (b', c', w') -> c' = c /\ w' = w.
Proof.
  unfold windowed, mbind, result_bind. cbn.
  destruct (apply_window _ c w); [|done]. by intros [= _ <- <-].
Qed.

Lemma auto_window_width (a : ndarray) (c w : Q) :
  auto_window a = Ok (c, w) -> (1 <= w)%Q.
Proof.
  assert (forall x, 1 <= Py.max 1 x)%Q as Hmax.
  { intros x. unfold Py.max. destruct (Qlt_le_dec 1 x); lra. }
  unfold auto_window, try_except, mbind, result_bind.
  destruct (np_percentile_2_98 a) as [[p2 p98]|].
  - destruct (Qlt_le_dec (p98 - p2) 1) as [Hlt|Hge].
    + destruct (np_max a) as [hi|]; destruct (np_min a) as [lo|];
        try discriminate; intros [= _ <-]; apply Hmax.
    + by intros [= _ <-].
  - destruct (np_min a) as [lo|]; destruct (np_max a) as [hi|];
      try discriminate; intros [= _ <-]; apply Hmax.
Qed.

Lemma windowed_auto (b b' : ndarray) (dataset : Dataset)
    (window : option Q * option Q) (c w : Q) :
  window.1 = None \/ window.2 = None ->
  windowed b dataset window = Ok (b', c, w) ->
  auto_window (apply_rescale b dataset) = Ok (c, w) /\
  apply_window (apply_rescale b dataset) c w = Ok b'.
Proof.
  intros Hwin. unfold windowed, mbind, result_bind.
  assert (match window with
          | (Some c0, Some w0) => Ok (c0, w0)
          | _ => auto_window (apply_rescale b dataset)
          end = auto_window (apply_rescale b dataset)) as ->.
  { destruct window as [[?|] [?|]]; cbn in Hwin; by destruct Hwin. }
  destruct (auto_window _) as [[c0 w0]|]; [|done].
  destruct (apply_window _ c0 w0) eqn:Ea; [|done]. by intros [= <- <- <-].
Qed.

(** What a successful conversion went through. *)
Lemma convert_inversion (dataset : Dataset) (i : Z)
    (img : image) (m : gmap string meta_value) :
  let photometric :=
    getattr (PhotometricInterpretation dataset) "MONOCHROME2" in
  convert dataset i = Ok (img, m) ->
  exists a frame window wc ww,
    pixel_array dataset = Ok a /\
    (getattr (NumberOfFrames dataset) 1 <= 1 -> frame = a) /\
    declared_window dataset = Ok window /\
    m = metadata_of wc ww photometric i /\
    ((is_monochrome photometric = false /\
      (is_colour photometric = true \/
       String.eqb photometric "PALETTE COLOR" = true) /\
      wc = window.1 /\ ww = window.2) \/
     (exists b b' c w,
        windowed b dataset window = Ok (b', c, w) /\
        wc = Some c /\ ww = Some w /\
        (is_monochrome photometric = true \/
         (is_colour photometric = false /\
          String.eqb photometric "PALETTE COLOR" = false) ->
         b = frame))).
Proof.
  cbv zeta. unfold convert, mbind, result_bind.
  destruct (pixel_array dataset) as [a|]; [|done].
  match goal with
  | |- context [if 1 <? ?n then ?t else ?e] =>
      destruct (if 1 <? n then t else e) as [frame|] eqn:Ef; [|done]
  end.
  assert (getattr (NumberOfFrames dataset) 1 <= 1 -> frame = a) as Hframe.
  { intros Hn. destruct (Z.ltb_spec 1 (getattr (NumberOfFrames dataset) 1));
      [lia|]. by injection Ef. }
  destruct (declared_window dataset) as [window|]; [|done].
  set (photometric := getattr (PhotometricInterpretation dataset) "MONOCHROME2").
  destruct (is_monochrome photometric) eqn:Hmono.
  { destruct (windowed frame dataset window) as [[[b' c] w]|] eqn:Ewd; [|done].
    destruct (if String.eqb photometric "MONOCHROME1" then _ else _);
      [|done].
    destruct (Image_fromarray _ "L"); [|done]. intros [= <- <-].
    exists a, frame, window, (Some c), (Some w).
    repeat split; try done. right. by exists frame, b', c, w. }
  destruct (is_colour photometric) eqn:Hcol.
  { destruct (shape frame) as [|? [|? [|[|[|[|[|?]]]] [|? ?]]]]; try done.
    destruct (to_uint8 frame); [|done].
    destruct (if String.eqb photometric "RGB" then _ else _); [|done].
    intros [= <- <-].
    exists a, frame, window, window.1, window.2.
    repeat split; try done. left. repeat split; try done. by left. }
  destruct (String.eqb photometric "PALETTE COLOR") eqn:Hpal.
  { unfold grayscale, mbind, result_bind.
    destruct (apply_color_lut dataset frame) as [looked_up|].
    - destruct (to_uint8 looked_up) as [converted|].
      + destruct (Image_fromarray converted "RGB").
        * intros [= <- <-].
          exists a, frame, window, window.1, window.2.
          repeat split; try done. left. repeat split; try done. by right.
        * destruct (windowed converted dataset window) as [[[b' c] w]|] eqn:Ewd;
            [|done].
          destruct (Image_fromarray b' "L"); [|done]. intros [= <- <-].
          exists a, frame, window, (Some c), (Some w).
          repeat split; try done. right. exists converted, b', c, w.
          repeat split; try done. intros [?|[_ ?]]; done.
      + destruct (windowed looked_up dataset window) as [[[b' c] w]|] eqn:Ewd;
          [|done].
        destruct (Image_fromarray b' "L"); [|done]. intros [= <- <-].
        exists a, frame, window, (Some c), (Some w).
        repeat split; try done. right. exists looked_up, b', c, w.
        repeat split; try done. intros [?|[_ ?]]; done.
    - destruct (windowed frame dataset window) as [[[b' c] w]|] eqn:Ewd;
        [|done].
      destruct (Image_fromarray b' "L"); [|done]. intros [= <- <-].
      exists a, frame, window, (Some c), (Some w).
      repeat split; try done. right. by exists frame, b', c, w. }
  unfold grayscale, mbind, result_bind.
  destruct (windowed frame dataset window) as [[[b' c] w]|] eqn:Ewd; [|done].
  destruct (Image_fromarray b' "L"); [|done]. intros [= <- <-].
  exists a, frame, window, (Some c), (Some w).
  repeat split; try done. right. by exists frame, b', c, w.
Qed.

(** When the dataset declares a window centre and a window width that
    are single numbers, every successful conversion reports these two
    numbers in its metadata, whatever the photometric tag. *)
Theorem declared_window_reported
    (dataset : Dataset) (i : Z) (c w : Q) :
  WindowCenter dataset = Some (One (Num c)) ->
  WindowWidth dataset = Some (One (Num w)) ->
  forall img m, convert dataset i = Ok (img, m) ->
    m !! "window_center" = Some (MFloat c) /\
    m !! "window_width" = Some (MFloat w).
Proof.
  intros Hc Hw img m Hconv.
  pose proof (declared_window_numbers _ _ _ Hc Hw) as Hdw.
  apply convert_inversion in Hconv
    as (a & frame & window & wc & ww & _ & _ & Hwin & -> & Hcases).
  rewrite Hdw in Hwin. injection Hwin as <-.
  assert (wc = Some c /\ ww = Some w) as [-> ->].
  { destruct Hcases as [(_ & _ & -> & ->)|(b & b' & c' & w' & Hwd & -> & -> & _)];
      [done|].
    by apply windowed_declared in Hwd as [-> ->]. }
  pose proof (metadata_of_lookup (Some c) (Some w)
                (getattr (PhotometricInterpretation dataset) "MONOCHROME2") i)
    as (H1 & H2 & _).
  by split.
Qed.

(** A single-frame image that is not tagged as colour or palette and
    that lacks a declared window centre or width is windowed
    automatically: a successful conversion reports the centre and width
    that [auto_window] computes on the rescaled pixel array, and the
    width is at least 1. *)
Theorem undeclared_window_is_automatic
    (dataset : Dataset) (i : Z) (a : ndarray) :
  let photometric :=
    getattr (PhotometricInterpretation dataset) "MONOCHROME2" in
  pixel_array dataset = Ok a ->
  getattr (NumberOfFrames dataset) 1 <= 1 ->
  is_colour photometric = false ->
  String.eqb photometric "PALETTE COLOR" = false ->
  WindowCenter dataset = None \/ WindowWidth dataset = None ->
  forall img m, convert dataset i = Ok (img, m) ->
    exists c w,
      auto_window (apply_rescale a dataset) = Ok (c, w) /\
      m !! "window_center" = Some (MFloat c) /\
      m !! "window_width" = Some (MFloat w) /\
      (1 <= w)%Q.
Proof.
  cbv zeta. intros Ha Hn Hcol Hpal Hundeclared img m Hconv.
  assert (declared_window dataset = Ok (None, None)) as Hdw.
  { unfold declared_window.
    destruct Hundeclared as [-> | ->]; [done|].
    by destruct (WindowCenter dataset). }
  apply convert_inversion in Hconv
    as (a' & frame & window & wc & ww & Ha' & Hframe & Hwin & -> & Hcases).
  rewrite Ha in Ha'. injection Ha' as <-. rewrite (Hframe Hn) in *.
  rewrite Hdw in Hwin. injection Hwin as <-.
  destruct Hcases as [(_ & [Hc|Hp] & _)|(b & b' & c & w & Hwd & -> & -> & Hb)];
    [congruence..|].
  rewrite Hb in Hwd by (right; by split).
  apply windowed_auto in Hwd as [Hauto _]; [|by left].
  exists c, w. split; [done|].
  pose proof (metadata_of_lookup (Some c) (Some w)
                (getattr (PhotometricInterpretation dataset) "MONOCHROME2") i)
    as (H1 & H2 & _).
  repeat split; try done. by eapply auto_window_width.
Qed.

End FramesTagsWindows.

(** ** Frames, tags and windows on the reference arrays *)

Section FramesTagsWindowsRuns.

Import Py ImageUtils PipelineSpec Examples.

Lemma dicom_to_pil_single_frame_ignores_index_witness :
  getattr (NumberOfFrames single_frame) 1 <= 1 /\
  fst (dicom_to_pil single_frame 0) = fst (dicom_to_pil single_frame 5) /\
  (forall key, key <> "frame_index" ->
     snd (dicom_to_pil single_frame 0) !! key
     = snd (dicom_to_pil single_frame 5) !! key).
Proof.
  assert (getattr (NumberOfFrames single_frame) 1 <= 1) as Hn
    by (vm_compute; discriminate).
  split; [exact Hn|].
  exact (dicom_to_pil_single_frame_ignores_index single_frame 0 5 Hn).
Defined.

Lemma palette_without_lut_as_monochrome2_witness :
  (forall a, exists e, apply_color_lut single_frame a = Raise e) /\
  fst (dicom_to_pil (with_photometric single_frame (Some "PALETTE COLOR")) 0)
  = fst (dicom_to_pil (with_photometric single_frame (Some "MONOCHROME2")) 0).
Proof.
  assert (forall a, exists e, apply_color_lut single_frame a = Raise e) as Hlut
    by (intros a; eexists; reflexivity).
  split; [exact Hlut|].
  exact (proj1 (palette_without_lut_as_monochrome2 single_frame 0 Hlut)).
Defined.

Lemma declared_window_reported_witness :
  WindowCenter single_frame = Some (One (Num (128 # 1))) /\
  WindowWidth single_frame = Some (One (Num (256 # 1))) /\
  match convert single_frame 0 with
  | Ok (img, m) =>
      m !! "window_center" = Some (MFloat (128 # 1)) /\
      m !! "window_width" = Some (MFloat (256 # 1))
  | Raise _ => False
  end.
Proof.
  split; [reflexivity|]. split; [reflexivity|].
  destruct (convert single_frame 0) as [[img m]|e] eqn:E.
  - exact (declared_window_reported single_frame 0 _ _
             eq_refl eq_refl img m E).
  - vm_compute in E. discriminate E.
Defined.

Lemma undeclared_window_is_automatic_witness :
  pixel_array unwindowed = Ok (gray_2x2 : @ndarray Ref.lib) /\
  getattr (NumberOfFrames unwindowed) 1 <= 1 /\
  (WindowCenter unwindowed = None \/ WindowWidth unwindowed = None) /\
  match convert unwindowed 0 with
  | Ok (img, m) =>
      exists c w,
        auto_window (apply_rescale (gray_2x2 : @ndarray Ref.lib) unwindowed)
          = Ok (c, w) /\
        m !! "window_center" = Some (MFloat c) /\
        m !! "window_width" = Some (MFloat w) /\
        (1 <= w)%Q
  | Raise _ => False
  end.
Proof.
  assert (getattr (NumberOfFrames unwindowed) 1 <= 1) as Hn
    by (vm_compute; discriminate).
  split; [reflexivity|]. split; [exact Hn|]. split; [by left|].
  destruct (convert unwindowed 0) as [[img m]|e] eqn:E.
  - exact (undeclared_window_is_automatic unwindowed 0 gray_2x2
             eq_refl Hn eq_refl eq_refl (or_introl eq_refl) img m E).
  - vm_compute in E. discriminate E.
Defined.

End FramesTagsWindowsRuns.

(** ** The PDF document *)

Section Layout.

Import Py ImageUtils PdfUtils DocumentSpec.

Context {lib : ArrayLib} {doc : DocLib}.

Lemma py_int_div_ok (a b : Z) (r : Q) :
  py_int_div a b = Ok r -> b <> 0 /\ (r * inject_Z b == inject_Z a)%Q.
Proof.
  unfold py_int_div. destruct (Z.eqb_spec b 0) as [|Hb]; [done|].
  intros [= <-]. split; [done|].
  field. intros H. apply Hb. 
  unfold Qeq in H. cbn in H. lia.
Qed.

Lemma py_div_ok (a b r : Q) :
  py_div a b = Ok r -> ~ (b == 0)%Q /\ (r * b == a)%Q.
Proof.
  unfold py_div. destruct (Qeq_bool b 0) eqn:E; [done|].
  intros [= <-]. apply Qeq_bool_neq in E. split; [done|]. by field.
Qed.

(** X14.  An image that [pil_to_reportlab_image] returns for a box of
    positive width and height fits the box, touches it in width or in
    height, and has the aspect ratio of the image that was saved as
    JPEG; an image of mode RGB or L is saved as it is. *)
Theorem pil_to_reportlab_image_fits
    (pil_image : image) (max_width max_height : Q) (rl_image : flowable) :
  (0 < max_width)%Q -> (0 < max_height)%Q ->
  pil_to_reportlab_image pil_image max_width max_height = Ok rl_image ->
  exists saved buffer width height,
    (String.eqb (image_mode pil_image) "RGB"
     || String.eqb (image_mode pil_image) "L" = true -> saved = pil_image) /\
    save_jpeg saved = Ok buffer /\
    rl_image = RLImage buffer width height /\
    (width <= max_width)%Q /\ (height <= max_height)%Q /\
    (width == max_width \/ height == max_height)%Q /\
    (width * inject_Z (snd (image_size saved))
     == height * inject_Z (fst (image_size saved)))%Q.
Proof.
  intros Hw Hh. unfold pil_to_reportlab_image, mbind, result_bind.
  match goal with
  | |- context [if ?c then flatten_on_white _ else ?e] =>
      destruct (if c then flatten_on_white pil_image else e) as [saved|] eqn:Ec;
        [|done]
  end.
  assert (String.eqb (image_mode pil_image) "RGB"
          || String.eqb (image_mode pil_image) "L" = true -> saved = pil_image)
    as Hsame.
  { intros Hm. rewrite Hm in Ec.
    destruct (String.eqb_spec (image_mode pil_image) "RGB") as [E|_];
      [rewrite E in Ec; by injection Ec|].
    destruct (String.eqb_spec (image_mode pil_image) "L") as [E|_];
      [rewrite E in Ec; by injection Ec|done]. }
  destruct (save_jpeg saved) as [buffer|] eqn:Es; [|done].
  destruct (image_size saved) as [iw ih] eqn:Esz.
  destruct (py_int_div iw ih) as [aspect|] eqn:Ea; [|done].
  apply py_int_div_ok in Ea as [Hih Ha].
  destruct (py_div max_width max_height) as [box|] eqn:Eb; [|done].
  apply py_div_ok in Eb as [_ Hb].
  destruct (Qlt_le_dec box aspect) as [Hlt|Hle].
  - destruct (py_div max_width aspect) as [height|] eqn:Ed; [|done].
    apply py_div_ok in Ed as [Hne Hd]. cbn [fst snd].
    unfold mk_image. destruct (image_data_ok buffer); [|done].
    intros [= <-]. exists saved, buffer, max_width, height.
    rewrite Esz. cbn [fst snd].
    assert (0 < box)%Q as Hbox.
    { destruct (Qlt_le_dec 0 box) as [|Hn]; [done|]. exfalso. nra. }
    assert (height <= max_height)%Q as Hfit.
    { destruct (Qlt_le_dec max_height height) as [Hgt|]; [|done]. exfalso. nra. }
    split; [done|]. split; [done|]. split; [done|]. split; [lra|]. split; [done|].
    split; [by left|].
    rewrite <- Hd, <- Ha. ring.
  - cbn [fst snd]. unfold mk_image. destruct (image_data_ok buffer); [|done].
    intros [= <-]. exists saved, buffer, (max_height * aspect)%Q, max_height.
    rewrite Esz. cbn [fst snd].
    split; [done|]. split; [done|]. split; [done|]. split; [rewrite <- Hb; nra|].
    split; [lra|]. split; [by right|].
    rewrite <- Ha. ring.
Qed.

Lemma pil_to_reportlab_image_is_image
    (pil_image : image) (max_width max_height : Q) (rl_image : flowable) :
  pil_to_reportlab_image pil_image max_width max_height = Ok rl_image ->
  is_page_break rl_image = false.
Proof.
  unfold pil_to_reportlab_image, mbind, result_bind.
  repeat match goal with
  | |- context [match ?x with Ok _ => _ | Raise _ => _ end] =>
      destruct x; [|done]
  | |- context [let '(_, _) := ?x in _] => destruct x
  end.
  unfold mk_image. destruct (image_data_ok _); [|done]. by intros [= <-].
Qed.

Lemma mk_paragraph_is_text (text : string) (st : style) (p : flowable) :
  mk_paragraph text st = Ok p -> is_page_break p = false.
Proof. unfold mk_paragraph. destruct (markup_ok text); [|done]. by intros [= <-]. Qed.

Lemma page_breaks_app (l1 l2 : list flowable) :
  page_breaks (l1 ++ l2) = (page_breaks l1 + page_breaks l2)%nat.
Proof. unfold page_breaks. by rewrite List.filter_app, length_app. Qed.

(** The elements of the [try] block: no page break before the last
    statement, which appends one. *)
Lemma image_page_breaks (series : Models.DicomSeries.t) (i f : Z)
    (elements : list flowable) (r : result page_metadata) :
  image_page series i f = (elements, r) ->
  match r with
  | Ok _ => exists body, elements = (body ++ [PageBreak])%list /\ page_breaks body = 0%nat
  | Raise _ => page_breaks elements = 0%nat
  end.
Proof.
  unfold image_page.
  destruct (py_index _ i) as [instance|]; cbn [call mbind Page_bind];
    [|by intros [= <- <-]].
  destruct (dicom_to_pil _ f) as [pil_image metadata].
  destruct A4 as [page_width page_height].
  destruct (pil_to_reportlab_image _ _ _) as [rl_image|] eqn:Erl;
    cbn [call mbind Page_bind append app]; [|by intros [= <- <-]].
  apply pil_to_reportlab_image_is_image in Erl.
  unfold mk_paragraph. intros H.
  repeat (match type of H with
          | context [if markup_ok ?t then _ else _] => destruct (markup_ok t)
          | context [if truthy_str ?t then _ else _] => destruct (truthy_str t)
          | context [match ?x with Ok _ => _ | Raise _ => _ end] => destruct x
          end; cbn [call mbind Page_bind append app mret Page_ret] in H);
    injection H as <- <-;
    try (unfold page_breaks; cbn [List.filter is_page_break length];
         by rewrite Erl).
  all: first [eexists [_; _; _; _; _]; split; [reflexivity|]
             |eexists [_; _; _; _]; split; [reflexivity|]];
    unfold page_breaks; cbn [List.filter is_page_break length]; by rewrite Erl.
Qed.

Lemma create_image_page_ends_page (series : Models.DicomSeries.t) (i f : Z)
    (elements : list flowable) (md : page_metadata) :
  create_image_page series i f = Ok (elements, md) ->
  exists body,
    elements = (body ++ [PageBreak])%list /\ page_breaks body = 0%nat.
Proof.
  unfold create_image_page.
  destruct (image_page series i f) as [els [md'|e]] eqn:E;
    apply image_page_breaks in E.
  - by intros [= <- <-].
  - unfold mbind, result_bind.
    destruct (mk_paragraph _ page_error_style) as [p|] eqn:Ep; [|done].
    apply mk_paragraph_is_text in Ep. intros [= <- <-].
    exists (els ++ [Spacer 1 (2 * inch); p])%list. split.
    + by rewrite <- app_assoc.
    + rewrite page_breaks_app, E. unfold page_breaks. cbn. by rewrite Ep.
Qed.

(** X15.  The elements that [create_image_page] returns, for an image
    page or for an error page, end with a page break and hold no other
    page break. *)
Theorem create_image_page_one_page
    (series : Models.DicomSeries.t) (instance_idx frame_idx : Z)
    (elements : list flowable) (md : page_metadata) :
  create_image_page series instance_idx frame_idx = Ok (elements, md) ->
  exists body,
    elements = (body ++ [PageBreak])%list /\ page_breaks body = 0%nat.
Proof. apply create_image_page_ends_page. Qed.

Lemma is_colour_not_monochrome (p : string) :
  is_colour p = true -> is_monochrome p = false.
Proof.
  unfold is_colour, is_monochrome.
  destruct (String.eqb_spec p "RGB") as [E|_]; [by rewrite E|].
  destruct (String.eqb_spec p "YBR_FULL") as [E|_]; [by rewrite E|].
  destruct (String.eqb_spec p "YBR_FULL_422") as [E|_]; [by rewrite E|done].
Qed.

(** A colour image keeps the declared window, or none, in its metadata. *)
Lemma convert_colour_window (dataset : Dataset) (i : Z)
    (img : image) (m : gmap string meta_value) :
  is_colour (getattr (PhotometricInterpretation dataset) "MONOCHROME2") = true ->
  convert dataset i = Ok (img, m) ->
  exists window,
    declared_window dataset = Ok window /\
    m !! "window_center" = Some (meta_float (fst window)) /\
    m !! "window_width" = Some (meta_float (snd window)).
Proof.
  intros Hcol. pose proof (is_colour_not_monochrome _ Hcol) as Hmono.
  unfold convert, mbind, result_bind.
  destruct (pixel_array dataset) as [a|]; [|done].
  match goal with
  | |- context [if 1 <? ?n then ?t else ?e] =>
      destruct (if 1 <? n then t else e) as [frame|]; [|done]
  end.
  destruct (declared_window dataset) as [window|]; [|done].
  rewrite Hmono, Hcol.
  destruct (shape frame) as [|? [|? [|[|[|[|[|?]]]] [|? ?]]]]; try done.
  destruct (to_uint8 frame); [|done].
  destruct (if String.eqb _ "RGB" then _ else _); [|done].
  intros [= <- <-]. exists window. split; [done|].
  pose proof (metadata_of_lookup (fst window) (snd window)
                (getattr (PhotometricInterpretation dataset) "MONOCHROME2") i)
    as (H1 & H2 & _).
  by split.
Qed.

Lemma undeclared_window (dataset : Dataset) :
  WindowCenter dataset = None \/ WindowWidth dataset = None ->
  declared_window dataset = Ok (None, None).
Proof.
  unfold declared_window. intros [-> | ->]; [done|].
  by destruct (WindowCenter dataset).
Qed.

(** X16.  A colour image (RGB, YBR_FULL or YBR_FULL_422) that declares
    no window centre or no window width converts with a window of
    [None] in its metadata; formatting it raises, so the page shows the
    image followed by the text of that exception instead of a caption,
    and its metadata are those of an error page. *)
Theorem colour_page_without_window_is_error_page
    (series : Models.DicomSeries.t) (instance_idx frame_idx : Z)
    (instance : Models.Dataset) (img : image) (m : gmap string meta_value)
    (rl_image : flowable) :
  let dataset := pixels_of instance in
  let message :=
    "Error loading image: unsupported format string passed to NoneType.__format__" in
  py_index (Models.DicomSeries.instances series) instance_idx = Ok instance ->
  is_colour (getattr (PhotometricInterpretation dataset) "MONOCHROME2") = true ->
  WindowCenter dataset = None \/ WindowWidth dataset = None ->
  convert dataset frame_idx = Ok (img, m) ->
  pil_to_reportlab_image img available_width available_height = Ok rl_image ->
  markup_ok message = true ->
  create_image_page series instance_idx frame_idx
  = Ok ([Spacer 1 ((2 # 10) * inch); rl_image; Spacer 1 (2 * inch);
         Paragraph message page_error_style; PageBreak],
        {| series_name := "Error"; image_info := "Failed to load";
           window_info := "" |}).
Proof.
  cbv zeta. intros Hidx Hcol Hwin Hconv Hrl Hok.
  destruct (convert_colour_window _ _ _ _ Hcol Hconv) as (window & Hdw & Hc & Hw).
  rewrite (undeclared_window _ Hwin) in Hdw. injection Hdw as <-.
  unfold create_image_page, image_page.
  rewrite Hidx. cbn [call mbind Page_bind].
  unfold dicom_to_pil. rewrite Hconv.
  unfold available_width, available_height in Hrl.
  destruct A4 as [page_width page_height]. cbn [fst snd] in Hrl.
  rewrite Hrl. cbn [append mbind Page_bind call]. rewrite Hc, Hw.
  cbn [meta_float fst snd format_0f mbind result_bind app exn_str].
  unfold mk_paragraph.
  change ("Error loading image: "
          ++ "unsupported format string passed to NoneType.__format__")
    with "Error loading image: unsupported format string passed to NoneType.__format__".
  by rewrite Hok.
Qed.

(** X17.  When the conversion of an instance fails, its page is an
    ordinary image page: the gray placeholder, the caption of the
    instance, no window line and no error text. *)
Theorem failed_conversion_page_shows_placeholder
    (series : Models.DicomSeries.t) (instance_idx frame_idx : Z)
    (instance : Models.Dataset) (e : exn) (rl_image : flowable) :
  py_index (Models.DicomSeries.instances series) instance_idx = Ok instance ->
  convert (pixels_of instance) frame_idx = Raise e ->
  pil_to_reportlab_image blank_image available_width available_height
  = Ok rl_image ->
  (forall text, markup_ok text = true) ->
  exists caption md,
    create_image_page series instance_idx frame_idx
    = Ok ([Spacer 1 ((2 # 10) * inch); rl_image; Spacer 1 ((1 # 10) * inch);
           Paragraph caption image_info_style; PageBreak], md) /\
    image_info md = caption /\ window_info md = "".
Proof.
  intros Hidx Hconv Hrl Hok.
  unfold create_image_page, image_page.
  rewrite Hidx. cbn [call mbind Page_bind].
  unfold dicom_to_pil. rewrite Hconv.
  unfold available_width, available_height in Hrl.
  destruct A4 as [page_width page_height]. cbn [fst snd] in Hrl.
  rewrite Hrl. cbn [append mbind Page_bind call].
  rewrite lookup_singleton_ne by done.
  unfold mk_paragraph. rewrite Hok.
  cbn [append mbind Page_bind call truthy_str app mret Page_ret].
  eexists _, _. split; [reflexivity|]. by split.
Qed.

(** *** The document *)

Lemma closed_app (l1 l2 : list flowable) :
  closed l1 -> closed l2 -> closed (l1 ++ l2).
Proof.
  unfold closed. rewrite page_breaks_app. intros H1 H2 H.
  rewrite H1, H2 by lia. done.
Qed.

Lemma closed_page_break (l : list flowable) :
  (0 < page_breaks l)%nat -> closed l.
Proof. unfold closed. lia. Qed.

Section AllParagraphsBuild.

Hypothesis Hok : forall text, markup_ok text = true.

Lemma create_image_page_breaks (series : Models.DicomSeries.t) (i f : Z) :
  exists elements md,
    create_image_page series i f = Ok (elements, md) /\
    page_breaks elements = 1%nat.
Proof.
  destruct (create_image_page series i f) as [[elements md]|e] eqn:E.
  - exists elements, md. split; [done|].
    apply create_image_page_ends_page in E as (body & -> & Hb).
    by rewrite page_breaks_app, Hb.
  - exfalso. revert E. unfold create_image_page, mk_paragraph.
    destruct (image_page series i f) as [els [md|e']]; [done|].
    by rewrite Hok.
Qed.

Lemma frame_pages_breaks (series : Models.DicomSeries.t) (i : Z)
    (l : list Z) (acc : list flowable) :
  let elements :=
    foldl (fun elements frame_idx =>
             match create_image_page series i frame_idx with
             | Ok (page_elements, _) => (elements ++ page_elements)%list
             | Raise _ => elements
             end) acc l in
  page_breaks elements = (page_breaks acc + length l)%nat /\
  (closed acc -> closed elements).
Proof.
  cbv zeta. revert acc.
  induction l as [|f l IH]; intros acc; cbn [foldl length];
    [split; [lia|done]|].
  destruct (create_image_page_breaks series i f) as (els & md & -> & Hels).
  destruct (IH (acc ++ els)%list) as [-> Hclosed].
  rewrite page_breaks_app, Hels. split; [lia|].
  intros Hacc. apply Hclosed, closed_app; [done|].
  apply closed_page_break. lia.
Qed.

Lemma instance_pages_breaks (series : Models.DicomSeries.t) (i : Z)
    (instance : Models.Dataset) :
  page_breaks (instance_pages series i instance) = frames_of_instance instance /\
  closed (instance_pages series i instance).
Proof.
  unfold instance_pages, frames_of_instance, range.
  destruct (frame_pages_breaks series i
              (Z.of_nat <$> seq 0 (Z.to_nat (get_frame_count (pixels_of instance))))
              []) as [-> Hclosed].
  rewrite length_fmap, length_seq. split; [done|]. by apply Hclosed.
Qed.

Lemma indexed_pages_breaks (series : Models.DicomSeries.t)
    (l : list (nat * Models.Dataset)) (acc : list flowable) :
  let elements :=
    foldl (fun elements '(instance_idx, instance) =>
             (elements
              ++ instance_pages series (Z.of_nat instance_idx) instance)%list)
      acc l in
  page_breaks elements
  = (page_breaks acc + sum_list_with (fun p => frames_of_instance (snd p)) l)%nat /\
  (closed acc -> closed elements).
Proof.
  cbv zeta. revert acc. induction l as [|[i d] l IH]; intros acc;
    cbn [foldl sum_list_with snd]; [split; [lia|done]|].
  destruct (IH (acc ++ instance_pages series (Z.of_nat i) d)%list) as [-> Hclosed].
  destruct (instance_pages_breaks series (Z.of_nat i) d) as [Hn Hc].
  rewrite page_breaks_app, Hn. split; [lia|].
  intros Hacc. by apply Hclosed, closed_app.
Qed.

Lemma sum_list_with_imap {A} (f : A -> nat) (g : nat -> nat) (l : list A) :
  sum_list_with (fun p => f (snd p)) (imap (fun i x => (g i, x)) l)
  = sum_list_with f l.
Proof.
  revert g. induction l as [|x l IH]; intros g; [done|].
  cbn [imap sum_list_with snd]. f_equal.
  apply (IH (g ∘ S)).
Qed.

Lemma series_pages_breaks (series : Models.DicomSeries.t) :
  page_breaks (series_pages series) = frames_of_series series /\
  closed (series_pages series).
Proof.
  unfold series_pages, frames_of_series.
  destruct (indexed_pages_breaks series
              (imap (fun instance_idx instance => (instance_idx, instance))
                 (Models.DicomSeries.instances series)) []) as [-> Hclosed].
  rewrite (sum_list_with_imap frames_of_instance (fun n => n)).
  split; [done|]. by apply Hclosed.
Qed.

Lemma study_pages_breaks (l : list (string * Models.DicomSeries.t))
    (acc : list flowable) :
  let elements :=
    foldl (fun elements ks => (elements ++ series_pages (snd ks))%list) acc l in
  page_breaks elements
  = (page_breaks acc + sum_list_with (fun ks => frames_of_series (snd ks)) l)%nat /\
  (closed acc -> closed elements).
Proof.
  cbv zeta. revert acc. induction l as [|ks l IH]; intros acc;
    cbn [foldl sum_list_with]; [split; [lia|done]|].
  destruct (IH (acc ++ series_pages (snd ks))%list) as [-> Hclosed].
  destruct (series_pages_breaks (snd ks)) as [Hn Hc].
  rewrite page_breaks_app, Hn. split; [lia|].
  intros Hacc. by apply Hclosed, closed_app.
Qed.

Lemma mk_paragraph_ok (text : string) (st : style) :
  mk_paragraph text st = Ok (Paragraph text st).
Proof. unfold mk_paragraph. by rewrite Hok. Qed.

Lemma summary_paragraphs (l : list (string * Models.DicomSeries.t))
    (elements : list flowable) :
  for_each (fun elements kv =>
              p ← mk_paragraph (series_summary (snd kv)) info_style;
              Ok (elements ++ [p])%list) elements l
  = Ok (elements
        ++ map (fun kv => Paragraph (series_summary (snd kv)) info_style) l)%list.
Proof.
  revert elements. induction l as [|kv l IH]; intros elements; cbn [for_each map].
  - by rewrite app_nil_r.
  - rewrite mk_paragraph_ok. cbn [mbind result_bind].
    rewrite IH. by rewrite <- app_assoc.
Qed.

Lemma page_breaks_paragraphs {A} (text : A -> string) (st : style) (l : list A) :
  page_breaks (map (fun x => Paragraph (text x) st) l) = 0%nat.
Proof. unfold page_breaks. by induction l. Qed.

Lemma create_cover_page_breaks (study : Models.DicomStudy.t) (anonymize : bool) :
  exists elements,
    create_cover_page study anonymize = Ok elements /\
    page_breaks elements = 1%nat.
Proof.
  unfold create_cover_page.
  destruct anonymize;
    repeat (rewrite ?mk_paragraph_ok, ?summary_paragraphs; cbn [mbind result_bind]);
    eexists; (split; [reflexivity|]);
    rewrite !page_breaks_app, page_breaks_paragraphs; reflexivity.
Qed.

Lemma study_elements_breaks (anonymize cover_page : bool)
    (l : list (string * Models.DicomStudy.t)) (acc : list flowable) :
  closed acc ->
  exists elements,
    for_each (fun elements kv =>
                elements ←
                  (if cover_page then
                     cover_elements ← create_cover_page (snd kv) anonymize;
                     Ok (elements ++ cover_elements)%list
                   else Ok elements);
                Ok (foldl (fun elements ks =>
                             (elements ++ series_pages (snd ks))%list)
                      elements
                      (items dict_order _ (Models.DicomStudy.series (snd kv)))))
      acc l = Ok elements /\
    closed elements /\
    page_breaks elements
    = (page_breaks acc
       + sum_list_with (fun kv => (if cover_page then 1 else 0)
                                  + frames_of_study (snd kv)) l)%nat.
Proof.
  revert acc. induction l as [|kv l IH]; intros acc Hacc; cbn [for_each].
  - exists acc. cbn [sum_list_with]. split; [done|]. split; [done|lia].
  - set (series_items := items dict_order _ (Models.DicomStudy.series (snd kv))).
    assert (sum_list_with (fun ks => frames_of_series (snd ks)) series_items
            = frames_of_study (snd kv)) as Hsum.
    { unfold frames_of_study, series_items. by rewrite items_perm. }
    destruct cover_page.
    + destruct (create_cover_page_breaks (snd kv) anonymize) as (cover & -> & Hcover).
      cbn [mbind result_bind].
      destruct (study_pages_breaks series_items (acc ++ cover)%list) as [Hn Hc].
      assert (closed cover) as Hcc by (apply closed_page_break; lia).
      destruct (IH _ (Hc (closed_app _ _ Hacc Hcc)))
        as (elements & Hfe & Hclosed & Hels).
      exists elements. split; [exact Hfe|]. split; [done|].
      rewrite Hels, Hn, page_breaks_app, Hcover, Hsum. cbn [sum_list_with]. lia.
    + cbn [mbind result_bind].
      destruct (study_pages_breaks series_items acc) as [Hn Hc].
      destruct (IH _ (Hc Hacc)) as (elements & Hfe & Hclosed & Hels).
      exists elements. split; [exact Hfe|]. split; [done|].
      rewrite Hels, Hn, Hsum. cbn [sum_list_with]. lia.
Qed.

Lemma sum_list_with_plus {A} (c : nat) (f : A -> nat) (l : list A) :
  sum_list_with (fun x => c + f x)%nat l = (c * length l + sum_list_with f l)%nat.
Proof. induction l as [|x l IH]; cbn [sum_list_with length]; lia. Qed.

Lemma study_elements_pages (studies : gmap string Models.DicomStudy.t)
    (anonymize cover_page : bool) :
  exists elements,
    study_elements studies anonymize cover_page = Ok elements /\
    closed elements /\
    page_breaks elements
    = ((if cover_page then size studies else 0) + frames studies)%nat.
Proof.
  unfold study_elements.
  destruct (study_elements_breaks anonymize cover_page
              (items dict_order _ studies) []) as (elements & -> & Hclosed & Hn);
    [done|].
  exists elements. split; [done|]. split; [done|].
  rewrite Hn, sum_list_with_plus, items_perm, length_map_to_list.
  unfold frames, page_breaks. cbn [List.filter length].
  destruct cover_page; lia.
Qed.

(** X18.  When every paragraph can be built, [create_pdf_from_studies]
    hands to [doc.build] a list that is not empty and that holds one
    page break for each cover page and one for each frame that
    [get_frame_count] counts, whether or not the frame could be
    rendered. *)
Theorem one_page_break_per_cover_and_frame
    (studies : gmap string Models.DicomStudy.t) (anonymize cover_page : bool) :
  exists elements,
    document_elements studies anonymize cover_page = Ok elements /\
    elements <> [] /\
    page_breaks elements
    = ((if cover_page then size studies else 0) + frames studies)%nat.
Proof.
  unfold document_elements.
  destruct (study_elements_pages studies anonymize cover_page)
    as (elements & -> & Hclosed & Hn).
  cbn [mbind result_bind]. destruct elements as [|x elements].
  - rewrite mk_paragraph_ok. cbn [mbind result_bind].
    eexists. split; [reflexivity|]. split; [done|]. by rewrite <- Hn.
  - exists (x :: elements). by split.
Qed.

(** X19.  When every paragraph can be built, the document consists of
    the message "No images could be processed" exactly when there is no
    cover page to make and no frame to show. *)
Theorem error_document_iff_nothing_to_show
    (studies : gmap string Models.DicomStudy.t) (anonymize cover_page : bool) :
  document_elements studies anonymize cover_page
  = Ok [Spacer 1 (2 * inch);
        Paragraph "No images could be processed" document_error_style]
  <-> (cover_page = false \/ studies = ∅) /\ frames studies = 0%nat.
Proof.
  unfold document_elements.
  destruct (study_elements_pages studies anonymize cover_page)
    as (elements & -> & Hclosed & Hn).
  cbn [mbind result_bind].
  assert ((cover_page = false \/ studies = ∅) /\ frames studies = 0%nat
          <-> page_breaks elements = 0%nat) as ->.
  { rewrite Hn. destruct cover_page.
    - rewrite <- (map_size_empty_iff studies). split; [intros [[?|?] ?]|]; [done|lia|].
      intros H. split; [right|]; lia.
    - split; [by intros [_ ->]|]. intros H. split; [by left|lia]. }
  destruct elements as [|x elements].
  - rewrite mk_paragraph_ok. cbn [mbind result_bind]. done.
  - split.
    + intros [= -> ->]. done.
    + intros H. by apply Hclosed in H.
Qed.

End AllParagraphsBuild.

End Layout.

(** ** The PDF document on the reference arrays *)

Section DocumentRuns.

Import Py ImageUtils PdfUtils DocumentSpec Examples.

#[local] Existing Instance Ref.lib.
#[local] Existing Instance plain_doc.

Lemma pil_to_reportlab_image_fits_witness :
  (0 < 400)%Q /\ (0 < 300)%Q /\
  match pil_to_reportlab_image (doc := plain_doc) blank_image 400 300 with
  | Ok rl_image =>
      exists saved buffer width height,
        (String.eqb (image_mode blank_image) "RGB"
         || String.eqb (image_mode blank_image) "L" = true ->
         saved = blank_image) /\
        save_jpeg saved = Ok buffer /\
        rl_image = RLImage buffer width height /\
        (width <= 400)%Q /\ (height <= 300)%Q /\
        (width == 400 \/ height == 300)%Q /\
        (width * inject_Z (snd (image_size saved))
         == height * inject_Z (fst (image_size saved)))%Q
  | Raise _ => False
  end.
Proof.
  split; [reflexivity|]. split; [reflexivity|].
  destruct (pil_to_reportlab_image (doc := plain_doc) blank_image 400 300)
    as [rl_image|e] eqn:E.
  - exact (pil_to_reportlab_image_fits blank_image 400 300 rl_image
             eq_refl eq_refl E).
  - vm_compute in E. discriminate E.
Defined.

Lemma create_image_page_one_page_witness :
  match create_image_page (doc := plain_doc) mixed_series 2 1 with
  | Ok (elements, md) =>
      exists body,
        elements = (body ++ [PageBreak])%list /\ page_breaks body = 0%nat
  | Raise _ => False
  end.
Proof.
  destruct (create_image_page (doc := plain_doc) mixed_series 2 1)
    as [[elements md]|e] eqn:E.
  - exact (create_image_page_one_page mixed_series 2 1 elements md E).
  - vm_compute in E. discriminate E.
Defined.

Lemma colour_page_without_window_is_error_page_witness :
  match convert colour_frame 0 with
  | Ok (img, m) =>
      match pil_to_reportlab_image (doc := plain_doc) img
              available_width available_height with
      | Ok rl_image =>
          create_image_page (doc := plain_doc) mixed_series 0 0
          = Ok ([Spacer 1 ((2 # 10) * inch); rl_image; Spacer 1 (2 * inch);
                 Paragraph
                   "Error loading image: unsupported format string passed to NoneType.__format__"
                   page_error_style;
                 PageBreak],
                {| series_name := "Error"; image_info := "Failed to load";
                   window_info := "" |})
      | Raise _ => False
      end
  | Raise _ => False
  end.
Proof.
  destruct (convert colour_frame 0) as [[img m]|e] eqn:E.
  - destruct (pil_to_reportlab_image (doc := plain_doc) img
                available_width available_height) as [rl_image|e] eqn:Erl.
    + exact (colour_page_without_window_is_error_page (doc := plain_doc)
               mixed_series 0 0 (dataset 21 None None None) img m rl_image
               eq_refl eq_refl (or_introl eq_refl) E Erl eq_refl).
    + vm_compute in E. injection E as <- <-. vm_compute in Erl. discriminate Erl.
  - vm_compute in E. discriminate E.
Defined.

Lemma failed_conversion_page_shows_placeholder_witness :
  (forall text, markup_ok (DocLib := plain_doc) text = true) /\
  match pil_to_reportlab_image (doc := plain_doc) blank_image
          available_width available_height with
  | Ok rl_image =>
      exists caption md,
        create_image_page (doc := plain_doc) mixed_series 1 0
        = Ok ([Spacer 1 ((2 # 10) * inch); rl_image;
               Spacer 1 ((1 # 10) * inch);
               Paragraph caption image_info_style; PageBreak], md) /\
        image_info md = caption /\ window_info md = ""
  | Raise _ => False
  end.
Proof.
  split; [intros text; reflexivity|].
  destruct (pil_to_reportlab_image (doc := plain_doc) blank_image
              available_width available_height) as [rl_image|e] eqn:Erl.
  - exact (failed_conversion_page_shows_placeholder (doc := plain_doc)
             mixed_series 1 0 (dataset 22 None None None)
             (AttributeError "No pixel data found in this dataset") rl_image
             eq_refl eq_refl Erl (fun _ => eq_refl)).
  - vm_compute in Erl. discriminate Erl.
Defined.

Lemma one_page_break_per_cover_and_frame_witness :
  (forall text, markup_ok (DocLib := plain_doc) text = true) /\
  exists elements,
    document_elements (doc := plain_doc) {["1.2.3" := mixed_study]} false true
    = Ok elements /\
    elements <> [] /\
    page_breaks elements
    = (size ({["1.2.3" := mixed_study]} : gmap string Models.DicomStudy.t)
       + frames (doc := plain_doc) {["1.2.3" := mixed_study]})%nat.
Proof.
  split; [intros text; reflexivity|].
  exact (one_page_break_per_cover_and_frame (doc := plain_doc)
           (fun _ => eq_refl) {["1.2.3" := mixed_study]} false true).
Defined.

Lemma error_document_iff_nothing_to_show_witness :
  (forall text, markup_ok (DocLib := plain_doc) text = true) /\
  (document_elements (doc := plain_doc) ∅ true true
   = Ok [Spacer 1 (2 * inch);
         Paragraph "No images could be processed" document_error_style]
   <-> (true = false \/ (∅ : gmap string Models.DicomStudy.t) = ∅) /\
       frames (doc := plain_doc) ∅ = 0%nat).
Proof.
  split; [intros text; reflexivity|].
  exact (error_document_iff_nothing_to_show (doc := plain_doc)
           (fun _ => eq_refl) ∅ true true).
Defined.

End DocumentRuns.

(** ** Access control *)

Section Access.

Import Py DicomwebUtils Main ServiceSpec.

Lemma truthy_str_spec (s : string) : truthy_str s = true <-> s <> "".
Proof.
  unfold truthy_str. destruct (String.eqb_spec s ""); split; try done.
Qed.

Lemma stripped_entries_nil (s : string) :
  stripped_entries s = []
  <-> forall entry, entry ∈ split "," s -> strip is_space entry = "".
Proof.
  unfold stripped_entries. induction (split "," s) as [|e l IH]; cbn [flat_map].
  - split; [|done]. intros _ entry H. by apply elem_of_nil in H.
  - destruct (truthy_str (strip is_space e)) eqn:E.
    + split; [done|]. intros H. apply truthy_str_spec in E.
      destruct E. apply H. left.
    + cbn [app]. rewrite IH. split.
      * intros H entry [->|Hin]%elem_of_cons; [|by apply H].
        destruct (String.eqb_spec (strip is_space e) "") as [->|]; [done|].
        unfold truthy_str in E.
        by destruct (String.eqb_spec (strip is_space e) "").
      * intros H entry Hin. apply H. by right.
Qed.

Lemma split_empty : split "," "" = [""].
Proof. reflexivity. Qed.

(** With an allowed address configured, some request is rejected. *)
Lemma validate_client_ip_rejects (env : Env) :
  allowed_ips env <> [] -> exists other, validate_client_ip env other = false.
Proof.
  unfold allowed_ips, validate_client_ip. intros Hne.
  destruct (stripped_entries _) as [|ip ips] eqn:E; [done|].
  set (s := fresh ("" :: ip :: ips)).
  assert (s ∉ "" :: ip :: ips) as Hs by apply infinite_is_fresh.
  exists {| x_forwarded_for := None; x_real_ip := None; client_host := Some s |}.
  destruct (String.eqb_spec (Models.getattr (ALLOWED_CLIENT_IPS env) "") "")
    as [Hempty|Hset].
  { rewrite Hempty in E. discriminate E. }
  rewrite (proj2 (truthy_str_spec _) Hset). cbn [negb].
  cbn [x_forwarded_for x_real_ip client_host Models.getattr].
  rewrite split_empty. cbn [hd].
  change (DicomwebUtils.strip DicomwebUtils.is_space "") with "".
  cbn [truthy_str String.eqb negb].
  apply bool_decide_eq_false. intros Hin. apply Hs. by right.
Qed.

Lemma validate_client_ip_all_iff (env : Env) :
  (forall request, validate_client_ip env request = true)
  <-> allowed_ips env = [].
Proof.
  split.
  - intros H. destruct (allowed_ips env) as [|ip ips] eqn:E; [done|].
    destruct (validate_client_ip_rejects env) as [other Hother]; [by rewrite E|].
    by rewrite H in Hother.
  - unfold allowed_ips, validate_client_ip. intros -> request.
    by destruct (negb _).
Qed.

(** X20.  [validate_client_ip] admits every request exactly when
    [ALLOWED_CLIENT_IPS] is unset or holds no entry besides blank ones. *)
Theorem ip_validation_off_iff_no_entry (env : Env) :
  (forall request, validate_client_ip env request = true)
  <-> (forall entry,
         entry ∈ split "," (Models.getattr (ALLOWED_CLIENT_IPS env) "") ->
         strip is_space entry = "").
Proof.
  rewrite <- stripped_entries_nil. apply validate_client_ip_all_iff.
Qed.

Lemma split_chars_nonempty (sep : ascii) (s : list ascii) :
  split_chars sep s <> [].
Proof.
  destruct s as [|c s]; cbn [split_chars]; [done|].
  destruct (split_chars sep s); [done|]. by destruct (Ascii.eqb c sep).
Qed.

Lemma split_chars_no_sep (sep : ascii) (s : list ascii) :
  Forall (fun w => sep ∉ w) (split_chars sep s).
Proof.
  induction s as [|c s IH]; cbn [split_chars].
  - constructor; [|constructor]. apply not_elem_of_nil.
  - pose proof (split_chars_nonempty sep s) as Hne.
    destruct (split_chars sep s) as [|w ws]; [done|].
    inversion IH as [|? ? Hw Hws]; subst.
    destruct (Ascii.eqb_spec c sep) as [->|Hc].
    + constructor; [apply not_elem_of_nil|by constructor].
    + constructor; [|done]. intros [?|?]%elem_of_cons; [congruence|done].
Qed.

Lemma split_chars_head (sep : ascii) (w rest : list ascii) :
  sep ∉ w ->
  split_chars sep (w ++ sep :: rest) = w :: split_chars sep rest.
Proof.
  intros Hw. induction w as [|c w IH]; cbn [app split_chars].
  - pose proof (split_chars_nonempty sep rest) as H.
    destruct (split_chars sep rest); [done|].
    by rewrite (proj2 (Ascii.eqb_eq sep sep) eq_refl).
  - rewrite IH by (intros ?; apply Hw; by right).
    destruct (Ascii.eqb_spec c sep) as [->|]; [|done].
    destruct Hw. left.
Qed.

Lemma split_chars_whole (sep : ascii) (w : list ascii) :
  sep ∉ w -> split_chars sep w = [w].
Proof.
  intros Hw. induction w as [|c w IH]; cbn [split_chars]; [done|].
  rewrite IH by (intros ?; apply Hw; by right).
  destruct (Ascii.eqb_spec c sep) as [->|]; [|done].
  destruct Hw. left.
Qed.

Lemma list_ascii_of_string_app (s1 s2 : string) :
  list_ascii_of_string (s1 ++ s2)
  = (list_ascii_of_string s1 ++ list_ascii_of_string s2)%list.
Proof. induction s1 as [|c s1 IH]; simpl; [done|]. by f_equal. Qed.

Lemma lstrip_chars_id (p : ascii -> bool) (l : list ascii) :
  (forall c r, l = c :: r -> p c = false) -> lstrip_chars p l = l.
Proof. destruct l as [|c l]; [done|]. intros H. cbn. by rewrite (H c l). Qed.

Lemma strip_idempotent (p : ascii -> bool) (s : string) :
  strip p (strip p s) = strip p s.
Proof.
  destruct (strip_split p s) as (pre & post & _ & _ & _ & Hhd & Hlast).
  set (t := strip p s) in *. unfold strip at 1.
  rewrite (lstrip_chars_id p _ Hhd). unfold rstrip_chars.
  rewrite lstrip_chars_id.
  - by rewrite rev_involutive, string_of_list_ascii_of_string.
  - intros c r Hr. apply (Hlast (rev r) c).
    apply (f_equal (@rev ascii)) in Hr. rewrite rev_involutive in Hr.
    rewrite Hr. by cbn.
Qed.

Lemma strip_chars_subset (p : ascii -> bool) (s : string) (c : ascii) :
  c ∈ list_ascii_of_string (strip p s) -> c ∈ list_ascii_of_string s.
Proof.
  destruct (strip_split p s) as (pre & post & -> & _).
  intros H. rewrite !elem_of_app. right. by left.
Qed.

Lemma elem_of_stripped_entries (s ip : string) :
  ip ∈ stripped_entries s ->
  ip <> "" /\ strip is_space ip = ip /\ ","%char ∉ list_ascii_of_string ip.
Proof.
  unfold stripped_entries. rewrite list_elem_of_In, in_flat_map.
  intros (e & He & Hip).
  destruct (truthy_str (strip is_space e)) eqn:Et; [|done].
  destruct Hip as [<-|[]]. split; [by apply truthy_str_spec|].
  split; [apply strip_idempotent|].
  intros Hc%strip_chars_subset.
  unfold split in He. apply in_map_iff in He as (w & <- & Hw).
  rewrite list_ascii_of_string_of_list_ascii in Hc.
  pose proof (split_chars_no_sep "," (list_ascii_of_string s)) as Hall.
  rewrite Forall_forall in Hall. apply (Hall w); [|done].
  by apply list_elem_of_In.
Qed.

(** X21.  A request whose [X-Forwarded-For] header is an allowed
    address, or starts with one followed by a comma, passes
    [validate_client_ip], whatever its [X-Real-IP] header and the
    address it connects from. *)
Theorem forwarded_header_passes_ip_check
    (env : Env) (request : ClientRequest) (ip rest : string) :
  ip ∈ allowed_ips env ->
  validate_client_ip env (with_forwarded request ip) = true /\
  validate_client_ip env (with_forwarded request (ip ++ "," ++ rest)) = true.
Proof.
  unfold allowed_ips. intros Hip.
  destruct (elem_of_stripped_entries _ _ Hip) as (Hne & Hstrip & Hcomma).
  assert (hd "" (split "," ip) = ip) as Hwhole.
  { unfold split. rewrite (split_chars_whole _ _ Hcomma). cbn.
    apply string_of_list_ascii_of_string. }
  assert (hd "" (split "," (ip ++ "," ++ rest)) = ip) as Hfirst.
  { unfold split. rewrite list_ascii_of_string_app. cbn [list_ascii_of_string String.append app].
    change (list_ascii_of_string ("," ++ rest)) with (","%char :: list_ascii_of_string rest).
    rewrite (split_chars_head _ _ _ Hcomma). cbn.
    apply string_of_list_ascii_of_string. }
  unfold validate_client_ip, with_forwarded.
  cbn [x_forwarded_for x_real_ip client_host Models.getattr].
  rewrite Hwhole, Hfirst, Hstrip.
  apply truthy_str_spec in Hne. rewrite Hne. cbn [negb].
  destruct (negb (truthy_str _)); [done|].
  destruct (stripped_entries _) as [|a l] eqn:E; [done|].
  rewrite Hne. cbn [negb]. by rewrite bool_decide_eq_true.
Qed.
End Access.

(** ** The service *)

Section Service.

Import Py Main ServiceSpec.

Context {lib : ImageUtils.ArrayLib} {doc : PdfUtils.DocLib}.

Local Arguments String.append : simpl never.

(** X22.  [send_log_callback] never raises and never posts to a
    callback URL.  Without a log URL it posts nothing and returns
    [False]; with one it posts once, to that URL with a timeout of 10,
    a body that holds the five base fields wherever the additional data
    do not override them, and it returns [True] exactly when the post
    returned with a status outside 400..599. *)
Theorem send_log_callback_outcome (env : Env) (exameID : Z) (success : bool)
    (message : string) (statusCode : Z) (statusMessage integrationToken : string)
    (additional_data : option (gmap string json)) :
  let url := Models.getattr (CREATE_LOG_URL env) "" in
  exists tr sent,
    send_log_callback env exameID success message statusCode statusMessage
      integrationToken additional_data = (tr, Return sent) /\
    callback_posts tr = [] /\
    (url = "" -> tr = [] /\ sent = false) /\
    (url <> "" ->
     exists post,
       tr = [LogPost post] /\ post_url post = url /\ post_timeout post = 10 /\
       (forall key value,
          additional_data ≫= (.!! key) = None ->
          ({[ "exameID" := JInt exameID; "success" := JBool success;
              "message" := JStr message; "statusCode" := JInt statusCode;
              "statusMessage" := JStr statusMessage ]} : gmap string json)
            !! key = Some value ->
          post_json post !! key = Some value) /\
       (sent = true <->
        exists response,
          requests_post env post = Ok response /\ passes response)).
Proof.
  cbv zeta. unfold send_log_callback.
  destruct (String.eqb_spec (Models.getattr (CREATE_LOG_URL env) "") "")
    as [Hurl|Hurl].
  - rewrite Hurl. cbn. exists [], false. repeat split; done.
  - assert (truthy_str (Models.getattr (CREATE_LOG_URL env) "") = true) as ->
      by (by apply truthy_str_spec).
    cbn [negb].
    match goal with
    | |- context [posting (LogPost ?p) _] => set (post := p)
    end.
    assert (forall key value,
              additional_data ≫= (.!! key) = None ->
              ({[ "exameID" := JInt exameID; "success" := JBool success;
                  "message" := JStr message; "statusCode" := JInt statusCode;
                  "statusMessage" := JStr statusMessage ]} : gmap string json)
                !! key = Some value ->
              post_json post !! key = Some value) as Hpayload.
    { intros key value Hadd Hkey. subst post. cbn [post_json].
      destruct additional_data as [data|]; [|done].
      destruct (size data =? 0)%nat; [done|].
      cbn in Hadd. by rewrite lookup_union_r. }
    assert (post_url post = Models.getattr (CREATE_LOG_URL env) "") as Hpu by done.
    assert (post_timeout post = 10) as Hpt by done.
    clearbody post. unfold posting, passes.
    destruct (requests_post env post) as [response|e] eqn:Ep;
      cbn [App_try mbind App_bind mret App_ret throw app].
    + destruct ((400 <=? status_code response) && (status_code response <? 500))
        eqn:E4; cbn [App_try mbind App_bind mret App_ret throw app].
      { eexists _, _. split; [reflexivity|]. split; [reflexivity|].
        split; [done|]. intros _. exists post.
        split; [reflexivity|]. split; [done|]. split; [done|]. split; [done|].
        split; [done|]. intros (r & Hr1 & Hr). assert (r = response) as -> by congruence. lia. }
      destruct ((500 <=? status_code response) && (status_code response <? 600))
        eqn:E5; cbn [App_try mbind App_bind mret App_ret throw app].
      { eexists _, _. split; [reflexivity|]. split; [reflexivity|].
        split; [done|]. intros _. exists post.
        split; [reflexivity|]. split; [done|]. split; [done|]. split; [done|].
        split; [done|]. intros (r & Hr1 & Hr). assert (r = response) as -> by congruence. lia. }
      eexists _, _. split; [reflexivity|]. split; [reflexivity|].
      split; [done|]. intros _. exists post.
      split; [reflexivity|]. split; [done|]. split; [done|]. split; [done|].
      split; [|done]. intros _. exists response. split; [done|]. lia.
    + eexists _, _. split; [reflexivity|]. split; [reflexivity|].
      split; [done|]. intros _. exists post.
      split; [reflexivity|]. split; [done|]. split; [done|]. split; [done|].
      split; [done|]. intros (r & Hr1 & _). congruence.
Qed.

(** Every call of [send_log_callback] returns, and posts at most once,
    to the log URL. *)
Lemma send_log_callback_returns (env : Env) (exameID : Z) (success : bool)
    (message : string) (statusCode : Z) (statusMessage integrationToken : string)
    (additional_data : option (gmap string json)) :
  exists tr sent,
    send_log_callback env exameID success message statusCode statusMessage
      integrationToken additional_data = (tr, Return sent) /\
    callback_posts tr = [] /\ (length tr <= 1)%nat.
Proof.
  unfold send_log_callback.
  destruct (negb (truthy_str _)).
  { exists [], false. split; [done|]. split; [done|cbn; lia]. }
  unfold posting.
  match goal with
  | |- context [requests_post env ?p] => destruct (requests_post env p) as [response|e]
  end; cbn [App_try mbind App_bind mret App_ret throw app].
  - destruct ((400 <=? status_code response) && (status_code response <? 500));
      [|destruct ((500 <=? status_code response) && (status_code response <? 600))];
      cbn [App_try mbind App_bind mret App_ret throw app];
      eexists _, _; (split; [reflexivity|]); (split; [done|cbn; lia]).
  - eexists _, _. split; [reflexivity|]. split; [done|cbn; lia].
Qed.

Lemma callback_posts_app (tr1 tr2 : list event) :
  callback_posts (tr1 ++ tr2) = (callback_posts tr1 ++ callback_posts tr2)%list.
Proof. unfold callback_posts. apply flat_map_app. Qed.

(** [send_callback] returns after one post to the callback URL, which
    carries the PDF, and at most one post to the log URL. *)
Lemma send_callback_returns (env : Env) (callback_url : string)
    (payload : CallbackPayloadSantana.t) :
  exists post logs delivered,
    send_callback env callback_url payload
    = (CallbackPost post :: logs, Return delivered) /\
    post_url post = callback_url /\
    post_json post !! "PDF"
    = Some (JStr (CallbackPayloadSantana.ImagensPDF payload)) /\
    callback_posts logs = [] /\ (length logs <= 1)%nat.
Proof.
  unfold send_callback, posting.
  match goal with
  | |- context [httpx_post env ?p] =>
      set (post := p); destruct (httpx_post env post) as [response|e]
  end; cbn [App_try mbind App_bind mret App_ret throw app].
  - destruct (status_code response =? 200).
    + destruct (send_log_callback_returns env
                  (CallbackPayloadSantana.examID payload) true
                  (or_str (text response) "Sucesso no envio de PDF") 200 "OK"
                  (CallbackPayloadSantana.IntegrationToken payload) None)
        as (tr & sent & -> & Hcb & Hlen).
      cbn [App_try mbind App_bind mret App_ret throw app].
      exists post, (tr ++ [])%list, true. rewrite app_nil_r.
      repeat split; done.
    + destruct (send_log_callback_returns env
                  (CallbackPayloadSantana.examID payload) false
                  ("Callback failed with status "
                   ++ str_int (status_code response) ++ ": " ++ text response)
                  (status_code response) (reason_phrase response)
                  (CallbackPayloadSantana.IntegrationToken payload) None)
        as (tr & sent & -> & Hcb & Hlen).
      cbn [App_try mbind App_bind mret App_ret throw app].
      exists post, (tr ++ [])%list, false. rewrite app_nil_r.
      repeat split; done.
  - destruct (send_log_callback_returns env
                (CallbackPayloadSantana.examID payload) false
                ("Callback exception: " ++ error_str env (Other e)) 500
                "Internal Server Error"
                (CallbackPayloadSantana.IntegrationToken payload) None)
      as (tr & sent & -> & Hcb & Hlen).
    cbn [App_try mbind App_bind mret App_ret throw app].
    exists post, (tr ++ [])%list, false. rewrite app_nil_r.
    repeat split; done.
Qed.

Lemma release_difference (key : string) (processed : gset string) :
  release key processed = processed ∖ {[key]}.
Proof.
  unfold release. case_bool_decide as Hkey; [done|].
  symmetry. apply difference_disjoint_L. by apply disjoint_singleton_r.
Qed.

(** X25.  The background task never raises and leaves
    [processed_requests] without its key.  When the studies were found
    and the PDF was built, its first request is the post of the encoded
    PDF to the callback URL, followed by at most two posts to the log
    URL; in every other case it posts nothing to the callback URL and
    at most once to the log URL. *)
Theorem process_dicom_async_reports (env : Env)
    (render_request : RenderRequest.t) (callback_url : string)
    (processed_requests : gset string) :
  let key :=
    process_key (RenderRequest.examID render_request)
      (RenderRequest.pacs_studies_iuid render_request) in
  let studies :=
    DicomwebUtils.process_dicom_wado_study (wado env)
      (RenderRequest.pacs_studies_iuid render_request)
      (RenderRequest.max_workers render_request) in
  let pdf_of studies :=
    PdfUtils.create_pdf_from_studies studies
      (RenderRequest.anonymize render_request)
      (RenderRequest.cover_page render_request) in
  exists tr,
    process_dicom_async env render_request callback_url processed_requests
    = ((tr, Return tt), processed_requests ∖ {[key]}) /\
    (forall found pdf,
       studies = Ok found -> found <> ∅ -> pdf_of found = Ok pdf ->
       exists post logs,
         tr = CallbackPost post :: logs /\
         post_url post = callback_url /\
         post_json post !! "PDF" = Some (JStr (b64encode env pdf)) /\
         callback_posts logs = [] /\ (length logs <= 2)%nat) /\
    ((forall found,
        studies = Ok found -> found = ∅ \/ exists e, pdf_of found = Raise e) ->
     callback_posts tr = [] /\ (length tr <= 1)%nat).
Proof.
  cbv zeta. unfold process_dicom_async. rewrite release_difference.
  destruct (DicomwebUtils.process_dicom_wado_study _ _ _) as [found|e];
    cbn [of_result App_try mbind App_bind mret App_ret throw app].
  2:{ destruct (send_log_callback_returns env
                  (RenderRequest.examID render_request) false
                  ("Error processing DICOM to PDF: " ++ error_str env (Other e))
                  500 "Internal Server Error"
                  (RenderRequest.IntegrationToken render_request)
                  (Some {[ "studyIUID" :=
                             JStr (RenderRequest.pacs_studies_iuid render_request);
                           "error_type" := JStr (error_type env (Other e)) ]}))
        as (tr & sent & -> & Hcb & Hlen).
      cbn [App_try mbind App_bind mret App_ret throw app].
      exists (tr ++ [])%list. rewrite app_nil_r.
      split; [done|]. split; [done|]. done. }
  destruct (Nat.eqb_spec (size found) 0) as [Hsize|Hsize];
    cbn [of_result App_try mbind App_bind mret App_ret throw app].
  { apply map_size_empty_iff in Hsize.
    match goal with
    | |- context [send_log_callback env ?a ?b ?c ?d ?e ?f ?g] =>
        destruct (send_log_callback_returns env a b c d e f g)
          as (tr & sent & -> & Hcb & Hlen)
    end.
    cbn [App_try mbind App_bind mret App_ret throw app].
    exists (tr ++ [])%list. rewrite app_nil_r.
    split; [done|]. split; [|done]. intros ? ? [= <-]. done. }
  destruct (PdfUtils.create_pdf_from_studies found _ _) as [pdf|e] eqn:Epdf;
    cbn [of_result App_try mbind App_bind mret App_ret throw app].
  2:{ match goal with
      | |- context [send_log_callback env ?a ?b ?c ?d ?e ?f ?g] =>
          destruct (send_log_callback_returns env a b c d e f g)
            as (tr & sent & -> & Hcb & Hlen)
      end.
      cbn [App_try mbind App_bind mret App_ret throw app].
      exists (tr ++ [])%list. rewrite app_nil_r.
      split; [done|]. split; [|done]. intros ? ? [= <-] _. congruence. }
  match goal with
  | |- context [send_callback env ?u ?p] =>
      destruct (send_callback_returns env u p)
        as (post & logs & delivered & -> & Hurl & Hpdf & Hcb & Hlen)
  end.
  cbn [App_try mbind App_bind mret App_ret throw app].
  match goal with
  | |- context [send_log_callback env ?a ?b ?c ?d ?e ?f ?g] =>
      destruct (send_log_callback_returns env a b c d e f g)
        as (tr & sent & -> & Hcb' & Hlen')
  end.
  cbn [App_try mbind App_bind mret App_ret throw app].
  eexists. split; [reflexivity|]. split.
  - intros found' pdf' [= <-] _ Hpdf'. rewrite Epdf in Hpdf'.
    injection Hpdf' as <-.
    eexists post, _. split; [reflexivity|]. split; [done|]. split; [done|].
    rewrite !callback_posts_app, Hcb, Hcb'. split; [done|].
    rewrite !length_app. cbn. lia.
  - intros H. destruct (H found eq_refl) as [->|[e He]]; [|congruence].
    by rewrite map_size_empty in Hsize.
Qed.

(** X23.  The synchronous endpoint answers every client alike, never
    posts to a callback URL and posts at most once to the log URL.
    When studies were found and the document was built it returns the
    PDF as an [application/pdf] attachment named after the exam.  In
    every other case it raises an [HTTPException] with status 500 whose
    detail is the text of what went wrong: the exception of the
    retrieval, the exception of the document builder, or, for an empty
    result, the [HTTPException] with status 400 that the endpoint raises
    itself and its own handler catches. *)
Theorem render_dicom_to_pdf_sync_outcome (env : Env)
    (render_request : RenderRequestSync.t) (request : ClientRequest) :
  let studies :=
    DicomwebUtils.process_dicom_wado_study (wado env)
      (RenderRequestSync.pacs_studies_iuid render_request)
      (match RenderRequestSync.max_workers render_request with
       | Some n => if n =? 0 then 4 else n
       | None => 4
       end) in
  let pdf_of studies :=
    PdfUtils.create_pdf_from_studies studies
      (Models.getattr (RenderRequestSync.anonymize render_request) false)
      (Models.getattr (RenderRequestSync.cover_page render_request) false) in
  exists tr out,
    render_dicom_to_pdf_sync env render_request request = (tr, out) /\
    (forall other,
       render_dicom_to_pdf_sync env render_request other = (tr, out)) /\
    callback_posts tr = [] /\ (length tr <= 1)%nat /\
    (forall found pdf,
       studies = Ok found -> found <> ∅ -> pdf_of found = Ok pdf ->
       out = Return
               {| content := pdf;
                  media_type := "application/pdf";
                  response_headers :=
                    [("Content-Disposition",
                      "attachment; filename=exam_"
                      ++ str_int (RenderRequestSync.examID render_request)
                      ++ ".pdf")] |}) /\
    (forall e,
       studies = Raise e -> out = Throw (HTTPException 500 (exn_str e))) /\
    (studies = Ok ∅ ->
     out = Throw (HTTPException 500
              (http_exception_str env 400
                 "No valid DICOM instances found in DICOMweb server"))) /\
    (forall found e,
       studies = Ok found -> found <> ∅ -> pdf_of found = Raise e ->
       out = Throw (HTTPException 500 (exn_str e))).
Proof.
  cbv zeta. unfold render_dicom_to_pdf_sync.
  destruct (DicomwebUtils.process_dicom_wado_study _ _ _) as [found|e];
    cbn [of_result App_try mbind App_bind mret App_ret throw app].
  2:{ match goal with
      | |- context [send_log_callback env ?a ?b ?c ?d ?e ?f ?g] =>
          destruct (send_log_callback_returns env a b c d e f g)
            as (tr & sent & -> & Hcb & Hlen)
      end.
      cbn [App_try mbind App_bind mret App_ret throw app error_str].
      eexists _, _. split; [reflexivity|]. split; [done|].
      rewrite app_nil_r. split; [done|]. split; [done|].
      split; [done|]. split; [by intros ? [= <-]|]. by split. }
  destruct (Nat.eqb_spec (size found) 0) as [Hsize|Hsize];
    cbn [of_result App_try mbind App_bind mret App_ret throw app].
  { apply map_size_empty_iff in Hsize.
    match goal with
    | |- context [send_log_callback env ?a ?b ?c ?d ?e ?f ?g] =>
        destruct (send_log_callback_returns env a b c d e f g)
          as (tr & sent & -> & Hcb & Hlen)
    end.
    cbn [App_try mbind App_bind mret App_ret throw app error_str].
    eexists _, _. split; [reflexivity|]. split; [done|].
    rewrite app_nil_r. split; [done|]. split; [done|].
    split; [by intros ? ? [= <-]|]. split; [done|]. split; [done|].
    by intros ? ? [= <-]. }
  assert (found <> ∅) as Hne.
  { intros ->. by rewrite map_size_empty in Hsize. }
  destruct (PdfUtils.create_pdf_from_studies found _ _) as [pdf|e] eqn:Epdf;
    cbn [of_result App_try mbind App_bind mret App_ret throw app].
  2:{ match goal with
      | |- context [send_log_callback env ?a ?b ?c ?d ?e ?f ?g] =>
          destruct (send_log_callback_returns env a b c d e f g)
            as (tr & sent & -> & Hcb & Hlen)
      end.
      cbn [App_try mbind App_bind mret App_ret throw app error_str].
      eexists _, _. split; [reflexivity|]. split; [done|].
      rewrite app_nil_r. split; [done|]. split; [done|].
      split; [intros ? ? [= <-] _; congruence|]. split; [done|].
      split; [by intros [= ->]|].
      intros ? ? [= <-] _. congruence. }
  match goal with
  | |- context [send_log_callback env ?a ?b ?c ?d ?e ?f ?g] =>
      destruct (send_log_callback_returns env a b c d e f g)
        as (tr & sent & -> & Hcb & Hlen)
  end.
  cbn [App_try mbind App_bind mret App_ret throw app].
  eexists _, _. split; [reflexivity|]. split; [done|].
  rewrite app_nil_r. split; [done|]. split; [done|].
  split; [intros ? ? [= <-] _; congruence|]. split; [done|].
  split; [by intros [= ->]|].
  intros ? ? [= <-] _. congruence.
Qed.

(** X24.  The asynchronous endpoint leaves [processed_requests] as it
    was when it raises: with status 409 for a key that is held, with
    status 500 for an empty callback URL.  When it accepts a request the
    key was free and is now held, the same request is refused with
    status 409 from any client while it is held, and the background
    task that was scheduled sets [processed_requests] back to what it
    was before the request. *)
Theorem render_dicom_to_pdf_async_holds_key (env : Env)
    (render_request : RenderRequest.t) (request : ClientRequest)
    (processed_requests : gset string) :
  let key :=
    process_key (RenderRequest.examID render_request)
      (RenderRequest.pacs_studies_iuid render_request) in
  match render_dicom_to_pdf_async env render_request request
          processed_requests with
  | (Return (accepted, task), held) =>
      (key ∉ processed_requests) /\
      RenderRequest.UrlCallback render_request <> "" /\
      held = {[key]} ∪ processed_requests /\
      task = {| task_request := render_request;
                task_callback_url := RenderRequest.UrlCallback render_request |} /\
      (forall other,
         exists detail,
           render_dicom_to_pdf_async env render_request other held
           = (Throw (HTTPException 409 detail), held)) /\
      snd (process_dicom_async env (task_request task)
             (task_callback_url task) held) = processed_requests
  | (Throw e, kept) =>
      kept = processed_requests /\
      ((key ∈ processed_requests /\ exists detail, e = HTTPException 409 detail)
       \/ ((key ∉ processed_requests) /\
           RenderRequest.UrlCallback render_request = "" /\
           exists detail, e = HTTPException 500 detail))
  end.
Proof.
  cbv zeta. unfold render_dicom_to_pdf_async.
  set (key := process_key _ _).
  destruct (decide (key ∈ processed_requests)) as [Hin|Hout].
  - rewrite bool_decide_eq_true_2 by done. split; [done|]. left.
    split; [done|]. by eexists.
  - rewrite bool_decide_eq_false_2 by done.
    assert (({[key]} ∪ processed_requests) ∖ {[key]} = processed_requests)
      as Hback.
    { apply leibniz_equiv. intros x. rewrite elem_of_difference, elem_of_union,
        elem_of_singleton. split; [intros [[?|?] ?]; done|].
      intros Hx. split; [by right|]. by intros ->. }
    destruct (String.eqb_spec (RenderRequest.UrlCallback render_request) "")
      as [Hurl|Hurl].
    + rewrite Hurl. cbn [truthy_str String.eqb negb].
      rewrite release_difference. split; [done|]. right.
      split; [done|]. split; [done|]. by eexists.
    + assert (truthy_str (RenderRequest.UrlCallback render_request) = true)
        as -> by (by apply truthy_str_spec).
      cbn [negb]. split; [done|]. split; [done|]. split; [done|].
      split; [done|]. split.
      * intros other. fold key.
        rewrite bool_decide_eq_true_2 by (apply elem_of_union_l; by apply elem_of_singleton).
        by eexists.
      * unfold process_dicom_async. cbn [snd task_request task_callback_url].
        fold key. by rewrite release_difference.
Qed.
End Service.

(** ** Access control on an example *)

Section AccessRuns.

Import Py Main ServiceSpec Examples.

Lemma forwarded_header_passes_ip_check_witness :
  "10.0.0.2" ∈ allowed_ips service /\
  validate_client_ip service outside_client = false /\
  validate_client_ip service (with_forwarded outside_client "10.0.0.2") = true /\
  validate_client_ip service
    (with_forwarded outside_client ("10.0.0.2" ++ "," ++ " 203.0.113.7")) = true.
Proof.
  assert ("10.0.0.2" ∈ allowed_ips service) as Hip.
  { apply list_elem_of_In. vm_compute. right. by left. }
  split; [exact Hip|]. split; [reflexivity|].
  exact (forwarded_header_passes_ip_check service outside_client "10.0.0.2"
           " 203.0.113.7" Hip).
Defined.

End AccessRuns.

(** ** The query of an instance request *)

Section Encoding.

Import Py DicomwebUtils RetrievalSpec.

Lemma hex_digit_safe (n : N) : (n < 16)%N -> url_safe (hex_digit n) = true.
Proof.
  intros Hn. unfold hex_digit.
  assert (n ∈ [0;1;2;3;4;5;6;7;8;9;10;11;12;13;14;15]%N) as Hcases.
  { rewrite !elem_of_cons. lia. }
  rewrite !elem_of_cons, elem_of_nil in Hcases.
  repeat (destruct Hcases as [->|Hcases]; [reflexivity|]). done.
Qed.

Lemma quote_plus_char_safe (c : ascii) :
  Forall (fun c' => url_safe c' = true) (quote_plus_char c).
Proof.
  unfold quote_plus_char.
  destruct (_ || _) eqn:E.
  - constructor; [|constructor]. unfold url_safe.
    rewrite <- !orb_assoc in E |- *.
    repeat (apply orb_true_iff in E as [E|E]; [rewrite E; by rewrite ?orb_true_r|]).
    rewrite E. by rewrite ?orb_true_r.
  - destruct (Ascii.eqb c " "); [by repeat constructor|].
    assert (N_of_ascii c < 256)%N as Hc by apply N_ascii_bounded.
    repeat constructor.
    + apply hex_digit_safe. apply N.Div0.div_lt_upper_bound. lia.
    + apply hex_digit_safe. by apply N.mod_lt.
Qed.

Lemma quote_plus_safe (s : string) :
  Forall (fun c => url_safe c = true) (list_ascii_of_string (quote_plus s)).
Proof.
  unfold quote_plus. rewrite list_ascii_of_string_of_list_ascii.
  induction (list_ascii_of_string s) as [|c l IH]; cbn [flat_map]; [constructor|].
  apply Forall_app. split; [apply quote_plus_char_safe|done].
Qed.

Local Arguments rstrip : simpl never.
Local Arguments exn_str : simpl never.
Local Arguments String.append : simpl never.
Local Arguments quote_plus : simpl never.

(** X29.  A request that [download_dicom_instance] sends goes to the
    configured URL, stripped of trailing slashes, followed by
    [/images?studyUID=..&seriesUID=..&objectUID=..] where each value is
    the [quote_plus] encoding of the uid and consists of letters,
    digits and the characters [_ . - ~ + %] only: a uid cannot add a
    parameter or cut the query short. *)
Theorem instance_query_is_encoded
    (env : Env) (study_uid series_uid sop_uid : string) (req : Request) :
  req ∈ requests (fst (download_dicom_instance env study_uid series_uid sop_uid)) ->
  exists base,
    get_dicom_wado_url env = Ok base /\
    req_url req
    = rstrip is_slash base ++ "/images?"
      ++ "studyUID=" ++ quote_plus study_uid
      ++ "&seriesUID=" ++ quote_plus series_uid
      ++ "&objectUID=" ++ quote_plus sop_uid /\
    Forall (fun uid =>
              Forall (fun c => url_safe c = true)
                (list_ascii_of_string (quote_plus uid)))
      [study_uid; series_uid; sop_uid].
Proof.
  unfold download_dicom_instance.
  unfold mbind, IO_bind, IO_try, lift, send, raise, log, mret, IO_ret.
  destruct (get_dicom_wado_url env) as [base|e] eqn:Eurl; cbn.
  { match goal with
    | |- context [urlopen env ?r] => set (sent := r)
    end.
    assert (req ∈ [sent] -> req = sent) as Hone by (by intros ->%list_elem_of_singleton).
    intros Hreq. exists base. split; [done|]. split.
    - assert (req = sent) as ->.
      { apply Hone. revert Hreq.
        destruct (urlopen env sent) as [response|]; cbn; [|done].
        destruct (status response =? 200); cbn; [|done].
        destruct (read response) as [data|]; cbn; [|done].
        by destruct (dcmread env data). }
      subst sent. cbn [req_url]. reflexivity.
    - repeat constructor; apply quote_plus_safe. }
  by intros ?%elem_of_nil.
Qed.
End Encoding.

(** ** The cover page *)

Section Cover.

Import Py ImageUtils PdfUtils DocumentSpec.

Context {lib : ArrayLib} {doc : DocLib}.

Lemma get_frame_count_nonneg (dataset : Dataset) : 0 <= get_frame_count dataset.
Proof.
  unfold get_frame_count, mbind, result_bind.
  destruct (NumberOfFrames dataset) as [n|]; cbn [getattr].
  - destruct (Z.ltb_spec 1 n); [lia|].
    destruct (pixel_array dataset) as [a|]; [|lia].
    destruct (shape a) as [|n0 [|n1 [|n2 rest]]]; try lia.
    destruct (_ =? 3)%nat; [lia|]. destruct (_ && _); lia.
  - destruct (pixel_array dataset) as [a|]; [|lia].
    destruct (shape a) as [|n0 [|n1 [|n2 rest]]]; try lia.
    destruct (_ =? 3)%nat; [lia|]. destruct (_ && _); lia.
Qed.

Lemma total_frames_sum (l : list Models.Dataset) (total : Z) :
  foldl (fun total instance => total + get_frame_count (pixels_of instance))
    total l
  = total + Z.of_nat (sum_list_with frames_of_instance l).
Proof.
  revert total. induction l as [|d l IH]; intros total;
    cbn [foldl sum_list_with]; [lia|].
  rewrite IH. unfold frames_of_instance at 2.
  pose proof (get_frame_count_nonneg (pixels_of d)). lia.
Qed.

Section AllParagraphsBuild.

Hypothesis Hok : forall text, markup_ok text = true.

(** X30.  When every paragraph can be built, the number of images that
    the cover page reports for a series is the number of pages that the
    document holds for that series. *)
Theorem cover_page_counts_the_pages (series : Models.DicomSeries.t) :
  series_summary series
  = "‚Ä¢ <b>"
    ++ or_default (Models.DicomSeries.modality series) "Unknown"
    ++ "</b> - "
    ++ or_default (Models.DicomSeries.series_description series) "No description"
    ++ " ("
    ++ str_int (Z.of_nat (length (Models.DicomSeries.instances series)))
    ++ " instances, "
    ++ str_int (Z.of_nat (page_breaks (series_pages series)))
    ++ " images)".
Proof.
  unfold series_summary. rewrite total_frames_sum.
  destruct (series_pages_breaks Hok series) as [-> _]. reflexivity.
Qed.

(** X26.  When every paragraph can be built, the anonymized cover page
    is the same whatever the patient name and patient ID of the study;
    it shows the two [ANONYMIZED] lines, and still shows the accession
    number and the study UID.  Without cover pages the [anonymize] flag
    changes nothing in the document. *)
Theorem anonymized_cover_page (study : Models.DicomStudy.t) (name id : string) :
  exists elements,
    create_cover_page study true = Ok elements /\
    create_cover_page (with_patient study name id) true = Ok elements /\
    Paragraph "<b>Patient:</b> [ANONYMIZED]" info_style ∈ elements /\
    Paragraph "<b>Patient ID:</b> [ANONYMIZED]" info_style ∈ elements /\
    Paragraph ("<b>Accession Number:</b> "
               ++ or_default (Models.DicomStudy.accession_number study) "Unknown")
      info_style ∈ elements /\
    Paragraph ("<b>Study UID:</b> " ++ Models.DicomStudy.study_uid study)
      info_style ∈ elements /\
    (forall studies,
       document_elements studies true false
       = document_elements studies false false).
Proof.
  unfold create_cover_page.
  cbn [with_patient Models.DicomStudy.study_uid Models.DicomStudy.series
       Models.DicomStudy.study_date Models.DicomStudy.accession_number].
  repeat (rewrite ?(mk_paragraph_ok Hok), ?(summary_paragraphs Hok);
          cbn [mbind result_bind]).
  eexists. split; [reflexivity|]. split; [reflexivity|].
  rewrite !elem_of_app, !elem_of_cons.
  split; [tauto|]. split; [tauto|]. split; [tauto|]. split; [tauto|].
  done.
Qed.

End AllParagraphsBuild.

End Cover.

(** ** Health and delivery reports *)

Section ServiceReports.

Import Py Main ServiceSpec.

Context {lib : ImageUtils.ArrayLib} {doc : PdfUtils.DocLib}.

Local Arguments String.append : simpl never.

(** X27.  [health_check] posts nothing; it raises status 403 exactly for
    the requests that [validate_client_ip] rejects.  What it returns
    agrees with that check: it counts the allowed addresses, reports
    ["disabled"] exactly when every request is admitted and
    ["enabled"] exactly when some request is rejected. *)
Theorem health_check_reports_validation (env : Env) (request : ClientRequest) :
  match health_check env request with
  | (tr, Return health) =>
      tr = [] /\
      validate_client_ip env request = true /\
      health_status health = "ok" /\
      allowed_ips_count health = Z.of_nat (length (allowed_ips env)) /\
      (ip_validation health = "disabled"
       <-> forall other, validate_client_ip env other = true) /\
      (ip_validation health = "enabled"
       <-> exists other, validate_client_ip env other = false)
  | (tr, Throw e) =>
      tr = [] /\
      validate_client_ip env request = false /\
      exists detail, e = HTTPException 403 detail
  end.
Proof.
  unfold health_check, check_ip_access.
  destruct (validate_client_ip env request) eqn:Ev;
    cbn [negb mbind App_bind mret App_ret throw app].
  2:{ split; [done|]. split; [done|]. by eexists. }
  split; [done|]. split; [done|]. split; [done|].
  cbn [allowed_ips_count ip_validation].
  assert ((if truthy_str (Models.getattr (ALLOWED_CLIENT_IPS env) "")
           then stripped_entries (Models.getattr (ALLOWED_CLIENT_IPS env) "")
           else []) = allowed_ips env) as ->.
  { unfold allowed_ips.
    destruct (String.eqb_spec (Models.getattr (ALLOWED_CLIENT_IPS env) "") "")
      as [->|Hne]; [done|].
    by rewrite (proj2 (truthy_str_spec _) Hne). }
  split; [done|]. rewrite validate_client_ip_all_iff.
  destruct (allowed_ips env) as [|ip ips] eqn:E.
  - split; [done|]. split; [done|]. intros [other Hother].
    by rewrite (proj2 (validate_client_ip_all_iff env) E other) in Hother.
  - split; [done|]. split; [|done]. intros _.
    apply validate_client_ip_rejects. by rewrite E.
Qed.

(** X28.  [send_callback] never raises.  It posts once to the callback
    URL, with a timeout of 30 and a body of the PDF and the three
    codes, then at most once to the log URL, and it returns [True]
    exactly when the callback post was answered with status 200. *)
Theorem send_callback_outcome (env : Env) (callback_url : string)
    (payload : CallbackPayloadSantana.t) :
  exists post logs delivered,
    send_callback env callback_url payload
    = (CallbackPost post :: logs, Return delivered) /\
    post_url post = callback_url /\
    post_timeout post = 30 /\
    post_json post
    = {[ "PDF" := JStr (CallbackPayloadSantana.ImagensPDF payload);
         "CodAutorizacao" := JStr (CallbackPayloadSantana.CodAutorizacao payload);
         "CodFaturamento" := JStr (CallbackPayloadSantana.CodFaturamento payload);
         "CodProcedimento" :=
           JStr (CallbackPayloadSantana.CodProcedimento payload) ]} /\
    callback_posts logs = [] /\ (length logs <= 1)%nat /\
    (delivered = true
     <-> exists response,
           httpx_post env post = Ok response /\ status_code response = 200).
Proof.
  unfold send_callback, posting.
  match goal with
  | |- context [httpx_post env ?p] =>
      set (post := p); destruct (httpx_post env post) as [response|e] eqn:Ep
  end; cbn [App_try mbind App_bind mret App_ret throw app].
  - destruct (Z.eqb_spec (status_code response) 200) as [Hs|Hs];
      match goal with
      | |- context [send_log_callback env ?a ?b ?c ?d ?e ?f ?g] =>
          destruct (send_log_callback_returns env a b c d e f g)
            as (tr & sent & -> & Hcb & Hlen)
      end;
      cbn [App_try mbind App_bind mret App_ret throw app];
      eexists post, (tr ++ [])%list, _; rewrite app_nil_r;
      (split; [reflexivity|]); (split; [done|]); (split; [done|]);
      (split; [done|]); (split; [done|]); (split; [done|]).
    + split; [|done]. intros _. by exists response.
    + split; [done|]. intros (r & Hr & Hr'). congruence.
  - match goal with
    | |- context [send_log_callback env ?a ?b ?c ?d ?e ?f ?g] =>
        destruct (send_log_callback_returns env a b c d e f g)
          as (tr & sent & -> & Hcb & Hlen)
    end.
    cbn [App_try mbind App_bind mret App_ret throw app].
    eexists post, (tr ++ [])%list, _. rewrite app_nil_r.
    split; [reflexivity|]. split; [done|]. split; [done|].
    split; [done|]. split; [done|]. split; [done|].
    split; [done|]. intros (r & Hr & _). congruence.
Qed.
End ServiceReports.

(** ** Encoded queries, cover pages and reports on examples *)

Section ReportRuns.

Import Py ImageUtils PdfUtils DicomwebUtils RetrievalSpec DocumentSpec Examples.

#[local] Existing Instance Ref.lib.
#[local] Existing Instance plain_doc.

Lemma instance_query_is_encoded_witness :
  match requests (fst (download_dicom_instance good_server
                         "1.2.3" "1.2.3.1" "1&x=y")) with
  | [req] =>
      exists base,
        get_dicom_wado_url good_server = Ok base /\
        req_url req
        = rstrip is_slash base ++ "/images?"
          ++ "studyUID=" ++ quote_plus "1.2.3"
          ++ "&seriesUID=" ++ quote_plus "1.2.3.1"
          ++ "&objectUID=" ++ quote_plus "1&x=y" /\
        Forall (fun uid =>
                  Forall (fun c => url_safe c = true)
                    (list_ascii_of_string (quote_plus uid)))
          ["1.2.3"; "1.2.3.1"; "1&x=y"]
  | _ => False
  end.
Proof.
  destruct (requests (fst (download_dicom_instance good_server
                             "1.2.3" "1.2.3.1" "1&x=y")))
    as [|req [|req' l]] eqn:E.
  - vm_compute in E. discriminate E.
  - apply (instance_query_is_encoded good_server "1.2.3" "1.2.3.1" "1&x=y" req).
    rewrite E. left.
  - vm_compute in E. discriminate E.
Defined.

Lemma cover_page_counts_the_pages_witness :
  (forall text, markup_ok text = true) /\
  series_summary mixed_series
  = "‚Ä¢ <b>"
    ++ or_default (Models.DicomSeries.modality mixed_series) "Unknown"
    ++ "</b> - "
    ++ or_default (Models.DicomSeries.series_description mixed_series)
         "No description"
    ++ " ("
    ++ str_int (Z.of_nat (length (Models.DicomSeries.instances mixed_series)))
    ++ " instances, "
    ++ str_int (Z.of_nat (page_breaks (series_pages mixed_series)))
    ++ " images)".
Proof.
  split; [intros text; reflexivity|].
  exact (cover_page_counts_the_pages (fun _ => eq_refl) mixed_series).
Defined.

Lemma anonymized_cover_page_witness :
  (forall text, markup_ok text = true) /\
  exists elements,
    create_cover_page mixed_study true = Ok elements /\
    create_cover_page (with_patient mixed_study "ROE^JANE" "42") true
    = Ok elements /\
    Paragraph "<b>Patient:</b> [ANONYMIZED]" info_style ∈ elements /\
    Paragraph "<b>Patient ID:</b> [ANONYMIZED]" info_style ∈ elements /\
    Paragraph ("<b>Accession Number:</b> "
               ++ or_default (Models.DicomStudy.accession_number mixed_study)
                    "Unknown")
      info_style ∈ elements /\
    Paragraph ("<b>Study UID:</b> " ++ Models.DicomStudy.study_uid mixed_study)
      info_style ∈ elements /\
    (forall studies,
       document_elements studies true false
       = document_elements studies false false).
Proof.
  split; [intros text; reflexivity|].
  exact (anonymized_cover_page (fun _ => eq_refl) mixed_study "ROE^JANE" "42").
Defined.

End ReportRuns.
